(** * Voice-Agent backend: the Tool Executor and the Call Summarizer

    A shallow embedding of [src/server/voiceAgent.ts] ([executeToolCall],
    [generateCallSummary]), of the storage layer it calls
    ([src/server/storage.ts]), of the slot catalog ([src/shared/schema.ts])
    and of the handlers of [src/server/routes.ts] that work on the store:
    the sessions, the listings, the user lookup, the tool-execute route
    and the webhook.

    Conventions of the embedding:
    - a JavaScript string is a [string]; its characters stand for the code
      units 0..255;
    - a JavaScript number that holds an id or a count is a [Z];
    - [undefined]/[null] are [None];
    - a database table is the list of its rows in insertion order, so the
      position of a row stands for its [created_at] stamp;
    - every call of the storage object is recorded in a log, so that "no
      lookup occurs" and "no store write" are statements about the program;
    - an [await]ed storage call always returns (the claims are about runs
      in which the store operations succeed); a thrown [TypeError] is an
      explicit outcome. *)

From Stdlib Require Import ZArith List String Ascii Bool Lia DecimalString.
Import ListNotations.
Local Open Scope string_scope.
Local Open Scope Z_scope.

(** ** JavaScript primitives used by the sources *)

Module Js.

(** [\d] of a regular expression without the [u] flag: '0'..'9'. *)
Definition isDigit (c : ascii) : bool :=
  let n := N_of_ascii c in (48 <=? n)%N && (n <=? 57)%N.

(** [\s]: tab, line feed, vertical tab, form feed, carriage return, space,
    no-break space (the white space and line terminators below 256). *)
Definition isSpace (c : ascii) : bool :=
  let n := N_of_ascii c in
  ((9 <=? n)%N && (n <=? 13)%N) || (n =? 32)%N || (n =? 160)%N.

Fixpoint filter (p : ascii -> bool) (s : string) : string :=
  match s with
  | EmptyString => EmptyString
  | String c r => if p c then String c (filter p r) else filter p r
  end.

Fixpoint map (f : ascii -> ascii) (s : string) : string :=
  match s with
  | EmptyString => EmptyString
  | String c r => String (f c) (map f r)
  end.

Fixpoint forallb (p : ascii -> bool) (s : string) : bool :=
  match s with
  | EmptyString => true
  | String c r => p c && forallb p r
  end.

(** [s.replace(/\D/g, "")] *)
Definition stripNonDigits (s : string) : string := filter isDigit s.

(** [s.slice(i, j)] and [s.slice(i)] for [0 <= i <= j]. *)
Definition slice (i j : nat) (s : string) : string := substring i (j - i) s.
Definition sliceFrom (i : nat) (s : string) : string :=
  substring i (String.length s - i) s.

Definition lowerChar (c : ascii) : ascii :=
  let n := N_of_ascii c in
  if ((65 <=? n)%N && (n <=? 90)%N)
     || ((192 <=? n)%N && (n <=? 222)%N && negb (n =? 215)%N)
  then ascii_of_N (n + 32) else c.

(** Upper case of the letters a..z; the only use in the sources is on a
    matched [am]/[pm] marker. *)
Definition upperChar (c : ascii) : ascii :=
  let n := N_of_ascii c in
  if (97 <=? n)%N && (n <=? 122)%N then ascii_of_N (n - 32) else c.

Definition toLowerCase (s : string) : string := map lowerChar s.
Definition toUpperCase (s : string) : string := map upperChar s.

Fixpoint trimStart (s : string) : string :=
  match s with
  | EmptyString => EmptyString
  | String c r => if isSpace c then trimStart r else s
  end.

(** Drops the white space at the end: a suffix is kept from the first
    character after which something that is not white space remains. *)
Fixpoint trimEnd (s : string) : string :=
  match s with
  | EmptyString => EmptyString
  | String c r =>
      match trimEnd r with
      | EmptyString => if isSpace c then EmptyString else String c EmptyString
      | r' => String c r'
      end
  end.

Definition trim (s : string) : string := trimEnd (trimStart s).

(** [s.slice(-n)]: the last [n] characters. *)
Definition sliceLast (n : nat) (s : string) : string :=
  substring (String.length s - n) n s.

(** [String(n)] for an integer. *)
Definition numberToString (n : Z) : string :=
  NilZero.string_of_int (Z.to_int n).

(** [xs.join(sep)] *)
Fixpoint join (sep : string) (xs : list string) : string :=
  match xs with
  | [] => ""
  | [x] => x
  | x :: r => x ++ sep ++ join sep r
  end.

(** Truthiness of [string | undefined] and of [number | undefined]. *)
Definition truthyStr (v : option string) : bool :=
  match v with
  | Some s => negb (s =? "")%string
  | None => false
  end.

Definition truthyNum (v : option Z) : bool :=
  match v with
  | Some n => negb (n =? 0)
  | None => false
  end.

(** A template literal prints a missing value as [undefined]. *)
Definition showStr (v : option string) : string :=
  match v with Some s => s | None => "undefined" end.

Definition showNum (v : option Z) : string :=
  match v with Some n => numberToString n | None => "undefined" end.

(** [a || b] on strings that may be missing. *)
Definition orElse (a b : option string) : option string :=
  if truthyStr a then a else b.

(** [v || ''] *)
Definition orEmpty (a : option string) : string :=
  if truthyStr a then showStr a else "".

(** [v || undefined] *)
Definition orUndefined (a : option string) : option string :=
  if truthyStr a then a else None.

(** [a === b] where [a] is a string and [b] may be missing. *)
Definition strictEq (a : string) (b : option string) : bool :=
  match b with Some s => (a =? s)%string | None => false end.

End Js.

(** ** Data model ([src/shared/schema.ts]) *)

Module User.
Record t := mk { id : Z; phoneNumber : string; name : option string }.
Definition setName (n : option string) (u : t) : t :=
  mk (id u) (phoneNumber u) n.
End User.

Module Appointment.
Record t := mk {
  id : Z;
  userId : Z;
  date : string;
  time : string;
  description : option string;
  status : string
}.
Definition isActive (a : t) : bool := negb (status a =? "cancelled")%string.
End Appointment.

(** The object [generateCallSummary] builds from an appointment; its
    serialisation is what [booked_appointments] holds. *)
Module ApptView.
Record t := mk {
  id : Z;
  date : string;
  time : string;
  description : option string;
  status : string
}.
Definition ofAppointment (a : Appointment.t) : t :=
  mk (Appointment.id a) (Appointment.date a) (Appointment.time a)
     (Js.orUndefined (Appointment.description a)) (Appointment.status a).
End ApptView.

(** The JSON text columns [booked_appointments] and [user_preferences] are
    represented by the value that was serialised. *)
Module CallSession.
Record t := mk {
  id : Z;
  userId : option Z;
  phoneNumber : option string;
  status : string;
  transcript : option string;
  summary : option string;
  bookedAppointments : option (list ApptView.t);
  userPreferences : option (list string)
}.
End CallSession.

(** The argument bag of a tool call, [Record<string, unknown>] read at the
    types the tool definitions declare; a missing key is [None]. *)
Module Args.
Record t := mk {
  phone_number : option string;
  name : option string;
  date : option string;
  time : option string;
  description : option string;
  appointment_id : option Z;
  new_date : option string;
  new_time : option string
}.
Definition empty : t := mk None None None None None None None None.
End Args.

(** A row of [tool_calls]; [parameters] holds the serialised argument bag,
    represented by the bag. *)
Module ToolCall.
Record t := mk {
  id : Z;
  sessionId : Z;
  toolName : string;
  parameters : option Args.t;
  result : option string
}.
End ToolCall.

Record Slot := mkSlot { slotDate : string; slotTime : string }.

(** [availableSlots], the fixed catalog. *)
Definition availableSlots : list Slot :=
  [ mkSlot "2026-01-28" "09:00 AM"; mkSlot "2026-01-28" "10:00 AM";
    mkSlot "2026-01-28" "02:00 PM"; mkSlot "2026-01-28" "03:00 PM";
    mkSlot "2026-01-29" "09:00 AM"; mkSlot "2026-01-29" "11:00 AM";
    mkSlot "2026-01-29" "01:00 PM"; mkSlot "2026-01-29" "04:00 PM";
    mkSlot "2026-01-30" "10:00 AM"; mkSlot "2026-01-30" "02:00 PM";
    mkSlot "2026-01-30" "03:30 PM";
    mkSlot "2026-01-31" "09:00 AM"; mkSlot "2026-01-31" "11:30 AM";
    mkSlot "2026-01-31" "02:00 PM";
    mkSlot "2026-02-01" "10:00 AM"; mkSlot "2026-02-01" "01:00 PM";
    mkSlot "2026-02-01" "03:00 PM" ].

(** ** The store ([src/server/storage.ts]) *)

Record Store := mkStore {
  users : list User.t;
  appointments : list Appointment.t;
  callSessions : list CallSession.t;
  toolCalls : list ToolCall.t;
  (** the [serial] sequences of the three tables that are inserted into *)
  nextUserId : Z;
  nextAppointmentId : Z;
  nextToolCallId : Z
}.

(** One entry per call of a method of the [storage] object. *)
Inductive StoreOp :=
| OpGetUser (id : Z)
| OpGetUserByPhoneNumber (phone : string)
| OpCreateUser (phone : string)
| OpUpdateUser (id : Z)
| OpGetAppointment (id : option Z)
| OpGetAppointmentsByUser (userId : Z)
| OpCreateAppointment (userId : Z)
| OpUpdateAppointment (id : Z)
| OpCancelAppointment (id : Z)
| OpGetBookedSlots
| OpGetCallSession (id : Z)
| OpUpdateCallSession (id : Z)
| OpEndCallSession (id : Z)
| OpCreateToolCall (sessionId : Z)
| OpGetToolCallsBySession (sessionId : Z).

Definition isWrite (op : StoreOp) : bool :=
  match op with
  | OpCreateUser _ | OpUpdateUser _ | OpCreateAppointment _
  | OpUpdateAppointment _ | OpCancelAppointment _ | OpUpdateCallSession _
  | OpEndCallSession _ | OpCreateToolCall _ => true
  | _ => false
  end.

(** The database together with the log of the storage calls made so far
    (oldest first). *)
Record World := mkWorld { db : Store; log : list StoreOp }.

(** What a run can throw: a [TypeError] of the language, or the rejection of
    the call to the language model. *)
Inductive Exn := TypeError | LlmError.

Inductive Result (A : Type) :=
| Ok (a : A)
| Throw (e : Exn).
Arguments Ok {A} a.
Arguments Throw {A} e.

(** An [async] computation over the store: it ends with a value or with a
    thrown exception, and the writes made before a throw stay. *)
Definition M (A : Type) : Type := World -> Result A * World.

Definition ret {A} (a : A) : M A := fun w => (Ok a, w).

Definition bind {A B} (m : M A) (k : A -> M B) : M B :=
  fun w =>
    match m w with
    | (Ok a, w') => k a w'
    | (Throw e, w') => (Throw e, w')
    end.

Definition throw {A} (e : Exn) : M A := fun w => (Throw e, w).

Declare Scope js_scope.
Delimit Scope js_scope with js.
Notation "x <- m ;; k" := (bind m (fun x => k))
  (at level 61, m at next level, right associativity) : js_scope.
Notation "m ;;; k" := (bind m (fun _ => k))
  (at level 61, right associativity) : js_scope.
Local Open Scope js_scope.

(** A storage call: logs itself, reads the database, may replace it. *)
Definition storageCall {A} (op : StoreOp) (f : Store -> A * Store) : M A :=
  fun w =>
    let '(a, s) := f (db w) in
    (Ok a, mkWorld s (log w ++ [op])).

Definition storageRead {A} (op : StoreOp) (f : Store -> A) : M A :=
  storageCall op (fun s => (f s, s)).

Module storage.

Definition setUsers (us : list User.t) (s : Store) : Store :=
  mkStore us (appointments s) (callSessions s) (toolCalls s)
          (nextUserId s) (nextAppointmentId s) (nextToolCallId s).

Definition setAppointments (l : list Appointment.t) (s : Store) : Store :=
  mkStore (users s) l (callSessions s) (toolCalls s)
          (nextUserId s) (nextAppointmentId s) (nextToolCallId s).

Definition setCallSessions (l : list CallSession.t) (s : Store) : Store :=
  mkStore (users s) (appointments s) l (toolCalls s)
          (nextUserId s) (nextAppointmentId s) (nextToolCallId s).

(** [UPDATE ... WHERE id = ... RETURNING *] followed by [const [row] = ...]:
    every row with the id is replaced, the first one is returned. *)
Definition updateWhere {R} (sel : R -> bool) (f : R -> R) (rows : list R)
  : list R :=
  List.map (fun r => if sel r then f r else r) rows.

Definition getUser (id : Z) : M (option User.t) :=
  storageRead (OpGetUser id)
    (fun s => find (fun u => User.id u =? id) (users s)).

Definition getUserByPhoneNumber (phoneNumber : string) : M (option User.t) :=
  storageRead (OpGetUserByPhoneNumber phoneNumber)
    (fun s => find (fun u => (User.phoneNumber u =? phoneNumber)%string)
                   (users s)).

Definition createUser (phoneNumber : string) (name : option string)
  : M User.t :=
  storageCall (OpCreateUser phoneNumber)
    (fun s =>
       let user := User.mk (nextUserId s) phoneNumber name in
       (user,
        mkStore (users s ++ [user]) (appointments s) (callSessions s)
                (toolCalls s) (nextUserId s + 1) (nextAppointmentId s)
                (nextToolCallId s))).

(** [updateUser(id, { name })]: the only patch the sources pass. *)
Definition updateUser (id : Z) (name : string) : M (option User.t) :=
  storageCall (OpUpdateUser id)
    (fun s =>
       let us := updateWhere (fun u => User.id u =? id)
                             (User.setName (Some name)) (users s) in
       (find (fun u => User.id u =? id) us, setUsers us s)).

(** [SELECT ... WHERE id = ...], first row; no row for a missing id. *)
Definition appointmentById (id : option Z) (s : Store)
  : option Appointment.t :=
  match id with
  | Some i => find (fun a => Appointment.id a =? i) (appointments s)
  | None => None
  end.

Definition getAppointment (id : option Z) : M (option Appointment.t) :=
  storageRead (OpGetAppointment id) (appointmentById id).

(** Ordered by [created_at] descending: newest row first. *)
Definition getAppointmentsByUser (userId : Z) : M (list Appointment.t) :=
  storageRead (OpGetAppointmentsByUser userId)
    (fun s => rev (List.filter (fun a => Appointment.userId a =? userId)
                               (appointments s))).

Definition createAppointment (userId : Z) (date time : string)
           (description : option string) (status : string)
  : M Appointment.t :=
  storageCall (OpCreateAppointment userId)
    (fun s =>
       let created :=
         Appointment.mk (nextAppointmentId s) userId date time description
                        status in
       (created,
        mkStore (users s) (appointments s ++ [created]) (callSessions s)
                (toolCalls s) (nextUserId s) (nextAppointmentId s + 1)
                (nextToolCallId s))).

(** The patches the sources pass to [updateAppointment]. *)
Record AppointmentPatch := mkPatch {
  patchDate : option string;
  patchTime : option string;
  patchStatus : option string
}.

Definition applyPatch (p : AppointmentPatch) (a : Appointment.t)
  : Appointment.t :=
  Appointment.mk (Appointment.id a) (Appointment.userId a)
    (match patchDate p with Some d => d | None => Appointment.date a end)
    (match patchTime p with Some t => t | None => Appointment.time a end)
    (Appointment.description a)
    (match patchStatus p with Some st => st | None => Appointment.status a end).

Definition updateAppointment (id : Z) (data : AppointmentPatch)
  : M (option Appointment.t) :=
  storageCall (OpUpdateAppointment id)
    (fun s =>
       let l := updateWhere (fun a => Appointment.id a =? id)
                            (applyPatch data) (appointments s) in
       (find (fun a => Appointment.id a =? id) l, setAppointments l s)).

Definition cancelAppointment (id : Z) : M (option Appointment.t) :=
  storageCall (OpCancelAppointment id)
    (fun s =>
       let l := updateWhere (fun a => Appointment.id a =? id)
                            (applyPatch (mkPatch None None (Some "cancelled")))
                            (appointments s) in
       (find (fun a => Appointment.id a =? id) l, setAppointments l s)).

(** All rows whose status is not [cancelled], over all users. *)
Definition getBookedSlots : M (list Slot) :=
  storageRead OpGetBookedSlots
    (fun s => List.map (fun a => mkSlot (Appointment.date a)
                                        (Appointment.time a))
                       (List.filter Appointment.isActive (appointments s))).

Definition getCallSession (id : Z) : M (option CallSession.t) :=
  storageRead (OpGetCallSession id)
    (fun s => find (fun c => CallSession.id c =? id) (callSessions s)).

(** [updateCallSession(id, { userId, phoneNumber })] *)
Definition updateCallSession (id : Z) (userId : Z) (phoneNumber : string)
  : M (option CallSession.t) :=
  storageCall (OpUpdateCallSession id)
    (fun s =>
       let l := updateWhere (fun c => CallSession.id c =? id)
                  (fun c => CallSession.mk (CallSession.id c) (Some userId)
                              (Some phoneNumber) (CallSession.status c)
                              (CallSession.transcript c)
                              (CallSession.summary c)
                              (CallSession.bookedAppointments c)
                              (CallSession.userPreferences c))
                  (callSessions s) in
       (find (fun c => CallSession.id c =? id) l, setCallSessions l s)).

(** The three snapshots are always passed by the callers; a missing
    [transcript] is an [undefined] key of the patch and leaves the column as
    it is.  The time stamp [endedAt] is not part of the model. *)
Definition endCallSession (id : Z) (summary : string)
           (bookedAppointments : list ApptView.t)
           (userPreferences : list string) (transcript : option string)
  : M (option CallSession.t) :=
  storageCall (OpEndCallSession id)
    (fun s =>
       let l := updateWhere (fun c => CallSession.id c =? id)
                  (fun c => CallSession.mk (CallSession.id c)
                              (CallSession.userId c)
                              (CallSession.phoneNumber c) "ended"
                              (match transcript with
                               | Some t => Some t
                               | None => CallSession.transcript c
                               end)
                              (Some summary)
                              (Some bookedAppointments)
                              (Some userPreferences))
                  (callSessions s) in
       (find (fun c => CallSession.id c =? id) l, setCallSessions l s)).

Definition createToolCall (sessionId : Z) (toolName : string)
           (parameters : Args.t) : M ToolCall.t :=
  storageCall (OpCreateToolCall sessionId)
    (fun s =>
       let created := ToolCall.mk (nextToolCallId s) sessionId toolName
                                  (Some parameters) None in
       (created,
        mkStore (users s) (appointments s) (callSessions s)
                (toolCalls s ++ [created]) (nextUserId s)
                (nextAppointmentId s) (nextToolCallId s + 1))).

Definition getToolCallsBySession (sessionId : Z) : M (list ToolCall.t) :=
  storageRead (OpGetToolCallsBySession sessionId)
    (fun s => List.filter (fun t => ToolCall.sessionId t =? sessionId)
                          (toolCalls s)).

End storage.


(** ** The Tool Executor ([executeToolCall], [src/server/voiceAgent.ts]) *)

Module ConversationContext.
Record t := mk {
  sessionId : Z;
  userId : option Z;
  phoneNumber : option string;
  userName : option string;
  messages : list (string * string)
}.
End ConversationContext.

Record ToolOutcome := mkOutcome {
  result : string;
  context : ConversationContext.t;
  endCall : bool
}.

Definition sameSlot (d t : string) (s : Slot) : bool :=
  ((slotDate s =? d) && (slotTime s =? t))%string.

(** [s.date === date && s.time === time] against arguments that may be
    missing. *)
Definition slotIs (date time : option string) (s : Slot) : bool :=
  Js.strictEq (slotDate s) date && Js.strictEq (slotTime s) time.

Definition plural (n : nat) : string := if (1 <? n)%nat then "s" else "".

Definition identify_user (args : Args.t) (context : ConversationContext.t)
  : M ToolOutcome :=
  match Args.phone_number args with
  | None => throw TypeError (* [phoneNumber.replace] on [undefined] *)
  | Some phoneNumber =>
      let digitsOnly := Js.stripNonDigits phoneNumber in
      if (10 <? String.length digitsOnly)%nat then
        ret (mkOutcome
               ("I heard " ++ phoneNumber ++
                ", but that seems to have more than 10 digits. Could you please repeat your phone number slowly?")
               context false)
      else if (String.length digitsOnly <? 10)%nat then
        ret (mkOutcome
               ("I heard " ++ phoneNumber ++
                ", but that seems to have fewer than 10 digits. Could you please repeat your complete phone number?")
               context false)
      else
        found <- storage.getUserByPhoneNumber digitsOnly ;;
        let formattedPhone :=
          Js.slice 0 3 digitsOnly ++ "-" ++ Js.slice 3 6 digitsOnly ++ "-" ++
          Js.sliceFrom 6 digitsOnly in
        ur <- match found with
              | None =>
                  user <- storage.createUser digitsOnly None ;;
                  ret (user,
                       "Just to confirm, your phone number is " ++
                       formattedPhone ++
                       ". I've created a new account for you. You don't have any appointments scheduled yet. Would you like to book an appointment?")
              | Some user =>
                  appointments <- storage.getAppointmentsByUser (User.id user) ;;
                  let active := List.filter Appointment.isActive appointments in
                  let appointmentInfo :=
                    match active with
                    | [] => "You don't have any appointments scheduled."
                    | _ =>
                        let list :=
                          Js.join "; "
                            (List.map
                               (fun a =>
                                  Appointment.date a ++ " at " ++
                                  Appointment.time a ++
                                  (if Js.truthyStr (Appointment.description a)
                                   then " for " ++
                                        Js.showStr (Appointment.description a)
                                   else ""))
                               active) in
                        "You have " ++
                        Js.numberToString (Z.of_nat (List.length active)) ++
                        " appointment" ++ plural (List.length active) ++ ": " ++
                        list ++ "."
                    end in
                  ret (user,
                       "Just to confirm, your phone number is " ++
                       formattedPhone ++ ". Welcome back" ++
                       (if Js.truthyStr (User.name user)
                        then " " ++ Js.showStr (User.name user) else "") ++
                       "! " ++ appointmentInfo ++
                       " Would you like to book a new appointment, or modify or cancel an existing one?")
              end ;;
        let '(user, result) := ur in
        let context' :=
          ConversationContext.mk (ConversationContext.sessionId context)
            (Some (User.id user)) (Some digitsOnly)
            (Js.orUndefined (User.name user))
            (ConversationContext.messages context) in
        storage.updateCallSession (ConversationContext.sessionId context)
                                  (User.id user) digitsOnly ;;;
        ret (mkOutcome result context' false)
  end.

Definition slotKey (s : Slot) : string := slotDate s ++ "-" ++ slotTime s.

Definition fetch_slots (args : Args.t) (context : ConversationContext.t)
  : M ToolOutcome :=
  let dateFilter := Args.date args in
  bookedSlots <- storage.getBookedSlots ;;
  let bookedSet := List.map slotKey bookedSlots in
  let available :=
    List.filter
      (fun slot => negb (existsb (String.eqb (slotKey slot)) bookedSet))
      availableSlots in
  let available :=
    if Js.truthyStr dateFilter
    then List.filter (fun slot => Js.strictEq (slotDate slot) dateFilter)
                     available
    else available in
  let result :=
    match available with
    | [] =>
        if Js.truthyStr dateFilter
        then "No available slots on " ++ Js.showStr dateFilter ++
             ". Would you like to check another date?"
        else "No available slots at the moment. Please check back later."
    | _ =>
        let slotList :=
          Js.join ", "
            (List.map (fun s => slotDate s ++ " at " ++ slotTime s)
                      (firstn 5 available)) in
        "Available slots: " ++ slotList ++
        (if (5 <? List.length available)%nat
         then " and " ++
              Js.numberToString (Z.of_nat (List.length available - 5)) ++
              " more"
         else "") ++ "."
    end in
  ret (mkOutcome result context false).

Definition bookedText (date time : option string) : string :=
  "Sorry, the slot on " ++ Js.showStr date ++ " at " ++ Js.showStr time ++
  " is already booked. Would you like to pick another time?".

Definition notASlotText (date time : option string) : string :=
  "Sorry, " ++ Js.showStr date ++ " at " ++ Js.showStr time ++
  " is not an available slot. Let me show you what's available.".

Definition identifyFirstText : string :=
  "Please provide your phone number first so I can identify you before booking.".

(** The user id of the context when [context.userId] is truthy: the test
    [!context.userId] holds for no id and for the id 0. *)
Definition identified (context : ConversationContext.t) : option Z :=
  match ConversationContext.userId context with
  | Some userId => if userId =? 0 then None else Some userId
  | None => None
  end.

Definition book_appointment (args : Args.t) (context : ConversationContext.t)
  : M ToolOutcome :=
  match identified context with
  | None => ret (mkOutcome identifyFirstText context false)
  | Some userId =>
      let date := Args.date args in
      let time := Args.time args in
      let description := Args.description args in
      bookedSlots <- storage.getBookedSlots ;;
      let isSlotTaken := existsb (slotIs date time) bookedSlots in
      if isSlotTaken then ret (mkOutcome (bookedText date time) context false)
      else
        let isValidSlot := existsb (slotIs date time) availableSlots in
        if negb isValidSlot
        then ret (mkOutcome (notASlotText date time) context false)
        else
          (* a catalog slot: [date] and [time] are strings here *)
          appointment <- storage.createAppointment userId (Js.showStr date)
                           (Js.showStr time) description "scheduled" ;;
          ret (mkOutcome
                 ("Appointment booked successfully for " ++ Js.showStr date ++
                  " at " ++ Js.showStr time ++ ". Your appointment ID is " ++
                  Js.numberToString (Appointment.id appointment) ++ "." ++
                  (if Js.truthyStr description
                   then " Description: " ++ Js.showStr description else ""))
                 context false)
  end.

Definition retrieve_appointments (args : Args.t)
           (context : ConversationContext.t) : M ToolOutcome :=
  match identified context with
  | None =>
      ret (mkOutcome
             "Please provide your phone number first so I can look up your appointments."
             context false)
  | Some userId =>
      appointments <- storage.getAppointmentsByUser userId ;;
      let active := List.filter Appointment.isActive appointments in
      match active with
      | [] => ret (mkOutcome "You don't have any appointments scheduled."
                             context false)
      | _ =>
          let list :=
            Js.join "; "
              (List.map
                 (fun a =>
                    "ID " ++ Js.numberToString (Appointment.id a) ++ ": " ++
                    Appointment.date a ++ " at " ++ Appointment.time a ++
                    " (" ++ Appointment.status a ++ ")" ++
                    (if Js.truthyStr (Appointment.description a)
                     then " - " ++ Js.showStr (Appointment.description a)
                     else ""))
                 active) in
          ret (mkOutcome ("Your appointments: " ++ list) context false)
      end
  end.

Definition alreadyCancelledText : string :=
  "This appointment is already cancelled.".

Definition cancel_appointment (args : Args.t)
           (context : ConversationContext.t) : M ToolOutcome :=
  match identified context with
  | None =>
      ret (mkOutcome "Please provide your phone number first." context false)
  | Some userId =>
      let appointmentId := Args.appointment_id args in
      found <- storage.getAppointment appointmentId ;;
      match found with
      | None =>
          ret (mkOutcome
                 ("Appointment " ++ Js.showNum appointmentId ++ " not found.")
                 context false)
      | Some appointment =>
          if negb (Appointment.userId appointment =? userId) then
            ret (mkOutcome "You can only cancel your own appointments."
                           context false)
          else if (Appointment.status appointment =? "cancelled")%string then
            ret (mkOutcome alreadyCancelledText context false)
          else
            (* the appointment was found, so [appointmentId] is its id *)
            storage.cancelAppointment (Appointment.id appointment) ;;;
            ret (mkOutcome
                   ("Appointment " ++ Js.showNum appointmentId ++ " on " ++
                    Appointment.date appointment ++ " at " ++
                    Appointment.time appointment ++ " has been cancelled.")
                   context false)
      end
  end.

Definition conflictText (targetDate targetTime : string) : string :=
  "Sorry, " ++ targetDate ++ " at " ++ targetTime ++ " is already booked.".

Definition rescheduledText (appointmentId : option Z)
           (targetDate targetTime : string) : string :=
  "Appointment " ++ Js.showNum appointmentId ++ " has been rescheduled to " ++
  targetDate ++ " at " ++ targetTime ++ ".".

(** [newDate || appointment.date] *)
Definition orCurrent (new : option string) (current : string) : string :=
  if Js.truthyStr new then Js.showStr new else current.

Definition modify_appointment (args : Args.t)
           (context : ConversationContext.t) : M ToolOutcome :=
  match identified context with
  | None =>
      ret (mkOutcome "Please provide your phone number first." context false)
  | Some userId =>
      let appointmentId := Args.appointment_id args in
      let newDate := Args.new_date args in
      let newTime := Args.new_time args in
      if negb (Js.truthyStr newDate) && negb (Js.truthyStr newTime) then
        ret (mkOutcome
               "Please specify what you'd like to change - the date, time, or both."
               context false)
      else
        found <- storage.getAppointment appointmentId ;;
        match found with
        | None =>
            ret (mkOutcome
                   ("Appointment " ++ Js.showNum appointmentId ++ " not found.")
                   context false)
        | Some appointment =>
            if negb (Appointment.userId appointment =? userId) then
              ret (mkOutcome "You can only modify your own appointments."
                             context false)
            else
              let targetDate := orCurrent newDate (Appointment.date appointment) in
              let targetTime := orCurrent newTime (Appointment.time appointment) in
              bookedSlots <- storage.getBookedSlots ;;
              let isSlotTaken :=
                existsb
                  (fun s =>
                     sameSlot targetDate targetTime s &&
                     negb (sameSlot (Appointment.date appointment)
                                    (Appointment.time appointment) s))
                  bookedSlots in
              if isSlotTaken then
                ret (mkOutcome (conflictText targetDate targetTime) context false)
              else
                storage.updateAppointment (Appointment.id appointment)
                  (storage.mkPatch (Some targetDate) (Some targetTime)
                                   (Some "scheduled")) ;;;
                ret (mkOutcome
                       (rescheduledText appointmentId targetDate targetTime)
                       context false)
        end
  end.

Definition end_conversation (args : Args.t) (context : ConversationContext.t)
  : M ToolOutcome :=
  ret (mkOutcome "Goodbye! Thank you for using our scheduling service."
                 context true).

Definition executeToolCall (toolName : string) (args : Args.t)
           (context : ConversationContext.t) : M ToolOutcome :=
  if (toolName =? "identify_user")%string then identify_user args context
  else if (toolName =? "fetch_slots")%string then fetch_slots args context
  else if (toolName =? "book_appointment")%string
       then book_appointment args context
  else if (toolName =? "retrieve_appointments")%string
       then retrieve_appointments args context
  else if (toolName =? "cancel_appointment")%string
       then cancel_appointment args context
  else if (toolName =? "modify_appointment")%string
       then modify_appointment args context
  else if (toolName =? "end_conversation")%string
       then end_conversation args context
  else ret (mkOutcome ("Unknown tool: " ++ toolName) context false).

(** The seven tools of [toolDefinitions]. *)
Definition toolNames : list string :=
  [ "identify_user"; "fetch_slots"; "book_appointment";
    "retrieve_appointments"; "cancel_appointment"; "modify_appointment";
    "end_conversation" ].

(** The loop over [message.tool_calls] of [processVoiceMessage]: each call
    is logged with [createToolCall], then executed; the context a call
    returns is the one the next call receives; a throw ends the loop. *)
Fixpoint runToolCalls (calls : list (string * Args.t))
         (context : ConversationContext.t)
  : M (list string * ConversationContext.t) :=
  match calls with
  | [] => ret ([], context)
  | (toolName, toolArgs) :: rest =>
      storage.createToolCall (ConversationContext.sessionId context) toolName
                             toolArgs ;;;
      out <- executeToolCall toolName toolArgs context ;;
      let '(mkOutcome result updatedContext _) := out in
      r <- runToolCalls rest updatedContext ;;
      ret (result :: fst r, snd r)
  end.

(** ** The two name-setting tools of the tool-execute route
    ([POST /api/bey/tool-execute], [src/server/routes.ts]) *)

(** The context the route keeps per call in the map [beyContexts]; a tool
    case returns the context that it stores back with [beyContexts.set]. *)
Module BeyContext.
Record t := mk {
  callId : string;
  agentId : string;
  userId : option Z;
  phoneNumber : option string;
  userName : option string
}.
End BeyContext.

(** The [identify_user] case of the route (lines 729-775). *)
Definition toolExecute_identify_user (args : Args.t) (context : BeyContext.t)
  : M (string * BeyContext.t) :=
  let phone := Js.orEmpty (Args.phone_number args) in
  let name := Js.orEmpty (Args.name args) in
  let digitsOnly := Js.stripNonDigits phone in
  if (digitsOnly =? "")%string then
    ret ("Please provide a valid phone number.", context)
  else
    found <- storage.getUserByPhoneNumber digitsOnly ;;
    let isNew := match found with Some _ => false | None => true end in
    user <-
      match found with
      | None =>
          storage.createUser digitsOnly (Js.orUndefined (Some name))
      | Some user =>
          if negb (name =? "")%string && negb (Js.truthyStr (User.name user))
          then
            storage.updateUser (User.id user) name ;;;
            ret (User.setName (Some name) user)
          else ret user
      end ;;
    let context' :=
      BeyContext.mk (BeyContext.callId context) (BeyContext.agentId context)
                    (Some (User.id user)) (Some digitsOnly)
                    (Js.orUndefined (User.name user)) in
    if isNew then
      if (name =? "")%string then
        ret ("I've confirmed your phone number ending in " ++
             Js.sliceLast 4 digitsOnly ++ ". May I have your name please?",
             context')
      else
        ret ("Thank you, " ++ name ++
             "! I've created your account. You don't have any appointments scheduled yet. Would you like to book an appointment?",
             context')
    else
      let userName :=
        if Js.truthyStr (User.name user)
        then ", " ++ Js.showStr (User.name user) else "" in
      appointments <- storage.getAppointmentsByUser (User.id user) ;;
      let active := List.filter Appointment.isActive appointments in
      match active with
      | [] =>
          ret ("Welcome back" ++ userName ++ "! Your phone number ending in " ++
               Js.sliceLast 4 digitsOnly ++
               " is confirmed. You don't have any appointments scheduled. Would you like to book one?",
               context')
      | _ =>
          let list :=
            Js.join "; "
              (List.map
                 (fun a =>
                    Appointment.date a ++ " at " ++ Appointment.time a ++
                    (if Js.truthyStr (Appointment.description a)
                     then " for " ++ Js.showStr (Appointment.description a)
                     else ""))
                 active) in
          ret ("Welcome back" ++ userName ++ "! I found " ++
               Js.numberToString (Z.of_nat (List.length active)) ++
               " appointment" ++ plural (List.length active) ++ " for you: " ++
               list ++
               ". Would you like to book a new appointment, or modify or cancel an existing one?",
               context')
      end.

(** The [set_user_name] case of the route (lines 777-795). *)
Definition toolExecute_set_user_name (args : Args.t) (context : BeyContext.t)
  : M (string * BeyContext.t) :=
  match BeyContext.userId context with
  | Some userId =>
      if userId =? 0 then ret ("Please provide your phone number first.", context)
      else
        let name := Js.orEmpty (Args.name args) in
        if (name =? "")%string then ret ("Please tell me your name.", context)
        else
          storage.updateUser userId name ;;;
          ret ("Thank you, " ++ name ++
               "! Your name has been saved. Would you like to book an appointment?",
               BeyContext.mk (BeyContext.callId context)
                             (BeyContext.agentId context)
                             (BeyContext.userId context)
                             (BeyContext.phoneNumber context) (Some name))
  | None => ret ("Please provide your phone number first.", context)
  end.

(** ** The Call Summarizer ([generateCallSummary], [src/server/voiceAgent.ts]) *)

(** A scalar of the parsed JSON, or [undefined] for a missing key. *)
Inductive JsValue :=
| JUndefined
| JNull
| JBool (b : bool)
| JNumber (n : Z)
| JString (s : string).

Module ApptRequest.
Record t := mk {
  date : option string;
  time : option string;
  description : option string
}.
End ApptRequest.

Module CancelRequest.
Record t := mk { date : option string; time : option string }.
End CancelRequest.

(** The object the extraction prompt asks for.  The text fields are read at
    their declared type; [phoneNumber] is any scalar, and an element of one
    of the two arrays is an object or [null] ([None]). *)
Module ExtractedData.
Record t := mk {
  userName : option string;
  phoneNumber : JsValue;
  appointmentRequests : option (list (option ApptRequest.t));
  cancellationRequests : option (list (option CancelRequest.t));
  summary : option string;
  userPreferences : option (list string)
}.
End ExtractedData.

(** What the call to the language model yields, up to [JSON.parse]. *)
Inductive Extraction :=
| LlmRejects                          (* the completion call rejects *)
| NotJson                             (* [JSON.parse] throws *)
| JsonNull                            (* the text is the JSON [null] *)
| JsonObject (d : ExtractedData.t).

Module CallSummary.
Record t := mk {
  summary : string;
  appointments : list ApptView.t;
  userPreferences : list string;
  userName : option string;
  phoneNumber : option string;
  newAppointmentsCreated : option Z
}.
End CallSummary.

(** [(AM|PM|am|pm)] under the flag [i]. *)
Definition isPeriod (s : string) : bool :=
  match s with
  | String a (String m EmptyString) =>
      ((Js.upperChar a =? "A")%char || (Js.upperChar a =? "P")%char) &&
      (Js.upperChar m =? "M")%char
  | _ => false
  end.

(** What follows the hour in [/^(\d{1,2}):(\d{2})\s*(AM|PM|am|pm)?$/i]: the
    groups 2 and 3 (the empty string for an absent group 3). *)
Definition matchAfterHour (rest : string) : option (string * string) :=
  match rest with
  | String ":" (String m1 (String m2 tail)) =>
      if Js.isDigit m1 && Js.isDigit m2 then
        let period := Js.trimStart tail in
        if (period =? "")%string || isPeriod period
        then Some (String m1 (String m2 EmptyString), period)
        else None
      else None
  | _ => None
  end.

(** [time.match(/^(\d{1,2}):(\d{2})\s*(AM|PM|am|pm)?$/i)]: the three groups. *)
Definition matchTime (time : string) : option (string * string * string) :=
  match time with
  | String d1 rest =>
      if Js.isDigit d1 then
        match rest with
        | String d2 rest' =>
            if Js.isDigit d2 then
              option_map (fun mp => (String d1 (String d2 EmptyString), fst mp, snd mp))
                         (matchAfterHour rest')
            else
              option_map (fun mp => (String d1 EmptyString, fst mp, snd mp))
                         (matchAfterHour rest)
        | EmptyString => None
        end
      else None
  | EmptyString => None
  end.

(** [hour.padStart(2, '0')] for an hour of one or two digits. *)
Definition padStart2 (hour : string) : string :=
  match hour with
  | String c EmptyString => String "0" hour
  | _ => hour
  end.

Definition normalizeTime (time : string) : string :=
  match matchTime time with
  | None => Js.trim (Js.toLowerCase time)
  | Some (hour, min, period) =>
      Js.trim (padStart2 hour ++ ":" ++ min ++ " " ++ Js.toUpperCase period)
  end.

Definition defaultExtractedData : ExtractedData.t :=
  ExtractedData.mk None JUndefined (Some []) None (Some "Call completed.")
                   (Some []).

(** Lines 611-643: the model call, [JSON.parse], [extractedPhone] and
    [extractedName]. *)
Definition extract (llm : Extraction) (session : option CallSession.t)
           (user : option User.t)
  : M (ExtractedData.t * option string * option string) :=
  extractedData <-
    match llm with
    | LlmRejects => throw LlmError
    | NotJson => ret defaultExtractedData
    | JsonNull => throw TypeError (* [extractedData.phoneNumber] on [null] *)
    | JsonObject d => ret d
    end ;;
  let sessionPhone :=
    match session with Some s => CallSession.phoneNumber s | None => None end in
  extractedPhone <-
    match ExtractedData.phoneNumber extractedData with
    | JUndefined | JNull => ret sessionPhone
    | JString s => ret (Js.orElse (Some (Js.stripNonDigits s)) sessionPhone)
    | JBool _ | JNumber _ => throw TypeError (* [replace] is not a function *)
    end ;;
  let extractedName :=
    Js.orElse (ExtractedData.userName extractedData)
              (match user with Some u => User.name u | None => None end) in
  ret (extractedData, extractedPhone, extractedName).

(** [extractedName && !u.name], then [updateUser] and the local copy
    [{ ...u, name: extractedName }]. *)
Definition fillName (u : User.t) (extractedName : option string)
  : M User.t :=
  if Js.truthyStr extractedName && negb (Js.truthyStr (User.name u)) then
    storage.updateUser (User.id u) (Js.showStr extractedName) ;;;
    ret (User.setName extractedName u)
  else ret u.

(** Lines 645-665: the user of the session, or the one found or created
    from the extracted phone number. *)
Definition resolveUser (user : option User.t)
           (extractedPhone extractedName : option string)
  : M (option User.t) :=
  match user with
  | None =>
      if Js.truthyStr extractedPhone &&
         (10 <=? String.length (Js.showStr extractedPhone))%nat
      then
        existingUser <-
          storage.getUserByPhoneNumber (Js.showStr extractedPhone) ;;
        match existingUser with
        | Some existingUser =>
            u <- fillName existingUser extractedName ;;
            ret (Some u)
        | None =>
            u <- storage.createUser (Js.showStr extractedPhone)
                                    (Js.orUndefined extractedName) ;;
            ret (Some u)
        end
      else ret None
  | Some u =>
      u' <- fillName u extractedName ;;
      ret (Some u')
  end.

Definition defaultDescription : string := "Appointment booked via voice call".

(** The test [isDuplicate] of one request against the appointments known
    so far. *)
Definition isDuplicate (date time : string)
           (existingAppts : list Appointment.t) : bool :=
  let normalizedReqTime := normalizeTime time in
  existsb
    (fun a =>
       (Appointment.date a =? date)%string &&
       (normalizeTime (Appointment.time a) =? normalizedReqTime)%string &&
       Appointment.isActive a)
    existingAppts.

(** Lines 673-703: the loop over [appointmentRequests].  It returns the
    list [existingAppts] as extended by [push], and the counter
    [newAppointmentsCreated]. *)
Fixpoint bookingLoop (userId : Z) (requests : list (option ApptRequest.t))
         (existingAppts : list Appointment.t) (newAppointmentsCreated : Z)
  : M (list Appointment.t * Z) :=
  match requests with
  | [] => ret (existingAppts, newAppointmentsCreated)
  | None :: _ => throw TypeError (* [apptRequest.date] on [null] *)
  | Some apptRequest :: rest =>
      if Js.truthyStr (ApptRequest.date apptRequest) &&
         Js.truthyStr (ApptRequest.time apptRequest)
      then
        let date := Js.showStr (ApptRequest.date apptRequest) in
        let time := Js.showStr (ApptRequest.time apptRequest) in
        if isDuplicate date time existingAppts then
          bookingLoop userId rest existingAppts newAppointmentsCreated
        else
          newAppt <-
            storage.createAppointment userId date time
              (Js.orElse (ApptRequest.description apptRequest)
                         (Some defaultDescription))
              "pending" ;;
          bookingLoop userId rest (existingAppts ++ [newAppt])
                      (newAppointmentsCreated + 1)
      else bookingLoop userId rest existingAppts newAppointmentsCreated
  end.

(** The appointment a cancellation request designates in [userAppts]. *)
Definition matchingAppt (cancelReq : CancelRequest.t)
           (userAppts : list Appointment.t) : option Appointment.t :=
  let normalizedCancelTime :=
    normalizeTime (Js.orEmpty (CancelRequest.time cancelReq)) in
  find
    (fun a =>
       Js.strictEq (Appointment.date a) (CancelRequest.date cancelReq) &&
       (normalizeTime (Appointment.time a) =? normalizedCancelTime)%string &&
       Appointment.isActive a)
    userAppts.

(** Lines 713-726: the loop over [cancellationRequests]; [userAppts] is the
    list read once before the loop. *)
Fixpoint cancellationLoop (requests : list (option CancelRequest.t))
         (userAppts : list Appointment.t) : M unit :=
  match requests with
  | [] => ret tt
  | None :: _ => throw TypeError (* [cancelReq.time] on [null] *)
  | Some cancelReq :: rest =>
      match matchingAppt cancelReq userAppts with
      | Some a =>
          storage.updateAppointment (Appointment.id a)
            (storage.mkPatch None None (Some "cancelled")) ;;;
          cancellationLoop rest userAppts
      | None => cancellationLoop rest userAppts
      end
  end.

(** [xs?.length > 0] *)
Definition nonEmpty {A} (xs : option (list A)) : option (list A) :=
  match xs with
  | Some (x :: r) => Some (x :: r)
  | _ => None
  end.

(** The list the summary reports: the user's appointments as views. *)
Definition currentAppointments (user : option User.t) : M (list ApptView.t) :=
  match user with
  | Some u =>
      l <- storage.getAppointmentsByUser (User.id u) ;;
      ret (List.map ApptView.ofAppointment l)
  | None => ret []
  end.

Definition createdSuffix (n : Z) (stored : bool) : string :=
  if 0 <? n then
    if stored
    then " (" ++ Js.numberToString n ++ " appointment(s) created)"
    else " " ++ Js.numberToString n ++
         " appointment(s) were automatically created from this conversation."
  else "".

(** Lines 667-727: the booking requests, then the cancellation requests,
    are applied for the resolved user; the value is the counter
    [newAppointmentsCreated]. *)
Definition applyRequests (user : option User.t)
           (extractedData : ExtractedData.t) : M Z :=
  existingAppts <-
    match user with
    | Some u => storage.getAppointmentsByUser (User.id u)
    | None => ret []
    end ;;
  booked <-
    match user, nonEmpty (ExtractedData.appointmentRequests extractedData) with
    | Some u, Some requests => bookingLoop (User.id u) requests existingAppts 0
    | _, _ => ret (existingAppts, 0)
    end ;;
  match user, nonEmpty (ExtractedData.cancellationRequests extractedData) with
  | Some u, Some requests =>
      userAppts <- storage.getAppointmentsByUser (User.id u) ;;
      cancellationLoop requests userAppts
  | _, _ => ret tt
  end ;;;
  ret (snd booked).

(** Lines 729-759: the session is closed and the payload is built. *)
Definition finalize (sessionId : Z) (transcript : option string)
           (user : option User.t) (extractedData : ExtractedData.t)
           (extractedPhone extractedName : option string)
           (newAppointmentsCreated : Z) : M CallSummary.t :=
  appointments <- currentAppointments user ;;
  let summary :=
    Js.showStr (Js.orElse (ExtractedData.summary extractedData)
                          (Some "Call completed.")) in
  let userPreferences :=
    match ExtractedData.userPreferences extractedData with
    | Some l => l
    | None => []
    end in
  storage.endCallSession sessionId
    (summary ++ createdSuffix newAppointmentsCreated true)
    appointments userPreferences transcript ;;;
  ret (CallSummary.mk
         (summary ++ createdSuffix newAppointmentsCreated false)
         appointments userPreferences (Js.orUndefined extractedName)
         (Js.orUndefined extractedPhone) (Some newAppointmentsCreated)).

(** Lines 667-759. *)
Definition applyExtraction (sessionId : Z) (transcript : option string)
           (user : option User.t) (extractedData : ExtractedData.t)
           (extractedPhone extractedName : option string)
  : M CallSummary.t :=
  newAppointmentsCreated <- applyRequests user extractedData ;;
  finalize sessionId transcript user extractedData extractedPhone
           extractedName newAppointmentsCreated.

Definition fallbackSummary (transcript : option string) : string :=
  if Js.truthyStr transcript
  then "Call completed. Transcript has been saved."
  else "Call completed.".

(** Lines 760-793: the [catch] block, with the value the variable [user]
    has when it is entered. *)
Definition fallback (sessionId : Z) (transcript : option string)
           (session : option CallSession.t) (user : option User.t)
  : M CallSummary.t :=
  appointments <- currentAppointments user ;;
  storage.endCallSession sessionId (fallbackSummary transcript) appointments
                         [] transcript ;;;
  ret (CallSummary.mk
         (fallbackSummary transcript) appointments []
         (Js.orUndefined
            (match user with Some u => User.name u | None => None end))
         (Js.orUndefined
            (match session with
             | Some s => CallSession.phoneNumber s
             | None => None
             end))
         None).

(** A step of the [try] block: when [m] throws, the [catch] block [h] runs
    from the world the throw left; [h] is given with the value the variable
    [user] has during [m]. *)
Definition tryStep {A B} (m : M A) (h : M B) (k : A -> M B) : M B :=
  fun w =>
    match m w with
    | (Ok a, w') => k a w'
    | (Throw _, w') => h w'
    end.

(** The user the session is linked to ([session?.userId] truthy). *)
Definition sessionUser (session : option CallSession.t) : M (option User.t) :=
  match session with
  | Some s =>
      match CallSession.userId s with
      | Some userId => if userId =? 0 then ret None else storage.getUser userId
      | None => ret None
      end
  | None => ret None
  end.

(** Lines 561-567: the session, its tool calls and its user are read before
    the [try] block.  The rows of [tool_calls] only feed a local string
    that nothing reads. *)
Definition loadSession (sessionId : Z)
  : M (option CallSession.t * option User.t) :=
  session <- storage.getCallSession sessionId ;;
  storage.getToolCallsBySession sessionId ;;;
  user <- sessionUser session ;;
  ret (session, user).

(** [generateCallSummary(sessionId, transcript)]; [llm] is what the model
    call of this run yields. *)
Definition generateCallSummary (llm : Extraction) (sessionId : Z)
           (transcript : option string) : M CallSummary.t :=
  loaded <- loadSession sessionId ;;
  let '(session, user) := loaded in
  let catch := fallback sessionId transcript session in
  tryStep (extract llm session user) (catch user) (fun ex =>
    let '(extractedData, extractedPhone, extractedName) := ex in
    tryStep (resolveUser user extractedPhone extractedName) (catch user)
      (fun user' =>
         tryStep (applyExtraction sessionId transcript user' extractedData
                                  extractedPhone extractedName)
                 (catch user') ret)).

(** ** The routes ([registerRoutes], [src/server/routes.ts])

    A handler is a computation over the store that takes what it reads of
    the request and the in-memory map it uses, and returns the response
    together with the map as it leaves it.  The request fields are read at
    the types the handlers cast them to.  As for the Tool Executor, a
    storage call always returns; the width of the column [phone_number]
    (20 characters) is not modelled. *)

(** A [Map], as the list of its entries in insertion order. *)
Module JsMap.
Section Ops.
Context {K V : Type} (eqb : K -> K -> bool).

Fixpoint get (k : K) (m : list (K * V)) : option V :=
  match m with
  | [] => None
  | (k', v) :: r => if eqb k' k then Some v else get k r
  end.

Fixpoint set (k : K) (v : V) (m : list (K * V)) : list (K * V) :=
  match m with
  | [] => [(k, v)]
  | (k', v') :: r =>
      if eqb k' k then (k', v) :: r else (k', v') :: set k v r
  end.


End Ops.
End JsMap.

Definition BeyContexts : Type := list (string * BeyContext.t).

(** [beyContexts.get(callId) || { callId, agentId: "" }] *)
Definition contextOf (callId : string) (beyContexts : BeyContexts)
  : BeyContext.t :=
  match JsMap.get String.eqb callId beyContexts with
  | Some context => context
  | None => BeyContext.mk callId "" None None None
  end.

(** [context.userId = user.id; context.phoneNumber = digitsOnly;
    context.userName = user.name || undefined] *)
Definition identifyContext (context : BeyContext.t) (user : User.t)
           (digitsOnly : string) : BeyContext.t :=
  BeyContext.mk (BeyContext.callId context) (BeyContext.agentId context)
                (Some (User.id user)) (Some digitsOnly)
                (Js.orUndefined (User.name user)).

(** The user id of a call context when [context.userId] is truthy. *)
Definition beyIdentified (context : BeyContext.t) : option Z :=
  match BeyContext.userId context with
  | Some userId => if userId =? 0 then None else Some userId
  | None => None
  end.

(** The status code and the JSON body of a response; an error body is
    represented by its [error] text. *)
Inductive Body (A : Type) :=
| Json (a : A)
| ErrorJson (error : string).
Arguments Json {A} a.
Arguments ErrorJson {A} error.

Record Response (A : Type) := mkResponse { statusCode : Z; body : Body A }.
Arguments mkResponse {A} statusCode body.
Arguments statusCode {A} r.
Arguments body {A} r.

(** [try { ... } catch (error) { res.status(500).json(...) }]: the handlers
    update their map only after their last step that can throw, so the map
    is the one they received. *)
Definition catching {A} (m : M A) (onError : A) : M A :=
  fun w =>
    match m w with
    | (Ok a, w') => (Ok a, w')
    | (Throw _, w') => (Ok onError, w')
    end.

(** The slots of the catalog whose key is not the key of a booked slot. *)
Definition freeSlots (bookedSlots : list Slot) : list Slot :=
  let bookedSet := List.map slotKey bookedSlots in
  List.filter
    (fun slot => negb (existsb (String.eqb (slotKey slot)) bookedSet))
    availableSlots.

(** Lines 739-747, 961-969 and 1151-1159: the user with the phone number,
    created when there is none, and given the name when it has none.  The
    flag is [isNew]. *)
Definition findOrCreateUser (digitsOnly name : string) : M (User.t * bool) :=
  found <- storage.getUserByPhoneNumber digitsOnly ;;
  match found with
  | None =>
      user <- storage.createUser digitsOnly (Js.orUndefined (Some name)) ;;
      ret (user, true)
  | Some user =>
      if negb (name =? "")%string && negb (Js.truthyStr (User.name user))
      then
        storage.updateUser (User.id user) name ;;;
        ret (User.setName (Some name) user, false)
      else ret (user, false)
  end.

(** *** The sessions ([POST /api/sessions], [POST /api/sessions/:id/end]) *)




(** *** The read-only routes *)

(** [GET /api/slots], lines 530-544. *)
Definition getSlots : M (Response (list Slot)) :=
  catching
    (bookedSlots <- storage.getBookedSlots ;;
     ret (mkResponse 200 (Json (freeSlots bookedSlots))))
    (mkResponse 500 (ErrorJson "Failed to fetch slots")).



(** *** The user lookup ([POST /api/users/lookup], lines 1142-1183) *)

Module Lookup.
Record t := mk {
  user : User.t;
  isNew : bool;
  appointments : list Appointment.t
}.
End Lookup.


(** *** The tool-execute route ([POST /api/bey/tool-execute], lines 716-921)

    Each tool case returns the result text and the context that the case
    stores with [beyContexts.set], if it stores one. *)

Definition toolExecute_fetch_slots (args : Args.t) : M string :=
  let dateFilter := Args.date args in
  bookedSlots <- storage.getBookedSlots ;;
  let available := freeSlots bookedSlots in
  let available :=
    if Js.truthyStr dateFilter
    then List.filter (fun slot => Js.strictEq (slotDate slot) dateFilter)
                     available
    else available in
  let available := firstn 6 available in
  ret (match available with
       | [] =>
           if Js.truthyStr dateFilter
           then "No available slots on " ++ Js.showStr dateFilter ++
                ". Would you like to check another date?"
           else "No available slots at the moment. Please try again later."
       | _ =>
           let slotList :=
             Js.join "; "
               (List.map (fun s => slotDate s ++ " at " ++ slotTime s)
                         available) in
           "Available slots: " ++ slotList ++
           ". Which time works best for you?"
       end).

Definition generalAppointment : string := "General appointment".

Definition toolExecute_book_appointment (args : Args.t)
           (context : BeyContext.t) : M string :=
  match beyIdentified context with
  | None =>
      ret "Please provide your phone number first so I can identify you."
  | Some userId =>
      let date := Args.date args in
      let time := Args.time args in
      let description :=
        Js.showStr (Js.orElse (Args.description args)
                              (Some generalAppointment)) in
      if negb (Js.truthyStr date) || negb (Js.truthyStr time) then
        ret "Please specify a date and time for your appointment."
      else
        bookedSlots <- storage.getBookedSlots ;;
        let isBooked := existsb (slotIs date time) bookedSlots in
        if isBooked then
          ret ("Sorry, the slot on " ++ Js.showStr date ++ " at " ++
               Js.showStr time ++
               " is already booked. Would you like to check other available times?")
        else
          appointment <-
            storage.createAppointment userId (Js.showStr date)
              (Js.showStr time) (Some description) "confirmed" ;;
          ret ("Great! I've booked your appointment for " ++
               Js.showStr date ++ " at " ++ Js.showStr time ++
               (if negb (description =? generalAppointment)%string
                then " for " ++ description else "") ++
               ". Your confirmation number is " ++
               Js.numberToString (Appointment.id appointment) ++
               ". Is there anything else I can help you with?")
  end.

Definition toolExecute_retrieve_appointments (context : BeyContext.t)
  : M string :=
  match beyIdentified context with
  | None =>
      ret "Please provide your phone number first so I can look up your appointments."
  | Some userId =>
      appointments <- storage.getAppointmentsByUser userId ;;
      let active := List.filter Appointment.isActive appointments in
      match active with
      | [] =>
          ret "You don't have any active appointments. Would you like to book one?"
      | _ =>
          let list :=
            Js.join "; "
              (List.map
                 (fun a =>
                    "ID " ++ Js.numberToString (Appointment.id a) ++ ": " ++
                    Appointment.date a ++ " at " ++ Appointment.time a ++
                    (if Js.truthyStr (Appointment.description a)
                     then " for " ++ Js.showStr (Appointment.description a)
                     else "") ++
                    " (" ++ Appointment.status a ++ ")")
                 active) in
          ret ("Your appointments: " ++ list ++
               ". Would you like to modify or cancel any of these?")
      end
  end.

Definition toolExecute_cancel_appointment (args : Args.t)
           (context : BeyContext.t) : M string :=
  match beyIdentified context with
  | None => ret "Please provide your phone number first."
  | Some userId =>
      let appointmentId := Args.appointment_id args in
      if negb (Js.truthyNum appointmentId) then
        ret "Please specify which appointment you'd like to cancel."
      else
        found <- storage.getAppointment appointmentId ;;
        match found with
        | None =>
            ret ("I couldn't find appointment " ++ Js.showNum appointmentId ++
                 ".")
        | Some appointment =>
            if negb (Appointment.userId appointment =? userId) then
              ret "You can only cancel your own appointments."
            else if (Appointment.status appointment =? "cancelled")%string
            then ret "This appointment is already cancelled."
            else
              (* the appointment was found, so [appointmentId] is its id *)
              storage.cancelAppointment (Appointment.id appointment) ;;;
              ret ("Done! I've cancelled your appointment on " ++
                   Appointment.date appointment ++ " at " ++
                   Appointment.time appointment ++ ".")
        end
  end.

(** The [switch] of the route and the response.  The request is taken to
    carry a [call_id], the key of the call in [beyContexts]. *)
Definition postToolExecute (tool_name : option string) (args : Args.t)
           (call_id : string) (beyContexts : BeyContexts)
  : M (Response string * BeyContexts) :=
  catching
    (if negb (Js.truthyStr tool_name) then
       ret (mkResponse 400 (ErrorJson "No tool name provided"), beyContexts)
     else
       let name := Js.showStr tool_name in
       let context := contextOf call_id beyContexts in
       let stored (rc : string * BeyContext.t) :=
         (mkResponse 200 (Json (fst rc)),
          JsMap.set String.eqb call_id (snd rc) beyContexts) in
       let kept (result : string) :=
         (mkResponse 200 (Json result), beyContexts) in
       if (name =? "identify_user")%string then
         rc <- toolExecute_identify_user args context ;;
         (* the case stops before [beyContexts.set] without a digit *)
         if (Js.stripNonDigits (Js.orEmpty (Args.phone_number args)) =? "")%string
         then ret (kept (fst rc)) else ret (stored rc)
       else if (name =? "set_user_name")%string then
         rc <- toolExecute_set_user_name args context ;;
         if Js.truthyNum (BeyContext.userId context) &&
            negb (Js.orEmpty (Args.name args) =? "")%string
         then ret (stored rc) else ret (kept (fst rc))
       else if (name =? "fetch_slots")%string then
         result <- toolExecute_fetch_slots args ;; ret (kept result)
       else if (name =? "book_appointment")%string then
         result <- toolExecute_book_appointment args context ;;
         ret (kept result)
       else if (name =? "retrieve_appointments")%string then
         result <- toolExecute_retrieve_appointments context ;;
         ret (kept result)
       else if (name =? "cancel_appointment")%string then
         result <- toolExecute_cancel_appointment args context ;;
         ret (kept result)
       else
         ret (kept
                "I don't recognize that action. I can help you book, view, modify, or cancel appointments."))
    (mkResponse 500 (ErrorJson "Tool execution failed"), beyContexts).

(** *** The webhook ([POST /api/bey/webhook], lines 926-1139) *)

Module ToolCallPayload.
Record t := mk {
  name : option string;
  parameters : option Args.t;
  id : option string
}.
End ToolCallPayload.

Module WebhookMessage.
Record t := mk { sender : option string; message : option string }.
End WebhookMessage.

(** The fields the handler reads of the request body. *)
Module WebhookBody.
Record t := mk {
  call_id : option string;
  message : option WebhookMessage.t;
  event_type : option string;
  tool_call : option ToolCallPayload.t;
  tool_name : option string;
  parameters : option Args.t;
  session_id : option string;
  id : option string
}.
End WebhookBody.

Inductive WebhookReply :=
| ToolReply (tool_call_id : string) (result : string)
| StatusReply (status : string).

Definition newline : string := String (ascii_of_nat 10) EmptyString.

(** One line of the appointment lists of the webhook. *)
Definition webhookLine (a : Appointment.t) : string :=
  "- ID " ++ Js.numberToString (Appointment.id a) ++ ": " ++
  Appointment.date a ++ " at " ++ Appointment.time a ++
  (if Js.truthyStr (Appointment.description a)
   then " (" ++ Js.showStr (Appointment.description a) ++ ")" else "") ++
  " - " ++ Appointment.status a.

(** Each tool case returns the result text and, when it calls
    [beyContexts.set], the context it stores. *)
Definition webhook_identify_user (args : Args.t) (context : BeyContext.t)
  : M (string * option BeyContext.t) :=
  let phone := Js.orEmpty (Args.phone_number args) in
  let name := Js.orEmpty (Args.name args) in
  let digitsOnly := Js.stripNonDigits phone in
  if (digitsOnly =? "")%string || (String.length digitsOnly <? 10)%nat then
    ret ("Please provide a valid 10-digit phone number.", None)
  else
    found <- findOrCreateUser digitsOnly name ;;
    let '(user, isNew) := found in
    let context' := identifyContext context user digitsOnly in
    appointments <- storage.getAppointmentsByUser (User.id user) ;;
    let activeAppts := List.filter Appointment.isActive appointments in
    let result :=
      if isNew then
        "Welcome! I've created a new account for " ++
        Js.showStr (Js.orElse (User.name user) (Some "you")) ++
        " with phone number ending in " ++ Js.sliceLast 4 digitsOnly ++
        ". You don't have any appointments scheduled yet. Would you like to book one?"
      else
        let who :=
          Js.showStr (Js.orElse (User.name user) (Some "valued customer")) in
        match activeAppts with
        | [] =>
            "Welcome back, " ++ who ++
            "! I found your account but you don't have any active appointments. Would you like to book one?"
        | _ =>
            "Welcome back, " ++ who ++
            "! I found your account. Here are your current appointments:" ++
            newline ++ Js.join newline (List.map webhookLine activeAppts) ++
            newline ++ newline ++
            "Would you like to book a new appointment, cancel one, or do something else?"
        end in
    ret (result, Some context').

Definition webhook_get_user_appointments (context : BeyContext.t)
  : M string :=
  match beyIdentified context with
  | None =>
      ret "Please identify the user first by providing their phone number."
  | Some userId =>
      appointments <- storage.getAppointmentsByUser userId ;;
      let activeAppts := List.filter Appointment.isActive appointments in
      match activeAppts with
      | [] =>
          ret "You don't have any active appointments. Would you like to book one?"
      | _ =>
          ret ("Here are your current appointments:" ++ newline ++
               Js.join newline (List.map webhookLine activeAppts))
      end
  end.

(** The times the webhook offers on every date. *)
Definition allSlots : list string :=
  [ "9:00 AM"; "10:00 AM"; "11:00 AM"; "2:00 PM"; "3:00 PM"; "4:00 PM" ].

(** The times of [allSlots] that no booked slot of the date has. *)
Definition openTimes (date : string) (bookedSlots : list Slot)
  : list string :=
  let slotsForDate :=
    List.map slotTime
      (List.filter (fun s => (slotDate s =? date)%string) bookedSlots) in
  List.filter (fun s => negb (existsb (String.eqb s) slotsForDate)) allSlots.

Definition webhook_get_available_slots (args : Args.t) : M string :=
  if negb (Js.truthyStr (Args.date args)) then
    ret "Please specify a date to check availability."
  else
    let date := Js.showStr (Args.date args) in
    bookedSlots <- storage.getBookedSlots ;;
    match openTimes date bookedSlots with
    | [] =>
        ret ("Sorry, all slots are booked for " ++ date ++
             ". Would you like to try a different date? Available dates are January 28-31 and February 1, 2026.")
    | open =>
        ret ("Available slots for " ++ date ++ ": " ++ Js.join ", " open ++
             ". Which time works best for you?")
    end.

Definition webhook_book_appointment (args : Args.t) (context : BeyContext.t)
  : M string :=
  match beyIdentified context with
  | None =>
      ret "Please identify the user first before booking an appointment."
  | Some userId =>
      let date := Args.date args in
      let time := Args.time args in
      let description :=
        Js.orElse (Args.description args) (Some generalAppointment) in
      if negb (Js.truthyStr date) || negb (Js.truthyStr time) then
        ret "Please provide both a date and time for the appointment."
      else
        bookedSlotsForBooking <- storage.getBookedSlots ;;
        let isBooked := existsb (slotIs date time) bookedSlotsForBooking in
        if isBooked then
          ret ("Sorry, the " ++ Js.showStr time ++ " slot on " ++
               Js.showStr date ++
               " is already booked. Would you like to try a different time?")
        else
          appointment <-
            storage.createAppointment userId (Js.showStr date)
              (Js.showStr time) description "scheduled" ;;
          ret ("Great! I've booked your appointment for " ++
               Js.showStr date ++ " at " ++ Js.showStr time ++
               ". Your confirmation number is " ++
               Js.numberToString (Appointment.id appointment) ++
               ". Is there anything else I can help you with?")
  end.

Definition webhook_cancel_appointment (args : Args.t)
           (context : BeyContext.t) : M string :=
  let apptId := Args.appointment_id args in
  if negb (Js.truthyNum apptId) then
    ret "Please specify which appointment to cancel by its ID number."
  else
    found <- storage.getAppointment apptId ;;
    match found with
    | None =>
        ret ("I couldn't find an appointment with ID " ++ Js.showNum apptId ++
             ". Would you like me to show your appointments?")
    | Some appointment =>
        if match beyIdentified context with
           | Some userId => negb (Appointment.userId appointment =? userId)
           | None => false
           end
        then ret "That appointment doesn't belong to your account."
        else
          (* the appointment was found, so [apptId] is its id *)
          storage.updateAppointment (Appointment.id appointment)
            (storage.mkPatch None None (Some "cancelled")) ;;;
          ret ("I've cancelled your appointment for " ++
               Appointment.date appointment ++ " at " ++
               Appointment.time appointment ++
               ". Is there anything else I can help you with?")
    end.

(** The [switch] of the tool branch: the result text and the context to
    store, if any. *)
Definition webhookTool (toolName : option string) (args : Args.t)
           (context : BeyContext.t) : M (string * option BeyContext.t) :=
  let plain (m : M string) : M (string * option BeyContext.t) :=
    result <- m ;; ret (result, None) in
  if Js.strictEq "identify_user" toolName
  then webhook_identify_user args context
  else if Js.strictEq "get_user_appointments" toolName
  then plain (webhook_get_user_appointments context)
  else if Js.strictEq "get_available_slots" toolName
  then plain (webhook_get_available_slots args)
  else if Js.strictEq "book_appointment" toolName
  then plain (webhook_book_appointment args context)
  else if Js.strictEq "cancel_appointment" toolName
  then plain (webhook_cancel_appointment args context)
  else ret ("Unknown tool: " ++ Js.showStr toolName, None).

(** [[-.\s]] *)
Definition isSeparator (c : ascii) : bool :=
  (c =? "-")%char || (c =? ".")%char || Js.isSpace c.

(** [\d{n}] at the start of [s]: the digits matched and what follows. *)
Fixpoint digitsAt (n : nat) (s : string) : option (string * string) :=
  match n with
  | O => Some (EmptyString, s)
  | S n' =>
      match s with
      | String c r =>
          if Js.isDigit c
          then option_map (fun p => (String c (fst p), snd p)) (digitsAt n' r)
          else None
      | EmptyString => None
      end
  end.

(** [[-.\s]?] at the start of [s].  The separator is taken when there is
    one: what follows the item in the pattern is a digit, which a
    separator is not, so that giving the separator back cannot help. *)
Definition separatorAt (s : string) : string * string :=
  match s with
  | String c r =>
      if isSeparator c then (String c EmptyString, r) else (EmptyString, s)
  | EmptyString => (EmptyString, s)
  end.

(** [\d{3}[-.\s]?\d{3}[-.\s]?\d{4}] at the start of [s]. *)
Definition groupedPhoneAt (s : string) : option string :=
  match digitsAt 3 s with
  | Some (a, r1) =>
      let '(s1, r2) := separatorAt r1 in
      match digitsAt 3 r2 with
      | Some (b, r3) =>
          let '(s2, r4) := separatorAt r3 in
          match digitsAt 4 r4 with
          | Some (c, _) => Some (a ++ s1 ++ b ++ s2 ++ c)
          | None => None
          end
      | None => None
      end
  | None => None
  end.

(** [\d{10,11}] at the start of [s]: ten digits, and an eleventh when
    there is one. *)
Definition plainPhoneAt (s : string) : option string :=
  match digitsAt 10 s with
  | Some (a, r) =>
      match r with
      | String c _ =>
          if Js.isDigit c then Some (a ++ String c EmptyString) else Some a
      | EmptyString => Some a
      end
  | None => None
  end.

(** The two alternatives, in their order. *)
Definition phoneAt (s : string) : option string :=
  match groupedPhoneAt s with
  | Some m => Some m
  | None => plainPhoneAt s
  end.

(** [text.match(/(\d{3}[-.\s]?\d{3}[-.\s]?\d{4}|\d{10,11})/)]: the text of
    the leftmost match. *)
Fixpoint phoneMatch (text : string) : option string :=
  match phoneAt text with
  | Some m => Some m
  | None =>
      match text with
      | String _ r => phoneMatch r
      | EmptyString => None
      end
  end.

(** Lines 1109-1132: a message of the call; a phone number in a message of
    the user identifies the caller when a user has that number.  The keys
    of [beyContexts] are strings, so that a request without [call_id]
    finds no context. *)
Definition webhookMessage (call_id : option string)
           (message : WebhookMessage.t) (beyContexts : BeyContexts)
  : M BeyContexts :=
  match call_id with
  | None => ret beyContexts
  | Some callId =>
      match JsMap.get String.eqb callId beyContexts with
      | None => ret beyContexts
      | Some context =>
          if Js.strictEq "user" (WebhookMessage.sender message) &&
             Js.truthyStr (WebhookMessage.message message)
          then
            match phoneMatch (Js.showStr (WebhookMessage.message message)) with
            | None => ret beyContexts
            | Some matched =>
                let digitsOnly := Js.stripNonDigits matched in
                user <- storage.getUserByPhoneNumber digitsOnly ;;
                match user with
                | Some user =>
                    ret (JsMap.set String.eqb callId
                           (identifyContext context user digitsOnly)
                           beyContexts)
                | None => ret beyContexts
                end
            end
          else ret beyContexts
      end
  end.

(** The handler; [now] is the value of [Date.now()]. *)
Definition postWebhook (now : Z) (body : WebhookBody.t)
           (beyContexts : BeyContexts) : M (WebhookReply * BeyContexts) :=
  catching
    (let tool_call := WebhookBody.tool_call body in
     let tool_name := WebhookBody.tool_name body in
     let isToolCall :=
       (Js.strictEq "tool_call" (WebhookBody.event_type body) &&
        match tool_call with Some _ => true | None => false end) ||
       Js.truthyStr tool_name in
     if isToolCall then
       let toolName :=
         Js.orElse
           (match tool_call with
            | Some tc => ToolCallPayload.name tc
            | None => None
            end)
           tool_name in
       let args :=
         match tool_call with
         | Some (ToolCallPayload.mk _ (Some parameters) _) => parameters
         | _ =>
             match WebhookBody.parameters body with
             | Some parameters => parameters
             | None => Args.empty
             end
         end in
       let toolCallId :=
         Js.showStr
           (Js.orElse
              (Js.orElse
                 (match tool_call with
                  | Some tc => ToolCallPayload.id tc
                  | None => None
                  end)
                 (WebhookBody.id body))
              (Some ("tool-" ++ Js.numberToString now))) in
       let callContext :=
         Js.showStr
           (Js.orElse
              (Js.orElse (WebhookBody.call_id body)
                         (WebhookBody.session_id body))
              (Some "unknown")) in
       let context := contextOf callContext beyContexts in
       rc <- webhookTool toolName args context ;;
       ret (ToolReply toolCallId (fst rc),
            match snd rc with
            | Some context' =>
                JsMap.set String.eqb callContext context' beyContexts
            | None => beyContexts
            end)
     else
       beyContexts' <-
         match WebhookBody.message body with
         | Some message =>
             webhookMessage (WebhookBody.call_id body) message beyContexts
         | None => ret beyContexts
         end ;;
       ret (StatusReply "ok", beyContexts'))
    (StatusReply "error", beyContexts).

(** ** Conversations and messages ([src/server/storage.ts], lines 157-183) *)

Module Conversation.
Record t := mk { id : Z; title : string }.
End Conversation.

Module Message.
Record t := mk {
  id : Z;
  conversationId : Z;
  role : string;
  content : string
}.
End Message.

(** The two tables, in insertion order, and their sequences. *)
Record ChatStore := mkChatStore {
  conversations : list Conversation.t;
  messages : list Message.t;
  nextConversationId : Z;
  nextMessageId : Z
}.

Definition getConversation (id : Z) (s : ChatStore)
  : option Conversation.t :=
  find (fun c => Conversation.id c =? id) (conversations s).

(** Newest first. *)
Definition getAllConversations (s : ChatStore) : list Conversation.t :=
  rev (conversations s).

Definition createConversation (title : string) (s : ChatStore)
  : Conversation.t * ChatStore :=
  let conversation := Conversation.mk (nextConversationId s) title in
  (conversation,
   mkChatStore (conversations s ++ [conversation]) (messages s)
               (nextConversationId s + 1) (nextMessageId s)).

(** The messages of the conversation are deleted, then the conversation. *)
Definition deleteConversation (id : Z) (s : ChatStore) : ChatStore :=
  mkChatStore
    (List.filter (fun c => negb (Conversation.id c =? id)) (conversations s))
    (List.filter (fun m => negb (Message.conversationId m =? id))
                 (messages s))
    (nextConversationId s) (nextMessageId s).

(** Oldest first. *)
Definition getMessagesByConversation (conversationId : Z) (s : ChatStore)
  : list Message.t :=
  List.filter (fun m => Message.conversationId m =? conversationId)
              (messages s).

(** The insert is rejected ([None]) when no conversation has the id: the
    column [conversation_id] references [conversations.id]. *)
Definition createMessage (conversationId : Z) (role content : string)
           (s : ChatStore) : option (Message.t * ChatStore) :=
  match getConversation conversationId s with
  | Some _ =>
      let message :=
        Message.mk (nextMessageId s) conversationId role content in
      Some (message,
            mkChatStore (conversations s) (messages s ++ [message])
                        (nextConversationId s) (nextMessageId s + 1))
  | None => None
  end.

(** ** Properties of the store and of the Tool Executor *)

(** The appointment [a] is active and sits on the slot ([date], [time]). *)
Definition occupies (date time : option string) (a : Appointment.t) : bool :=
  Appointment.isActive a && Js.strictEq (Appointment.date a) date &&
  Js.strictEq (Appointment.time a) time.

(** The target is in the active-booked set of the store. *)
Definition activeBooked (date time : option string) (s : Store) : bool :=
  existsb (occupies date time) (appointments s).

(** The target is an entry of the slot catalog. *)
Definition inCatalog (date time : option string) : bool :=
  existsb (slotIs date time) availableSlots.

Definition slotOf (a : Appointment.t) : Slot :=
  mkSlot (Appointment.date a) (Appointment.time a).

Lemma existsb_booked (p : Slot -> bool) (l : list Appointment.t) :
  existsb p (List.map slotOf (List.filter Appointment.isActive l)) =
  existsb (fun a => Appointment.isActive a && p (slotOf a)) l.
Proof.
  induction l as [|a l IH]; simpl; [reflexivity|].
  destruct (Appointment.isActive a); simpl; rewrite IH; reflexivity.
Qed.

Lemma existsb_ext_eq {A} (p q : A -> bool) (l : list A) :
  (forall x, p x = q x) -> existsb p l = existsb q l.
Proof.
  intros H; induction l as [|x l IH]; simpl; [reflexivity|].
  rewrite H, IH; reflexivity.
Qed.

Lemma executeToolCall_identify_user args ctx :
  executeToolCall "identify_user" args ctx = identify_user args ctx.
Proof. reflexivity. Qed.

Lemma executeToolCall_fetch_slots args ctx :
  executeToolCall "fetch_slots" args ctx = fetch_slots args ctx.
Proof. reflexivity. Qed.

Lemma executeToolCall_book_appointment args ctx :
  executeToolCall "book_appointment" args ctx = book_appointment args ctx.
Proof. reflexivity. Qed.

Lemma executeToolCall_retrieve_appointments args ctx :
  executeToolCall "retrieve_appointments" args ctx =
  retrieve_appointments args ctx.
Proof. reflexivity. Qed.

Lemma executeToolCall_cancel_appointment args ctx :
  executeToolCall "cancel_appointment" args ctx = cancel_appointment args ctx.
Proof. reflexivity. Qed.

Lemma executeToolCall_modify_appointment args ctx :
  executeToolCall "modify_appointment" args ctx = modify_appointment args ctx.
Proof. reflexivity. Qed.

Lemma executeToolCall_end_conversation args ctx :
  executeToolCall "end_conversation" args ctx = end_conversation args ctx.
Proof. reflexivity. Qed.

Lemma slotIs_some (date time : option string) (l : list Slot) :
  existsb (slotIs date time) l = true ->
  exists d t, date = Some d /\ time = Some t.
Proof.
  intros H. apply existsb_exists in H. destruct H as (s & _ & H).
  unfold slotIs in H. apply andb_true_iff in H. destruct H as [H1 H2].
  destruct date as [d|]; [|discriminate].
  destruct time as [t|]; [|discriminate].
  exists d, t; split; reflexivity.
Qed.

(** C3. [book_appointment]: without an identified user, or when the target
    is in the active-booked set at execution time, or when the target is
    not an entry of the slot catalog, a guiding text is returned and the
    database is left as it was (the only storage call, if any, is the read
    of the booked slots); otherwise exactly one appointment is appended,
    for the user of the context, on the target slot, with status
    [scheduled], and the result text carries the id of that appointment. *)
Theorem C3_book_appointment_checks_then_creates
        (args : Args.t) (ctx : ConversationContext.t) (w : World) :
  let date := Args.date args in
  let time := Args.time args in
  let run := executeToolCall "book_appointment" args ctx w in
  match identified ctx with
  | None => run = (Ok (mkOutcome identifyFirstText ctx false), w)
  | Some userId =>
      if activeBooked date time (db w) then
        run = (Ok (mkOutcome (bookedText date time) ctx false),
               mkWorld (db w) (log w ++ [OpGetBookedSlots]))
      else if negb (inCatalog date time) then
        run = (Ok (mkOutcome (notASlotText date time) ctx false),
               mkWorld (db w) (log w ++ [OpGetBookedSlots]))
      else
        exists d t,
          date = Some d /\ time = Some t /\
          let created :=
            Appointment.mk (nextAppointmentId (db w)) userId d t
                           (Args.description args) "scheduled" in
          run =
          (Ok (mkOutcome
                 ("Appointment booked successfully for " ++ d ++ " at " ++ t ++
                  ". Your appointment ID is " ++
                  Js.numberToString (Appointment.id created) ++ "." ++
                  (if Js.truthyStr (Args.description args)
                   then " Description: " ++ Js.showStr (Args.description args)
                   else ""))
                 ctx false),
           mkWorld
             (mkStore (users (db w)) (appointments (db w) ++ [created])
                      (callSessions (db w)) (toolCalls (db w))
                      (nextUserId (db w)) (nextAppointmentId (db w) + 1)
                      (nextToolCallId (db w)))
             (log w ++ [OpGetBookedSlots; OpCreateAppointment userId]))
  end.
Proof.
  intros date time run. subst run.
  rewrite executeToolCall_book_appointment.
  unfold book_appointment.
  destruct (identified ctx) as [userId|]; [|reflexivity].
  fold date time. fold (inCatalog date time).
  remember (inCatalog date time) as cat eqn:Hc.
  unfold bind, storage.getBookedSlots, storageRead, storageCall; simpl.
  change (List.map _ (List.filter Appointment.isActive (appointments (db w))))
    with (List.map slotOf (List.filter Appointment.isActive (appointments (db w)))).
  rewrite existsb_booked.
  assert (E : existsb (fun a => Appointment.isActive a && slotIs date time (slotOf a))
                      (appointments (db w)) = activeBooked date time (db w)).
  { unfold activeBooked. apply existsb_ext_eq. intros a.
    unfold occupies, slotIs, slotOf; simpl. rewrite andb_assoc. reflexivity. }
  rewrite E. destruct (activeBooked date time (db w)); [reflexivity|].
  destruct cat; simpl; [|reflexivity].
  destruct (slotIs_some _ _ _ (eq_sym Hc)) as (d & t & Hd & Ht).
  exists d, t. rewrite Hd, Ht. repeat split.
  unfold ret, storage.createAppointment, storageCall; simpl.
  rewrite <- app_assoc. reflexivity.
Qed.

(** *** Phone numbers *)

(** [punctuates d p]: the string [p] is the digit string [d] with
    characters that are not digits put anywhere in it. *)
Inductive punctuates : string -> string -> Prop :=
| punct_end : punctuates "" ""
| punct_digit c d p :
    Js.isDigit c = true -> punctuates d p ->
    punctuates (String c d) (String c p)
| punct_other c d p :
    Js.isDigit c = false -> punctuates d p -> punctuates d (String c p).


Lemma punctuates_stripNonDigits p : punctuates (Js.stripNonDigits p) p.
Proof.
  unfold Js.stripNonDigits. induction p as [|c p IH]; simpl.
  - constructor.
  - destruct (Js.isDigit c) eqn:Hc; constructor; assumption.
Qed.

Lemma stripNonDigits_digits p :
  Js.forallb Js.isDigit (Js.stripNonDigits p) = true.
Proof.
  unfold Js.stripNonDigits. induction p as [|c p IH]; simpl; [reflexivity|].
  destruct (Js.isDigit c) eqn:Hc; simpl; [rewrite Hc|]; exact IH.
Qed.





Definition emptyStore : Store := mkStore [] [] [] [] 1 1 1.


(** Case analysis on the tests met along an execution path. *)
Ltac split_path H :=
  repeat (cbv beta iota zeta in H;
          match type of H with
          | context [if ?b then _ else _] => destruct b
          | context [match ?x with Some _ => _ | None => _ end] => destruct x
          | context [match ?x with nil => _ | cons _ _ => _ end] => destruct x
          end);
  cbv beta iota zeta in H.

(** *** Exceptions *)

(** The missing phone number is the only way in which the executor throws:
    every other call returns a result text. *)
Lemma executeToolCall_throws_iff toolName args ctx w :
  (exists e w', executeToolCall toolName args ctx w = (Throw e, w')) <->
  (toolName = "identify_user" /\ Args.phone_number args = None).
Proof.
  split.
  - intros (e & w' & H). unfold executeToolCall in H.
    destruct (toolName =? "identify_user")%string eqn:E1.
    { apply String.eqb_eq in E1. split; [assumption|].
      unfold identify_user in H.
      destruct (Args.phone_number args) as [p|]; [exfalso|reflexivity].
      unfold bind, ret, storage.getUserByPhoneNumber, storage.createUser,
        storage.getAppointmentsByUser, storage.updateCallSession,
        storageRead, storageCall in H.
      split_path H; discriminate H. }
    exfalso.
    unfold fetch_slots, book_appointment, retrieve_appointments,
      cancel_appointment, modify_appointment, end_conversation, bind, ret,
      storage.getBookedSlots, storage.createAppointment,
      storage.getAppointmentsByUser, storage.getAppointment,
      storage.cancelAppointment, storage.updateAppointment, storageRead,
      storageCall in H.
    split_path H; discriminate H.
  - intros [-> Hp]. exists TypeError, w.
    rewrite executeToolCall_identify_user. unfold identify_user.
    rewrite Hp. reflexivity.
Qed.

(** C7, at the failing input.  [identify_user] called with an argument bag
    that has no [phone_number] throws a [TypeError] (the method call
    [phoneNumber.replace] on [undefined]) instead of returning a guiding
    text, whatever the context and the store; every other call of the
    executor, with any tool name and any argument bag, returns a result
    text. *)
Theorem C7_identify_user_without_phone_throws :
  (forall ctx w,
      executeToolCall "identify_user" Args.empty ctx w = (Throw TypeError, w)) /\
  (forall toolName args ctx w,
      (toolName = "identify_user" /\ Args.phone_number args = None) \/
      exists out w', executeToolCall toolName args ctx w = (Ok out, w')).
Proof.
  split; [reflexivity|].
  intros toolName args ctx w.
  destruct (executeToolCall toolName args ctx w) as [[out|e] w'] eqn:E.
  - right. exists out, w'. reflexivity.
  - left. apply (executeToolCall_throws_iff toolName args ctx w).
    exists e, w'. exact E.
Qed.

(** *** Cancellation *)

Lemma find_updateWhere {R} (sel : R -> bool) (f : R -> R) (rows : list R) :
  (forall r, sel r = true -> sel (f r) = true) ->
  find sel (storage.updateWhere sel f rows) = option_map f (find sel rows).
Proof.
  intros Hsel. unfold storage.updateWhere.
  induction rows as [|r rows IH]; simpl; [reflexivity|].
  destruct (sel r) eqn:E.
  - rewrite (Hsel r E). reflexivity.
  - rewrite E. exact IH.
Qed.

Lemma updateWhere_idempotent {R} (sel : R -> bool) (f : R -> R)
      (rows : list R) :
  (forall r, sel r = true -> sel (f r) = true) ->
  (forall r, f (f r) = f r) ->
  storage.updateWhere sel f (storage.updateWhere sel f rows) =
  storage.updateWhere sel f rows.
Proof.
  intros Hsel Hf. unfold storage.updateWhere. rewrite map_map.
  apply map_ext. intros r. destruct (sel r) eqn:E.
  - rewrite (Hsel r E). apply Hf.
  - rewrite E. reflexivity.
Qed.

Definition cancelled (a : Appointment.t) : Appointment.t :=
  storage.applyPatch (storage.mkPatch None None (Some "cancelled")) a.

Lemma cancelled_status a : Appointment.status (cancelled a) = "cancelled".
Proof. reflexivity. Qed.

Lemma cancel_appointment_already args ctx w userId a :
  identified ctx = Some userId ->
  storage.appointmentById (Args.appointment_id args) (db w) = Some a ->
  Appointment.userId a = userId ->
  Appointment.status a = "cancelled" ->
  executeToolCall "cancel_appointment" args ctx w =
  (Ok (mkOutcome alreadyCancelledText ctx false),
   mkWorld (db w) (log w ++ [OpGetAppointment (Args.appointment_id args)])).
Proof.
  intros Hid Hfind Hown Hst.
  rewrite executeToolCall_cancel_appointment. unfold cancel_appointment.
  rewrite Hid.
  unfold bind, storage.getAppointment, storageRead, storageCall; simpl.
  rewrite Hfind, Hown, Z.eqb_refl, Hst. reflexivity.
Qed.

(** C8. Cancelling is idempotent.  At the store: [cancelAppointment]
    returns normally, the row it returns is the appointment with status
    [cancelled] and every other column kept; a second [cancelAppointment]
    of the same id returns the same row and leaves the database exactly as
    the first call left it.  At the tool: [cancel_appointment] on an
    appointment of the caller that is already cancelled returns the text
    "This appointment is already cancelled." and the only storage call it
    makes is the read [getAppointment]; so, of two [cancel_appointment]
    calls on an appointment of the caller, the first leaves it cancelled
    and the second returns that text and leaves the database as it is. *)
Theorem C8_cancellation_idempotent :
  (forall (id : Z) (w : World),
      let once := storage.cancelAppointment id w in
      let twice := storage.cancelAppointment id (snd once) in
      fst once =
      Ok (option_map cancelled (storage.appointmentById (Some id) (db w))) /\
      fst twice = fst once /\
      db (snd twice) = db (snd once)) /\
  (forall args ctx w userId a,
      identified ctx = Some userId ->
      storage.appointmentById (Args.appointment_id args) (db w) = Some a ->
      Appointment.userId a = userId ->
      Appointment.status a = "cancelled" ->
      executeToolCall "cancel_appointment" args ctx w =
      (Ok (mkOutcome alreadyCancelledText ctx false),
       mkWorld (db w) (log w ++ [OpGetAppointment (Args.appointment_id args)]))
      /\ isWrite (OpGetAppointment (Args.appointment_id args)) = false) /\
  (forall args ctx w userId a,
      identified ctx = Some userId ->
      storage.appointmentById (Args.appointment_id args) (db w) = Some a ->
      Appointment.userId a = userId ->
      exists out1 w1 w2,
        executeToolCall "cancel_appointment" args ctx w = (Ok out1, w1) /\
        option_map Appointment.status
          (storage.appointmentById (Args.appointment_id args) (db w1)) =
        Some "cancelled" /\
        executeToolCall "cancel_appointment" args ctx w1 =
        (Ok (mkOutcome alreadyCancelledText ctx false), w2) /\
        db w2 = db w1).
Proof.
  split; [|split].
  - intros id w once twice. subst once twice.
    unfold storage.cancelAppointment, storageCall, storage.appointmentById,
      storage.setAppointments; simpl.
    fold cancelled.
    assert (Hsel : forall r : Appointment.t,
               (Appointment.id r =? id) = true ->
               (Appointment.id (cancelled r) =? id) = true)
      by (intros r H; exact H).
    rewrite updateWhere_idempotent; [|exact Hsel|reflexivity].
    rewrite find_updateWhere by exact Hsel.
    repeat split; reflexivity.
  - intros args ctx w userId a Hid Hfind Hown Hst. split; [|reflexivity].
    apply (cancel_appointment_already args ctx w userId a); assumption.
  - intros args ctx w userId a Hid Hfind Hown.
    destruct (Appointment.status a =? "cancelled")%string eqn:Hst.
    + apply String.eqb_eq in Hst.
      pose proof (cancel_appointment_already args ctx w userId a Hid Hfind
                                             Hown Hst) as H1.
      do 3 eexists. split; [exact H1|]. simpl.
      split; [rewrite Hfind; simpl; rewrite Hst; reflexivity|].
      split;
        [apply (cancel_appointment_already args ctx _ userId a); assumption|].
      reflexivity.
    + assert (Hrun : exists text,
                 executeToolCall "cancel_appointment" args ctx w =
                 (Ok (mkOutcome text ctx false),
                  snd (storage.cancelAppointment (Appointment.id a)
                         (mkWorld (db w)
                            (log w ++
                             [OpGetAppointment (Args.appointment_id args)]))))).
      { rewrite executeToolCall_cancel_appointment. unfold cancel_appointment.
        rewrite Hid.
        unfold bind, storage.getAppointment, storageRead, storageCall; simpl.
        rewrite Hfind, Hown, Z.eqb_refl, Hst. simpl. eexists. reflexivity. }
      destruct Hrun as (text & Hrun).
      assert (Hafter :
                storage.appointmentById (Args.appointment_id args)
                  (db (snd (storage.cancelAppointment (Appointment.id a)
                              (mkWorld (db w)
                                 (log w ++
                                  [OpGetAppointment
                                     (Args.appointment_id args)]))))) =
                Some (cancelled a)).
      { unfold storage.appointmentById in *.
        destruct (Args.appointment_id args) as [i|]; [|discriminate].
        simpl. fold cancelled.
        assert (Hi : Appointment.id a = i)
          by (apply find_some in Hfind; apply Z.eqb_eq; exact (proj2 Hfind)).
        subst i. rewrite find_updateWhere by (intros r H; exact H).
        rewrite Hfind. reflexivity. }
      do 3 eexists. split; [exact Hrun|].
      split; [rewrite Hafter; reflexivity|].
      split;
        [apply (cancel_appointment_already args ctx _ userId (cancelled a));
         [exact Hid|exact Hafter|exact Hown|reflexivity]|].
      reflexivity.
Qed.

Definition cancelledRow : Appointment.t :=
  Appointment.mk 1 1 "2026-01-28" "09:00 AM" None "cancelled".

Definition cancelledWorld : World :=
  mkWorld (mkStore [User.mk 1 "5551234567" None] [cancelledRow] [] [] 2 2 1) [].

Definition callerContext : ConversationContext.t :=
  ConversationContext.mk 1 (Some 1) (Some "5551234567") None [].

Definition cancelArgs (id : Z) : Args.t :=
  Args.mk None None None None None (Some id) None None.

Lemma C8_witness :
  executeToolCall "cancel_appointment" (cancelArgs 1) callerContext
                  cancelledWorld =
  (Ok (mkOutcome alreadyCancelledText callerContext false),
   mkWorld (db cancelledWorld) [OpGetAppointment (Some 1)]) /\
  isWrite (OpGetAppointment (Some 1)) = false.
Proof.
  apply (proj1 (proj2 C8_cancellation_idempotent) (cancelArgs 1) callerContext
               cancelledWorld 1 cancelledRow); reflexivity.
Defined.

(** *** Modification *)

Lemma existsb_false {A} (l : list A) : existsb (fun _ => false) l = false.
Proof. induction l; simpl; auto. Qed.

(** The test [isSlotTaken] of [modify_appointment], read on the table: the
    target is not the appointment's own slot and an active appointment
    sits on it. *)
Lemma isSlotTaken_modify (ownDate ownTime targetDate targetTime : string)
      (l : list Appointment.t) :
  existsb
    (fun s => sameSlot targetDate targetTime s &&
              negb (sameSlot ownDate ownTime s))
    (List.map slotOf (List.filter Appointment.isActive l)) =
  negb (sameSlot ownDate ownTime (mkSlot targetDate targetTime)) &&
  existsb (occupies (Some targetDate) (Some targetTime)) l.
Proof.
  rewrite existsb_booked.
  destruct (sameSlot ownDate ownTime (mkSlot targetDate targetTime)) eqn:Own.
  - simpl. rewrite <- (existsb_false l). apply existsb_ext_eq. intros a.
    unfold sameSlot in *; simpl in *.
    apply andb_true_iff in Own. destruct Own as [Hd Ht].
    apply String.eqb_eq in Hd, Ht. subst.
    destruct (Appointment.date a =? ownDate)%string,
             (Appointment.time a =? ownTime)%string;
      simpl; rewrite ?andb_false_r; reflexivity.
  - simpl. apply existsb_ext_eq. intros a.
    unfold occupies, sameSlot in *; simpl in *.
    destruct (Appointment.date a =? targetDate)%string eqn:Hd;
      [|simpl; rewrite andb_false_r; reflexivity].
    destruct (Appointment.time a =? targetTime)%string eqn:Ht;
      [|simpl; rewrite !andb_false_r; reflexivity].
    apply String.eqb_eq in Hd, Ht. rewrite Hd, Ht, Own. simpl.
    rewrite !andb_true_r. reflexivity.
Qed.

(** What [modify_appointment] does on an appointment of the caller, in
    every case. *)
Lemma modify_appointment_run
      (args : Args.t) (ctx : ConversationContext.t) (w : World)
      (userId : Z) (a : Appointment.t) :
  identified ctx = Some userId ->
  Js.truthyStr (Args.new_date args) || Js.truthyStr (Args.new_time args)
  = true ->
  storage.appointmentById (Args.appointment_id args) (db w) = Some a ->
  Appointment.userId a = userId ->
  let targetDate := orCurrent (Args.new_date args) (Appointment.date a) in
  let targetTime := orCurrent (Args.new_time args) (Appointment.time a) in
  let onOwnSlot :=
    sameSlot (Appointment.date a) (Appointment.time a)
             (mkSlot targetDate targetTime) in
  let run := executeToolCall "modify_appointment" args ctx w in
  if negb onOwnSlot &&
     activeBooked (Some targetDate) (Some targetTime) (db w)
  then
    run =
    (Ok (mkOutcome (conflictText targetDate targetTime) ctx false),
     mkWorld (db w)
             (log w ++ [OpGetAppointment (Args.appointment_id args);
                        OpGetBookedSlots]))
  else
    exists w',
      run =
      (Ok (mkOutcome
             (rescheduledText (Args.appointment_id args) targetDate targetTime)
             ctx false), w') /\
      storage.appointmentById (Args.appointment_id args) (db w') =
      Some (Appointment.mk (Appointment.id a) (Appointment.userId a)
                           targetDate targetTime (Appointment.description a)
                           "scheduled").
Proof.
  intros Hid Hnew Hfind Hown targetDate targetTime onOwnSlot run.
  subst run.
  rewrite executeToolCall_modify_appointment. unfold modify_appointment.
  rewrite Hid.
  apply orb_true_iff in Hnew.
  assert (Hn : negb (Js.truthyStr (Args.new_date args)) &&
               negb (Js.truthyStr (Args.new_time args)) = false)
    by (destruct Hnew as [-> | ->]; simpl; auto using andb_false_r).
  rewrite Hn.
  unfold bind, storage.getAppointment, storage.getBookedSlots, storageRead,
    storageCall; simpl.
  rewrite Hfind, Hown, Z.eqb_refl; simpl.
  fold targetDate targetTime.
  change (List.map _ (List.filter Appointment.isActive (appointments (db w))))
    with (List.map slotOf
                   (List.filter Appointment.isActive (appointments (db w)))).
  rewrite isSlotTaken_modify. fold onOwnSlot.
  fold (activeBooked (Some targetDate) (Some targetTime) (db w)).
  destruct (negb onOwnSlot &&
            activeBooked (Some targetDate) (Some targetTime) (db w)).
  - rewrite <- app_assoc. reflexivity.
  - unfold storage.updateAppointment, storageCall, ret; simpl.
    eexists; split; [reflexivity|].
    destruct (Args.appointment_id args) as [i|]; [|discriminate].
    simpl in *.
    assert (Hi : Appointment.id a = i).
    { apply find_some in Hfind. destruct Hfind as [_ Hfind].
      apply Z.eqb_eq in Hfind. exact Hfind. }
    subst i.
    rewrite find_updateWhere by (intros r H; exact H).
    rewrite Hfind. subst userId. reflexivity.
Qed.

(** C4, as amended.  [modify_appointment] on an appointment of the caller,
    with a new date or a new time given.  The target is the new value of
    each field, or the current value where none is given.  When the target
    differs from the appointment's own current slot: if an active
    appointment sits on the target, the conflict text is returned and the
    database is unchanged (so are the appointment's date, time and status);
    if none does, the call succeeds.  When the target is the appointment's
    own current slot and the appointment is not cancelled, the call
    succeeds, also when another active appointment sits on that slot.  On
    success the appointment has the target date and time and the status
    [scheduled]. *)
Theorem C4_modify_appointment_conflict_or_reschedule
        (args : Args.t) (ctx : ConversationContext.t) (w : World)
        (userId : Z) (a : Appointment.t) :
  identified ctx = Some userId ->
  Js.truthyStr (Args.new_date args) || Js.truthyStr (Args.new_time args)
  = true ->
  storage.appointmentById (Args.appointment_id args) (db w) = Some a ->
  Appointment.userId a = userId ->
  let targetDate := orCurrent (Args.new_date args) (Appointment.date a) in
  let targetTime := orCurrent (Args.new_time args) (Appointment.time a) in
  let onOwnSlot :=
    sameSlot (Appointment.date a) (Appointment.time a)
             (mkSlot targetDate targetTime) in
  let booked := activeBooked (Some targetDate) (Some targetTime) (db w) in
  let run := executeToolCall "modify_appointment" args ctx w in
  let rescheduled :=
    exists w',
      run =
      (Ok (mkOutcome
             (rescheduledText (Args.appointment_id args) targetDate targetTime)
             ctx false), w') /\
      storage.appointmentById (Args.appointment_id args) (db w') =
      Some (Appointment.mk (Appointment.id a) (Appointment.userId a)
                           targetDate targetTime (Appointment.description a)
                           "scheduled") in
  (onOwnSlot = false -> booked = true ->
   run =
   (Ok (mkOutcome (conflictText targetDate targetTime) ctx false),
    mkWorld (db w)
            (log w ++ [OpGetAppointment (Args.appointment_id args);
                       OpGetBookedSlots]))) /\
  (onOwnSlot = false -> booked = false -> rescheduled) /\
  (onOwnSlot = true -> Appointment.isActive a = true -> rescheduled).
Proof.
  intros Hid Hnew Hfind Hown targetDate targetTime onOwnSlot booked run
         rescheduled.
  pose proof (modify_appointment_run args ctx w userId a Hid Hnew Hfind Hown)
    as Main.
  cbv zeta in Main. fold targetDate targetTime in Main.
  fold onOwnSlot booked run in Main.
  split; [|split].
  - intros Ho Hb. rewrite Ho, Hb in Main. exact Main.
  - intros Ho Hb. rewrite Ho, Hb in Main. exact Main.
  - intros Ho _. rewrite Ho in Main. exact Main.
Qed.

Definition modifyArgs (id : Z) (newDate newTime : option string) : Args.t :=
  Args.mk None None None None None (Some id) newDate newTime.

(** Two active appointments share a slot: appointment 1 was booked with the
    tool, appointment 2, of another user, was created from a call
    summary. *)
Definition sharedSlotWorld : World :=
  mkWorld
    (mkStore [User.mk 1 "5551234567" None; User.mk 2 "5559876543" None]
             [Appointment.mk 1 1 "2026-01-29" "11:00 AM" None "scheduled";
              Appointment.mk 2 2 "2026-01-29" "11:00 AM"
                             (Some "Appointment booked via voice call")
                             "pending"]
             [] [] 3 3 1)
    [].

Lemma C4_witness :
  exists w',
    executeToolCall "modify_appointment"
      (modifyArgs 1 (Some "2026-01-29") None) callerContext sharedSlotWorld =
    (Ok (mkOutcome (rescheduledText (Some 1) "2026-01-29" "11:00 AM")
                   callerContext false), w') /\
    storage.appointmentById (Some 1) (db w') =
    Some (Appointment.mk 1 1 "2026-01-29" "11:00 AM" None "scheduled").
Proof.
  apply (proj2 (proj2 (@C4_modify_appointment_conflict_or_reschedule
                  (modifyArgs 1 (Some "2026-01-29") None) callerContext
                  sharedSlotWorld 1
                  (Appointment.mk 1 1 "2026-01-29" "11:00 AM" None "scheduled")
                  eq_refl eq_refl eq_refl eq_refl))); reflexivity.
Defined.

(** C4 as it was stated: whenever a different active appointment occupies
    the target, the conflict text comes back and the appointment keeps its
    date, time and status. *)
Definition C4_as_stated (args : Args.t) (ctx : ConversationContext.t)
           (w : World) : Prop :=
  forall userId a b,
    identified ctx = Some userId ->
    storage.appointmentById (Args.appointment_id args) (db w) = Some a ->
    Appointment.userId a = userId ->
    let targetDate := orCurrent (Args.new_date args) (Appointment.date a) in
    let targetTime := orCurrent (Args.new_time args) (Appointment.time a) in
    In b (appointments (db w)) ->
    Appointment.id b <> Appointment.id a ->
    occupies (Some targetDate) (Some targetTime) b = true ->
    exists w',
      executeToolCall "modify_appointment" args ctx w =
      (Ok (mkOutcome (conflictText targetDate targetTime) ctx false), w') /\
      storage.appointmentById (Args.appointment_id args) (db w') = Some a.

(** Appointment 1 is modified onto its own slot, on which the active
    appointment 2 sits as well: the own slot is exempt from the check, and
    the call succeeds. *)
Lemma C4_counterexample :
  ~ C4_as_stated (modifyArgs 1 (Some "2026-01-29") None) callerContext
                 sharedSlotWorld.
Proof.
  intros H.
  destruct (H 1 (Appointment.mk 1 1 "2026-01-29" "11:00 AM" None "scheduled")
              (Appointment.mk 2 2 "2026-01-29" "11:00 AM"
                              (Some "Appointment booked via voice call")
                              "pending")
              eq_refl eq_refl eq_refl) as (w' & Hrun & _).
  - simpl. right. left. reflexivity.
  - simpl. discriminate.
  - reflexivity.
  - vm_compute in Hrun. discriminate Hrun.
Qed.

(** ** Properties of the Call Summarizer *)

(** *** The fallback *)

Definition sessionRow (sessionId : Z) (s : Store) : option CallSession.t :=
  find (fun c => CallSession.id c =? sessionId) (callSessions s).

(** The appointments of a user as the summary lists them. *)
Definition appointmentViews (user : option User.t) (s : Store)
  : list ApptView.t :=
  match user with
  | Some u =>
      List.map ApptView.ofAppointment
        (rev (List.filter (fun a => Appointment.userId a =? User.id u)
                          (appointments s)))
  | None => []
  end.


Lemma fallback_run sessionId transcript session user w :
  fallback sessionId transcript session user w =
  (Ok (CallSummary.mk
         (fallbackSummary transcript) (appointmentViews user (db w)) []
         (Js.orUndefined
            (match user with Some u => User.name u | None => None end))
         (Js.orUndefined
            (match session with
             | Some s => CallSession.phoneNumber s
             | None => None
             end))
         None),
   snd (storage.endCallSession sessionId (fallbackSummary transcript)
          (appointmentViews user (db w)) [] transcript
          (mkWorld (db w)
                   (log w ++
                    match user with
                    | Some u => [OpGetAppointmentsByUser (User.id u)]
                    | None => []
                    end)))).
Proof.
  unfold fallback, currentAppointments, bind, ret.
  destruct user as [u|]; simpl.
  - reflexivity.
  - rewrite app_nil_r. destruct w; reflexivity.
Qed.


(** *** What a computation keeps *)

(** Every run of [m] relates the world it starts from to the world it ends
    in, whether it returns or throws. *)
Definition keeps {A} (R : World -> World -> Prop) (m : M A) : Prop :=
  forall w r w', m w = (r, w') -> R w w'.

Section Keeps.

Variable R : World -> World -> Prop.
Hypothesis R_refl : forall w, R w w.
Hypothesis R_trans : forall a b c, R a b -> R b c -> R a c.

Lemma keeps_ret {A} (a : A) : keeps R (ret a).
Proof. intros w r w' H. inversion H. apply R_refl. Qed.

Lemma keeps_throw {A} (e : Exn) : keeps R (@throw A e).
Proof. intros w r w' H. inversion H. apply R_refl. Qed.

Lemma keeps_bind {A B} (m : M A) (k : A -> M B) :
  keeps R m -> (forall a, keeps R (k a)) -> keeps R (bind m k).
Proof.
  intros Hm Hk w r w' H. unfold bind in H.
  destruct (m w) as [[a|e] w1] eqn:E.
  - eapply R_trans; [eapply Hm; exact E|eapply Hk; exact H].
  - inversion H; subst. eapply Hm; exact E.
Qed.

Lemma keeps_tryStep {A B} (m : M A) (h : M B) (k : A -> M B) :
  keeps R m -> keeps R h -> (forall a, keeps R (k a)) -> keeps R (tryStep m h k).
Proof.
  intros Hm Hh Hk w r w' H. unfold tryStep in H.
  destruct (m w) as [[a|e] w1] eqn:E.
  - eapply R_trans; [eapply Hm; exact E|eapply Hk; exact H].
  - eapply R_trans; [eapply Hm; exact E|eapply Hh; exact H].
Qed.

Lemma keeps_storageCall {A} (op : StoreOp) (f : Store -> A * Store) :
  (forall w, R w (mkWorld (snd (f (db w))) (log w ++ [op]))) ->
  keeps R (storageCall op f).
Proof.
  intros Hf w r w' H. unfold storageCall in H.
  specialize (Hf w). destruct (f (db w)) as [a s]. inversion H; subst.
  exact Hf.
Qed.

(** The storage calls the summarizer makes while it applies an extraction. *)
Hypothesis R_read : forall w op,
    isWrite op = false -> op <> OpGetBookedSlots ->
    R w (mkWorld (db w) (log w ++ [op])).
Hypothesis R_createUser : forall w phone name,
    R w (snd (storage.createUser phone name w)).
Hypothesis R_updateUser : forall w id name,
    R w (snd (storage.updateUser id name w)).
Hypothesis R_createAppointment : forall w userId date time description status,
    R w (snd (storage.createAppointment userId date time description status w)).
Hypothesis R_updateAppointment : forall w id patch,
    R w (snd (storage.updateAppointment id patch w)).

Lemma keeps_storageRead {A} (op : StoreOp) (f : Store -> A) :
  isWrite op = false -> op <> OpGetBookedSlots -> keeps R (storageRead op f).
Proof.
  intros Hw Hop. apply keeps_storageCall. intros w. simpl.
  apply R_read; assumption.
Qed.

Lemma keeps_of_snd {A} (m : M A) :
  (forall w, R w (snd (m w))) -> keeps R m.
Proof. intros H w r w' E. specialize (H w). rewrite E in H. exact H. Qed.

Lemma keeps_getAppointmentsByUser userId :
  keeps R (storage.getAppointmentsByUser userId).
Proof. apply keeps_storageRead; [reflexivity|discriminate]. Qed.

Lemma keeps_fillName u extractedName : keeps R (fillName u extractedName).
Proof.
  unfold fillName. destruct (_ && _).
  - apply keeps_bind; [apply keeps_of_snd; intros; apply R_updateUser|].
    intros _. apply keeps_ret.
  - apply keeps_ret.
Qed.

Lemma keeps_resolveUser user extractedPhone extractedName :
  keeps R (resolveUser user extractedPhone extractedName).
Proof.
  unfold resolveUser. destruct user as [u|].
  - apply keeps_bind; [apply keeps_fillName|intros; apply keeps_ret].
  - destruct (_ && _); [|apply keeps_ret].
    apply keeps_bind; [apply keeps_storageRead; [reflexivity|discriminate]|].
    intros [eu|].
    + apply keeps_bind; [apply keeps_fillName|intros; apply keeps_ret].
    + apply keeps_bind; [apply keeps_of_snd; intros; apply R_createUser|].
      intros; apply keeps_ret.
Qed.

Lemma keeps_bookingLoop userId requests :
  forall existingAppts n, keeps R (bookingLoop userId requests existingAppts n).
Proof.
  induction requests as [|[q|] requests IH]; intros existingAppts n; simpl.
  - apply keeps_ret.
  - destruct (_ && _); [|apply IH].
    destruct (isDuplicate _ _ _); [apply IH|].
    apply keeps_bind; [apply keeps_of_snd; intros; apply R_createAppointment|].
    intros; apply IH.
  - apply keeps_throw.
Qed.

Lemma keeps_cancellationLoop requests userAppts :
  keeps R (cancellationLoop requests userAppts).
Proof.
  induction requests as [|[q|] requests IH]; simpl.
  - apply keeps_ret.
  - destruct (matchingAppt q userAppts); [|exact IH].
    apply keeps_bind; [apply keeps_of_snd; intros; apply R_updateAppointment|].
    intros; exact IH.
  - apply keeps_throw.
Qed.

Lemma keeps_applyRequests user extractedData :
  keeps R (applyRequests user extractedData).
Proof.
  unfold applyRequests.
  apply keeps_bind.
  { destruct user; [apply keeps_getAppointmentsByUser|apply keeps_ret]. }
  intros existingAppts. apply keeps_bind.
  { destruct user; [|apply keeps_ret].
    destruct (nonEmpty _); [apply keeps_bookingLoop|apply keeps_ret]. }
  intros booked. apply keeps_bind; [|intros; apply keeps_ret].
  destruct user; [|apply keeps_ret].
  destruct (nonEmpty _); [|apply keeps_ret].
  apply keeps_bind; [apply keeps_getAppointmentsByUser|].
  intros; apply keeps_cancellationLoop.
Qed.

End Keeps.

(** The steps before the session is closed leave the session table alone. *)
Definition sameSessions (w w' : World) : Prop :=
  callSessions (db w') = callSessions (db w).

Lemma sameSessions_resolveUser user extractedPhone extractedName :
  keeps sameSessions (resolveUser user extractedPhone extractedName).
Proof.
  apply keeps_resolveUser; unfold sameSessions; intros; simpl;
    try reflexivity; congruence.
Qed.

Lemma sameSessions_applyRequests user extractedData :
  keeps sameSessions (applyRequests user extractedData).
Proof.
  apply keeps_applyRequests; unfold sameSessions; intros; simpl;
    try reflexivity; congruence.
Qed.

Lemma finalize_returns sessionId transcript user d phone name n w :
  exists payload w',
    finalize sessionId transcript user d phone name n w = (Ok payload, w').
Proof.
  unfold finalize, currentAppointments, bind, ret, storage.endCallSession,
    storage.getAppointmentsByUser, storageRead, storageCall.
  destruct user; simpl; eauto.
Qed.





(** User 1 is linked to session 1 and has no appointment yet. *)
Definition summaryWorld : World :=
  mkWorld
    (mkStore [User.mk 1 "5551234567" None] []
             [CallSession.mk 1 (Some 1) (Some "5551234567") "active" None None
                             None None]
             [] 2 1 1)
    [].



(** *** What the summarizer consults *)

(** The log gains no read of the booked slots. *)
Definition noBookedRead (w w' : World) : Prop :=
  In OpGetBookedSlots (log w') -> In OpGetBookedSlots (log w).

Lemma noBookedRead_refl w : noBookedRead w w.
Proof. intros H; exact H. Qed.

Lemma noBookedRead_trans a b c :
  noBookedRead a b -> noBookedRead b c -> noBookedRead a c.
Proof. unfold noBookedRead. auto. Qed.

Lemma noBookedRead_call {A} (op : StoreOp) (f : Store -> A * Store) :
  op <> OpGetBookedSlots -> keeps noBookedRead (storageCall op f).
Proof.
  intros Hop. apply keeps_storageCall. intros w Hin. simpl in Hin.
  apply in_app_or in Hin. destruct Hin as [Hin|[Hin|[]]]; [exact Hin|].
  congruence.
Qed.

Ltac no_booked_read :=
  repeat first
    [ apply keeps_ret; exact noBookedRead_refl
    | apply keeps_throw; exact noBookedRead_refl
    | apply noBookedRead_call; discriminate
    | apply keeps_bind; [exact noBookedRead_trans| |intros]
    | apply keeps_tryStep;
      [exact noBookedRead_trans| | |intros]
    | match goal with
      | |- keeps _ (match ?x with _ => _ end) => destruct x
      | |- keeps _ (if ?b then _ else _) => destruct b
      end ].

Lemma noBookedRead_generateCallSummary llm sessionId transcript :
  keeps noBookedRead (generateCallSummary llm sessionId transcript).
Proof.
  assert (Hsnd : forall A (m : M A) op f,
             m = storageCall op f -> op <> OpGetBookedSlots ->
             forall w, noBookedRead w (snd (m w))).
  { intros A m op f -> Hop w.
    destruct (storageCall op f w) as [r w'] eqn:E.
    simpl. eapply (noBookedRead_call op f Hop). exact E. }
  unfold generateCallSummary.
  apply keeps_bind; [exact noBookedRead_trans| |].
  { unfold loadSession, sessionUser, storage.getCallSession,
      storage.getToolCallsBySession, storage.getUser, storageRead.
    no_booked_read. }
  intros [session user].
  assert (Hcatch : forall u, keeps noBookedRead
                               (fallback sessionId transcript session u)).
  { intros u. unfold fallback, currentAppointments,
      storage.getAppointmentsByUser, storage.endCallSession, storageRead.
    no_booked_read. }
  apply keeps_tryStep; [exact noBookedRead_trans| |apply Hcatch|].
  { unfold extract. no_booked_read. }
  intros [[extractedData extractedPhone] extractedName].
  apply keeps_tryStep; [exact noBookedRead_trans| |apply Hcatch|].
  { apply keeps_resolveUser;
      [exact noBookedRead_refl|exact noBookedRead_trans| | |].
    - intros w op _ Hop Hin. simpl in Hin. apply in_app_or in Hin.
      destruct Hin as [Hin|[Hin|[]]]; [exact Hin|congruence].
    - intros. eapply Hsnd; [reflexivity|discriminate].
    - intros. eapply Hsnd; [reflexivity|discriminate]. }
  intros user'.
  apply keeps_tryStep; [exact noBookedRead_trans| |apply Hcatch|].
  { unfold applyExtraction.
    apply keeps_bind; [exact noBookedRead_trans| |].
    - apply keeps_applyRequests;
        [exact noBookedRead_refl|exact noBookedRead_trans| | |].
      + intros w op _ Hop Hin. simpl in Hin. apply in_app_or in Hin.
        destruct Hin as [Hin|[Hin|[]]]; [exact Hin|congruence].
      + intros. eapply Hsnd; [reflexivity|discriminate].
      + intros. eapply Hsnd; [reflexivity|discriminate].
    - intros n. unfold finalize, currentAppointments,
        storage.getAppointmentsByUser, storage.endCallSession, storageRead.
      no_booked_read. }
  intros payload. apply keeps_ret. exact noBookedRead_refl.
Qed.

(** User 1 holds the slot 2026-01-28 09:00 AM; session 7 is the call of
    user 2. *)
Definition sharedWorld : World :=
  mkWorld
    (mkStore [User.mk 1 "5551234567" None; User.mk 2 "5559876543" None]
             [Appointment.mk 1 1 "2026-01-28" "09:00 AM" None "scheduled"]
             [CallSession.mk 7 (Some 2) (Some "5559876543") "active" None None
                             None None]
             [] 3 2 1)
    [].

Definition requestFor (date time : string) : Extraction :=
  JsonObject
    (ExtractedData.mk None JUndefined
       (Some [Some (ApptRequest.mk (Some date) (Some time) None)])
       None (Some "Booked.") None).

(** C10. The Call Summarizer books without the global checks.  No run of it
    reads the booked slots; and there are runs in which it creates an
    appointment on a slot that an active appointment of another user
    occupies, and runs in which it creates an appointment on a slot that is
    not in the catalog. *)
Theorem C10_summarizer_books_without_global_checks :
  (forall llm sessionId transcript w r w',
      generateCallSummary llm sessionId transcript w = (r, w') ->
      In OpGetBookedSlots (log w') -> In OpGetBookedSlots (log w)) /\
  (exists w llm sessionId transcript payload w' other created,
      generateCallSummary llm sessionId transcript w = (Ok payload, w') /\
      appointments (db w') = (appointments (db w) ++ [created])%list /\
      In other (appointments (db w)) /\
      Appointment.userId other <> Appointment.userId created /\
      occupies (Some (Appointment.date created))
               (Some (Appointment.time created)) other = true /\
      Appointment.isActive created = true) /\
  (exists w llm sessionId transcript payload w' created,
      generateCallSummary llm sessionId transcript w = (Ok payload, w') /\
      appointments (db w') = (appointments (db w) ++ [created])%list /\
      inCatalog (Some (Appointment.date created))
                (Some (Appointment.time created)) = false).
Proof.
  split; [|split].
  - intros llm sessionId transcript w r w' H.
    exact (@noBookedRead_generateCallSummary llm sessionId transcript w r w' H).
  - exists sharedWorld, (requestFor "2026-01-28" "09:00 AM"), 7, None.
    eexists. eexists.
    exists (Appointment.mk 1 1 "2026-01-28" "09:00 AM" None "scheduled").
    exists (Appointment.mk 2 2 "2026-01-28" "09:00 AM"
                           (Some defaultDescription) "pending").
    split; [vm_compute; reflexivity|].
    split; [reflexivity|]. split; [left; reflexivity|].
    split; [simpl; discriminate|]. split; reflexivity.
  - exists sharedWorld, (requestFor "2026-03-15" "7:15 PM"), 7, None.
    eexists. eexists.
    exists (Appointment.mk 2 2 "2026-03-15" "7:15 PM"
                           (Some defaultDescription) "pending").
    split; [vm_compute; reflexivity|].
    split; reflexivity.
Qed.

(** ** Double booking *)

(** The active appointments on the slot ([date], [time]). *)
Definition activeOn (date time : string) (s : Store) : list Appointment.t :=
  List.filter (occupies (Some date) (Some time)) (appointments s).

(** At most one active appointment per slot, over all users. *)
Definition noDoubleBooking (s : Store) : Prop :=
  forall date time, (List.length (activeOn date time s) <= 1)%nat.

Definition identifyArgs (phone : string) : Args.t :=
  Args.mk (Some phone) None None None None None None None.

Definition bookArgs (date time : string) : Args.t :=
  Args.mk None None (Some date) (Some time) None None None None.

Definition sessionContext (sessionId : Z) : ConversationContext.t :=
  ConversationContext.mk sessionId None None None [].

(** Caller A books the slot and cancels; caller B books the freed slot;
    caller A then asks to move the cancelled appointment 1 to its own
    date. *)
Definition reviveScenario : M (list string) :=
  a <- runToolCalls
         [ ("identify_user", identifyArgs "555-123-4567");
           ("book_appointment", bookArgs "2026-01-28" "09:00 AM");
           ("cancel_appointment", cancelArgs 1) ]
         (sessionContext 1) ;;
  b <- runToolCalls
         [ ("identify_user", identifyArgs "555-987-6543");
           ("book_appointment", bookArgs "2026-01-28" "09:00 AM") ]
         (sessionContext 2) ;;
  a' <- runToolCalls
          [ ("modify_appointment", modifyArgs 1 (Some "2026-01-28") None) ]
          (snd a) ;;
  ret (fst a ++ fst b ++ fst a')%list.

(** *** What the three tools do to the invariant *)

Lemma filter_snoc {A} (p : A -> bool) (l : list A) (x : A) :
  List.filter p (l ++ [x]) =
  (List.filter p l ++ (if p x then [x] else []))%list.
Proof. rewrite filter_app. reflexivity. Qed.

Lemma filter_none {A} (p : A -> bool) (l : list A) :
  existsb p l = false -> List.filter p l = [].
Proof.
  induction l as [|a l IH]; simpl; [reflexivity|].
  destruct (p a); simpl; [discriminate|exact IH].
Qed.

Lemma occupies_slot date time a :
  occupies (Some date) (Some time) a = true ->
  Appointment.date a = date /\ Appointment.time a = time.
Proof.
  unfold occupies, Js.strictEq. intros H.
  apply andb_true_iff in H. destruct H as [H Ht].
  apply andb_true_iff in H. destruct H as [_ Hd].
  apply String.eqb_eq in Hd, Ht. auto.
Qed.

(** [book_appointment] either leaves the table alone or appends one
    appointment on a slot that no active appointment occupies. *)
Lemma book_appointment_effect args ctx w r w' :
  executeToolCall "book_appointment" args ctx w = (r, w') ->
  appointments (db w') = appointments (db w) \/
  exists created,
    appointments (db w') = (appointments (db w) ++ [created])%list /\
    activeBooked (Some (Appointment.date created))
                 (Some (Appointment.time created)) (db w) = false.
Proof.
  intros H. rewrite executeToolCall_book_appointment in H.
  unfold book_appointment in H.
  destruct (identified ctx) as [userId|]; [|inversion H; left; reflexivity].
  remember (existsb (slotIs (Args.date args) (Args.time args)) availableSlots)
    as cat eqn:Hcat.
  unfold bind, storage.getBookedSlots, storageRead, storageCall in H.
  simpl in H.
  change (List.map _ (List.filter Appointment.isActive (appointments (db w))))
    with (List.map slotOf
                   (List.filter Appointment.isActive (appointments (db w))))
    in H.
  rewrite existsb_booked in H.
  destruct (existsb _ (appointments (db w))) eqn:Htaken;
    [inversion H; left; reflexivity|].
  destruct cat; simpl in H; [|inversion H; left; reflexivity].
  destruct (slotIs_some _ _ _ (eq_sym Hcat)) as (d & t & Hd & Ht).
  unfold ret, storage.createAppointment, storageCall in H. simpl in H.
  inversion H; subst. right. eexists. split; [reflexivity|]. simpl.
  rewrite Hd, Ht. simpl. unfold activeBooked.
  rewrite <- Htaken. apply existsb_ext_eq. intros a.
  rewrite Hd, Ht. unfold occupies, slotIs, slotOf. simpl.
  rewrite andb_assoc. reflexivity.
Qed.

Lemma book_appointment_keeps_invariant args ctx w r w' :
  noDoubleBooking (db w) ->
  executeToolCall "book_appointment" args ctx w = (r, w') ->
  noDoubleBooking (db w').
Proof.
  intros Hinv H date time. unfold activeOn.
  destruct (book_appointment_effect _ _ _ _ _ H) as [E|(created & E & Hfree)];
    rewrite E; [apply Hinv|].
  rewrite filter_snoc, length_app.
  destruct (occupies (Some date) (Some time) created) eqn:Ho.
  - apply occupies_slot in Ho. destruct Ho as [<- <-].
    unfold activeBooked in Hfree. rewrite (filter_none _ _ Hfree).
    simpl. lia.
  - simpl. specialize (Hinv date time). unfold activeOn in Hinv. lia.
Qed.

Lemma filter_map_le {A} (p : A -> bool) (g : A -> A) (l : list A) :
  (forall a, p (g a) = true -> p a = true) ->
  (List.length (List.filter p (List.map g l)) <=
   List.length (List.filter p l))%nat.
Proof.
  intros Hg. induction l as [|a l IH]; simpl; [lia|].
  destruct (p (g a)) eqn:E.
  - rewrite (Hg a E). simpl. lia.
  - destruct (p a); simpl; lia.
Qed.

Lemma cancel_appointment_keeps_invariant args ctx w r w' :
  noDoubleBooking (db w) ->
  executeToolCall "cancel_appointment" args ctx w = (r, w') ->
  noDoubleBooking (db w').
Proof.
  intros Hinv H. rewrite executeToolCall_cancel_appointment in H.
  unfold cancel_appointment, bind, ret, storage.getAppointment,
    storage.cancelAppointment, storageRead, storageCall in H.
  assert (Hcase : appointments (db w') = appointments (db w) \/
                  exists id,
                    appointments (db w') =
                    storage.updateWhere (fun a => Appointment.id a =? id)
                                        cancelled (appointments (db w))).
  { split_path H; inversion H; subst; simpl; auto.
    right. eexists. reflexivity. }
  intros date time. unfold activeOn.
  destruct Hcase as [E|(id & E)]; rewrite E; [apply Hinv|].
  eapply Nat.le_trans; [|apply (Hinv date time)].
  unfold storage.updateWhere. apply filter_map_le.
  intros a. destruct (Appointment.id a =? id); [|auto].
  unfold occupies, cancelled, Appointment.isActive. simpl. discriminate.
Qed.

(** Counting under an update of the one row with a given id. *)
Lemma filter_update_one (p : Appointment.t -> bool) (f : Appointment.t -> Appointment.t)
      (l : list Appointment.t) (a : Appointment.t) :
  NoDup (List.map Appointment.id l) -> In a l ->
  (List.length
     (List.filter p
        (storage.updateWhere
           (fun x => (Appointment.id x =? Appointment.id a)%Z) f l)) +
   (if p a then 1 else 0) =
   List.length (List.filter p l) + (if p (f a) then 1 else 0))%nat.
Proof.
  unfold storage.updateWhere.
  induction l as [|x l IH]; simpl; intros Hnd Hin; [contradiction|].
  inversion Hnd as [|? ? Hnotin Hnd']; subst.
  destruct Hin as [->|Hin].
  - rewrite Z.eqb_refl.
    assert (Hrest : List.map
                      (fun r => if Appointment.id r =? Appointment.id a
                                then f r else r) l = l).
    { rewrite <- (map_id l) at 2. apply map_ext_in. intros r Hr.
      destruct (Appointment.id r =? Appointment.id a) eqn:E; [|reflexivity].
      exfalso. apply Hnotin. apply Z.eqb_eq in E. rewrite <- E.
      apply in_map. exact Hr. }
    rewrite Hrest. destruct (p (f a)), (p a); simpl; lia.
  - destruct (Appointment.id x =? Appointment.id a) eqn:E.
    + exfalso. apply Hnotin. apply Z.eqb_eq in E. rewrite E.
      apply in_map. exact Hin.
    + specialize (IH Hnd' Hin). destruct (p x); simpl; lia.
Qed.

(** [modify_appointment] keeps the invariant when the appointment it moves
    is active, and when the target is not the appointment's own slot.  The
    case left out, a cancelled appointment modified onto its own slot, is
    the one of the scenario above. *)
Lemma modify_appointment_keeps_invariant args ctx w r w' a :
  noDoubleBooking (db w) ->
  NoDup (List.map Appointment.id (appointments (db w))) ->
  storage.appointmentById (Args.appointment_id args) (db w) = Some a ->
  Appointment.isActive a = true \/
  sameSlot (Appointment.date a) (Appointment.time a)
           (mkSlot (orCurrent (Args.new_date args) (Appointment.date a))
                   (orCurrent (Args.new_time args) (Appointment.time a)))
  = false ->
  executeToolCall "modify_appointment" args ctx w = (r, w') ->
  noDoubleBooking (db w').
Proof.
  intros Hinv Hnd Hfind Hsafe H.
  rewrite executeToolCall_modify_appointment in H.
  unfold modify_appointment in H.
  destruct (identified ctx) as [userId|]; [|inversion H; subst; exact Hinv].
  destruct (_ && _); [inversion H; subst; exact Hinv|].
  unfold bind at 1 in H.
  unfold storage.getAppointment, storageRead, storageCall in H. simpl in H.
  rewrite Hfind in H.
  destruct (negb _); [inversion H; subst; exact Hinv|].
  set (targetDate := orCurrent (Args.new_date args) (Appointment.date a)) in *.
  set (targetTime := orCurrent (Args.new_time args) (Appointment.time a)) in *.
  unfold bind at 1 in H.
  unfold storage.getBookedSlots, storageRead, storageCall in H. simpl in H.
  change (List.map _ (List.filter Appointment.isActive (appointments (db w))))
    with (List.map slotOf
                   (List.filter Appointment.isActive (appointments (db w))))
    in H.
  rewrite isSlotTaken_modify in H.
  destruct (negb (sameSlot (Appointment.date a) (Appointment.time a)
                           (mkSlot targetDate targetTime)) &&
            existsb (occupies (Some targetDate) (Some targetTime))
                    (appointments (db w))) eqn:Htaken;
    [inversion H; subst; exact Hinv|].
  unfold bind, ret, storage.updateAppointment, storageCall in H. simpl in H.
  inversion H; subst. clear H. simpl.
  assert (Hin : In a (appointments (db w))).
  { unfold storage.appointmentById in Hfind.
    destruct (Args.appointment_id args); [|discriminate].
    apply find_some in Hfind. exact (proj1 Hfind). }
  intros date time. unfold activeOn. simpl.
  pose proof (filter_update_one (occupies (Some date) (Some time))
                (storage.applyPatch
                   (storage.mkPatch (Some targetDate) (Some targetTime)
                                    (Some "scheduled")))
                _ a Hnd Hin) as Hcount.
  pose proof (Hinv date time) as Hle. unfold activeOn in Hle.
  destruct (occupies (Some date) (Some time)
              (storage.applyPatch
                 (storage.mkPatch (Some targetDate) (Some targetTime)
                                  (Some "scheduled")) a)) eqn:Hmoved;
    [|destruct (occupies (Some date) (Some time) a); lia].
  apply occupies_slot in Hmoved. simpl in Hmoved. destruct Hmoved as [<- <-].
  apply andb_false_iff in Htaken. destruct Htaken as [Hown|Hfree].
  - apply negb_false_iff in Hown.
    destruct Hsafe as [Hact|Hother]; [|congruence].
    assert (Ha : occupies (Some targetDate) (Some targetTime) a = true).
    { unfold sameSlot in Hown. simpl in Hown.
      apply andb_true_iff in Hown. destruct Hown as [Hd Ht].
      unfold occupies, Js.strictEq.
      rewrite Hact, String.eqb_sym, Hd, String.eqb_sym, Ht. reflexivity. }
    rewrite Ha in Hcount. lia.
  - rewrite (filter_none _ _ Hfree) in Hcount. simpl in Hcount.
    destruct (occupies (Some targetDate) (Some targetTime) a); lia.
Qed.

Lemma booked_test (date time : option string) (w : World) :
  existsb (slotIs date time)
          (List.map (fun a => mkSlot (Appointment.date a) (Appointment.time a))
                    (List.filter Appointment.isActive (appointments (db w)))) =
  activeBooked date time (db w).
Proof.
  change (List.map _ (List.filter Appointment.isActive (appointments (db w))))
    with (List.map slotOf
                   (List.filter Appointment.isActive (appointments (db w)))).
  rewrite existsb_booked. unfold activeBooked. apply existsb_ext_eq.
  intros a. unfold occupies, slotIs, slotOf. simpl.
  rewrite andb_assoc. reflexivity.
Qed.

Lemma book_appointment_taken args ctx w userId :
  identified ctx = Some userId ->
  activeBooked (Args.date args) (Args.time args) (db w) = true ->
  executeToolCall "book_appointment" args ctx w =
  (Ok (mkOutcome (bookedText (Args.date args) (Args.time args)) ctx false),
   mkWorld (db w) (log w ++ [OpGetBookedSlots])).
Proof.
  intros Hid Htaken. rewrite executeToolCall_book_appointment.
  unfold book_appointment. rewrite Hid.
  unfold bind, storage.getBookedSlots, storageRead, storageCall.
  cbv beta iota zeta. rewrite booked_test, Htaken. reflexivity.
Qed.

Lemma book_appointment_free args ctx w userId d t :
  identified ctx = Some userId ->
  Args.date args = Some d -> Args.time args = Some t ->
  activeBooked (Some d) (Some t) (db w) = false ->
  inCatalog (Some d) (Some t) = true ->
  exists text w',
    executeToolCall "book_appointment" args ctx w =
    (Ok (mkOutcome text ctx false), w') /\
    appointments (db w') =
    (appointments (db w) ++
     [Appointment.mk (nextAppointmentId (db w)) userId d t
                     (Args.description args) "scheduled"])%list /\
    users (db w') = users (db w).
Proof.
  intros Hid Hd Ht Hfree Hcat. rewrite executeToolCall_book_appointment.
  unfold book_appointment. rewrite Hid.
  rewrite Hd, Ht. fold (inCatalog (Some d) (Some t)). rewrite Hcat.
  unfold bind, storage.getBookedSlots, storageRead, storageCall.
  cbv beta iota zeta. rewrite booked_test, Hfree.
  unfold negb, ret, storage.createAppointment, storageCall. simpl.
  do 2 eexists. split; [reflexivity|]. split; reflexivity.
Qed.

(** C1.  The second part of the claim holds: of two sequential bookings of
    the same free catalog slot, by two identified callers, the first
    creates the appointment and the second gets the conflict text and
    creates nothing.  The invariant does not: the run below starts from the
    empty store, where no slot is booked twice, every call of it returns a
    success text, and it ends with two active appointments, of two users,
    on the slot 2026-01-28 09:00 AM.  The last call, [modify_appointment]
    of the cancelled appointment 1 onto its own slot, is the one that
    breaks the invariant: the check excludes the appointment's own slot,
    and the update sets the status back to [scheduled]. *)
Theorem C1_modify_revives_cancelled_appointment_on_taken_slot :
  (forall args1 args2 ctx1 ctx2 w user1 user2 d t,
      identified ctx1 = Some user1 -> identified ctx2 = Some user2 ->
      Args.date args1 = Some d -> Args.time args1 = Some t ->
      Args.date args2 = Some d -> Args.time args2 = Some t ->
      inCatalog (Some d) (Some t) = true ->
      activeBooked (Some d) (Some t) (db w) = false ->
      exists text1 w1 w2,
        executeToolCall "book_appointment" args1 ctx1 w =
        (Ok (mkOutcome text1 ctx1 false), w1) /\
        appointments (db w1) =
        (appointments (db w) ++
         [Appointment.mk (nextAppointmentId (db w)) user1 d t
                         (Args.description args1) "scheduled"])%list /\
        executeToolCall "book_appointment" args2 ctx2 w1 =
        (Ok (mkOutcome (bookedText (Some d) (Some t)) ctx2 false), w2) /\
        appointments (db w2) = appointments (db w1)) /\
  noDoubleBooking emptyStore /\
  exists w,
    reviveScenario (mkWorld emptyStore []) =
    (Ok [ "Just to confirm, your phone number is 555-123-4567. I've created a new account for you. You don't have any appointments scheduled yet. Would you like to book an appointment?";
          "Appointment booked successfully for 2026-01-28 at 09:00 AM. Your appointment ID is 1.";
          "Appointment 1 on 2026-01-28 at 09:00 AM has been cancelled.";
          "Just to confirm, your phone number is 555-987-6543. I've created a new account for you. You don't have any appointments scheduled yet. Would you like to book an appointment?";
          "Appointment booked successfully for 2026-01-28 at 09:00 AM. Your appointment ID is 2.";
          "Appointment 1 has been rescheduled to 2026-01-28 at 09:00 AM." ],
     w) /\
    activeOn "2026-01-28" "09:00 AM" (db w) =
    [ Appointment.mk 1 1 "2026-01-28" "09:00 AM" None "scheduled";
      Appointment.mk 2 2 "2026-01-28" "09:00 AM" None "scheduled" ] /\
    ~ noDoubleBooking (db w).
Proof.
  split; [|split].
  - intros args1 args2 ctx1 ctx2 w user1 user2 d t Hid1 Hid2 Hd1 Ht1 Hd2 Ht2
           Hcat Hfree.
    destruct (book_appointment_free args1 ctx1 w user1 d t Hid1 Hd1 Ht1 Hfree
                                    Hcat) as (text1 & w1 & Hrun1 & Ha1 & _).
    exists text1, w1. eexists. split; [exact Hrun1|]. split; [exact Ha1|].
    assert (Htaken : activeBooked (Args.date args2) (Args.time args2) (db w1)
                     = true).
    { rewrite Hd2, Ht2. unfold activeBooked. rewrite Ha1, existsb_app. simpl.
      unfold occupies, Appointment.isActive, Js.strictEq. simpl.
      rewrite !String.eqb_refl. apply orb_true_r. }
    rewrite (book_appointment_taken args2 ctx2 w1 user2 Hid2 Htaken).
    rewrite Hd2, Ht2. split; reflexivity.
  - intros date time. simpl. lia.
  - eexists. split; [vm_compute; reflexivity|].
    split; [reflexivity|].
    intros H. specialize (H "2026-01-28" "09:00 AM").
    vm_compute in H. lia.
Qed.

(** ** User names *)

(** The name column of the row with the given id. *)
Definition nameIn (id : Z) (l : list User.t) : option (option string) :=
  option_map User.name (find (fun u => User.id u =? id) l).

Definition nameOf (id : Z) (s : Store) : option (option string) :=
  nameIn id (users s).

(** Every non-empty name is still in place. *)
Definition namesKept (w w' : World) : Prop :=
  forall id n,
    nameOf id (db w) = Some n -> Js.truthyStr n = true ->
    nameOf id (db w') = Some n.

(** The primary key of [users]. *)
Definition uniqueUserIds (s : Store) : Prop :=
  NoDup (List.map User.id (users s)).

Lemma namesKept_refl w : namesKept w w.
Proof. intros id n H _. exact H. Qed.

Lemma namesKept_trans a b c : namesKept a b -> namesKept b c -> namesKept a c.
Proof. intros H1 H2 id n H Ht. apply H2; [apply H1|]; assumption. Qed.

Lemma namesKept_same_users w w' :
  users (db w') = users (db w) -> namesKept w w'.
Proof. intros E id n H _. unfold nameOf in *. rewrite E. exact H. Qed.

Lemma find_snoc {A} (p : A -> bool) (l : list A) (x y : A) :
  find p l = Some y -> find p (l ++ [x]) = Some y.
Proof.
  induction l as [|a l IH]; simpl; [discriminate|].
  destruct (p a); auto.
Qed.

Lemma find_updateWhere_any {R} (p sel : R -> bool) (f : R -> R)
      (rows : list R) :
  (forall r, p (f r) = p r) ->
  find p (storage.updateWhere sel f rows) =
  option_map (fun r => if sel r then f r else r) (find p rows).
Proof.
  intros Hp. unfold storage.updateWhere.
  induction rows as [|r rows IH]; simpl; [reflexivity|].
  destruct (sel r) eqn:S; [rewrite Hp|]; destruct (p r); simpl;
    rewrite ?S; auto.
Qed.

Lemma find_unique_id (l : list User.t) (u : User.t) :
  NoDup (List.map User.id l) -> In u l ->
  find (fun x => User.id x =? User.id u) l = Some u.
Proof.
  induction l as [|a l IH]; simpl; intros Hnd Hin; [contradiction|].
  inversion Hnd as [|? ? Hnotin Hnd']; subst.
  destruct Hin as [->|Hin]; [rewrite Z.eqb_refl; reflexivity|].
  destruct (User.id a =? User.id u) eqn:E; [|apply IH; assumption].
  exfalso. apply Hnotin. apply Z.eqb_eq in E. rewrite E.
  apply in_map. exact Hin.
Qed.

Lemma nameIn_snoc id l x n :
  nameIn id l = Some n -> nameIn id (l ++ [x]) = Some n.
Proof.
  unfold nameIn. intros H.
  destruct (find _ l) as [u|] eqn:E; [|discriminate].
  rewrite (find_snoc _ _ x u E). exact H.
Qed.

Lemma nameIn_update id name l id' :
  nameIn id'
    (storage.updateWhere (fun u => User.id u =? id) (User.setName (Some name))
                         l) =
  if id' =? id
  then option_map (fun _ => Some name) (nameIn id l)
  else nameIn id' l.
Proof.
  unfold nameIn.
  rewrite find_updateWhere_any by reflexivity.
  destruct (id' =? id) eqn:E.
  - apply Z.eqb_eq in E. subst id'.
    destruct (find _ l) as [u|] eqn:F; [|reflexivity].
    simpl. apply find_some in F. destruct F as [_ F]. rewrite F. reflexivity.
  - destruct (find _ l) as [u|] eqn:F; [|reflexivity].
    simpl. apply find_some in F. destruct F as [_ F].
    apply Z.eqb_eq in F. rewrite F, E. reflexivity.
Qed.

Lemma nameIn_found (l : list User.t) (u : User.t) :
  NoDup (List.map User.id l) -> In u l ->
  nameIn (User.id u) l = Some (User.name u).
Proof.
  intros Hnd Hin. unfold nameIn.
  rewrite find_unique_id; [reflexivity|exact Hnd|exact Hin].
Qed.

(** A name written over an absent one keeps every non-empty name. *)
Lemma nameIn_update_absent id name l n0 id' n :
  nameIn id l = Some n0 -> Js.truthyStr n0 = false ->
  nameIn id' l = Some n -> Js.truthyStr n = true ->
  nameIn id'
    (storage.updateWhere (fun u => User.id u =? id) (User.setName (Some name))
                         l) = Some n.
Proof.
  intros Hn0 Hfalsy Hn Ht. rewrite nameIn_update.
  destruct (id' =? id) eqn:E; [|exact Hn].
  apply Z.eqb_eq in E. subst id'. congruence.
Qed.

Lemma truthyStr_show (v : option string) :
  Js.truthyStr v = true -> Some (Js.showStr v) = v.
Proof. destruct v; [reflexivity|discriminate]. Qed.

(** [fillName] on a row of the table. *)
Lemma fillName_spec (u : User.t) (extractedName : option string) (w : World)
      r w' :
  uniqueUserIds (db w) -> In u (users (db w)) ->
  fillName u extractedName w = (r, w') ->
  namesKept w w' /\
  (Js.truthyStr (User.name u) = false -> Js.truthyStr extractedName = true ->
   nameOf (User.id u) (db w') = Some extractedName).
Proof.
  intros Hnd Hin H. unfold fillName in H.
  pose proof (nameIn_found _ _ Hnd Hin) as Hname.
  destruct (Js.truthyStr extractedName) eqn:Hx;
    destruct (Js.truthyStr (User.name u)) eqn:Hu; simpl in H;
    try (inversion H; subst; split; [apply namesKept_refl|intros; discriminate]).
  unfold bind, ret, storage.updateUser, storageCall in H. simpl in H.
  inversion H; subst. clear H. split.
  - intros id n Hn Ht. unfold nameOf in *. simpl.
    eapply nameIn_update_absent; eassumption.
  - intros _ _. unfold nameOf. simpl.
    rewrite nameIn_update, Z.eqb_refl, Hname. simpl.
    rewrite truthyStr_show by exact Hx. reflexivity.
Qed.

(** The user an extraction resolves to when a row for it exists already:
    the user of the session, or else the row with the extracted phone
    number. *)
Definition resolvesTo (user0 : option User.t) (extractedPhone : option string)
           (s : Store) (u : User.t) : Prop :=
  user0 = Some u \/
  (user0 = None /\
   Js.truthyStr extractedPhone &&
   (10 <=? String.length (Js.showStr extractedPhone))%nat = true /\
   find (fun x => (User.phoneNumber x =? Js.showStr extractedPhone)%string)
        (users s) = Some u).

Lemma resolveUser_names user0 extractedPhone extractedName w r w' :
  uniqueUserIds (db w) ->
  (forall u, user0 = Some u -> In u (users (db w))) ->
  resolveUser user0 extractedPhone extractedName w = (r, w') ->
  namesKept w w' /\
  (forall u, resolvesTo user0 extractedPhone (db w) u ->
             Js.truthyStr (User.name u) = false ->
             Js.truthyStr extractedName = true ->
             nameOf (User.id u) (db w') = Some extractedName).
Proof.
  intros Hnd Hrow H. unfold resolveUser in H.
  destruct user0 as [u0|].
  - unfold bind in H.
    destruct (fillName u0 extractedName w) as [[u1|e] w1] eqn:F;
      unfold ret in H; inversion H; subst;
      destruct (fillName_spec _ _ _ _ _ Hnd (Hrow u0 eq_refl) F) as [Hk Hf];
      (split; [exact Hk|]);
      intros u [Hu|(Hu & _)]; try discriminate; inversion Hu; subst; exact Hf.
  - destruct (Js.truthyStr extractedPhone &&
              (10 <=? String.length (Js.showStr extractedPhone))%nat) eqn:Hp.
    + unfold bind, storage.getUserByPhoneNumber, storageRead, storageCall in H.
      simpl in H.
      destruct (find _ (users (db w))) as [eu|] eqn:Hfind.
      * set (w1 := mkWorld (db w)
                     (log w ++ [OpGetUserByPhoneNumber
                                  (Js.showStr extractedPhone)])) in *.
        destruct (fillName eu extractedName w1) as [[u1|e] wf] eqn:F;
          unfold ret in H; inversion H; subst;
          (assert (Hin : In eu (users (db w1)))
             by (apply find_some in Hfind; exact (proj1 Hfind)));
          destruct (fillName_spec eu extractedName w1 _ _ Hnd Hin F)
            as [Hk Hf];
          (split; [exact Hk|]);
          intros u [Hu|(_ & _ & Hu)]; try discriminate;
          rewrite Hfind in Hu; inversion Hu; subst; exact Hf.
      * unfold storage.createUser, storageCall, ret in H. simpl in H.
        inversion H; subst. split.
        -- intros id n Hn _. unfold nameOf in *. simpl.
           apply nameIn_snoc. exact Hn.
        -- intros u [Hu|(_ & _ & Hu)]; [discriminate|].
           rewrite Hfind in Hu. discriminate.
    + unfold ret in H. inversion H; subst. split; [apply namesKept_refl|].
      intros u [Hu|(_ & Hp' & _)]; [discriminate|]. congruence.
Qed.

(** Case analysis that keeps the equations of the tests. *)
Ltac split_path_eq H :=
  repeat (cbv beta iota zeta in H;
          match type of H with
          | context [if ?b then _ else _] => destruct b eqn:?
          | context [match ?x with Some _ => _ | None => _ end] =>
              destruct x eqn:?
          | context [match ?x with nil => _ | cons _ _ => _ end] =>
              destruct x eqn:?
          end);
  cbv beta iota zeta in H.

Ltac names_kept :=
  let id := fresh "id" in
  let n := fresh "n" in
  let Hn := fresh "Hn" in
  let Ht := fresh "Ht" in
  intros id n Hn Ht; unfold nameOf in *; simpl in *;
  first [ exact Hn | apply nameIn_snoc; exact Hn ].

Lemma identify_user_names args ctx w r w' :
  executeToolCall "identify_user" args ctx w = (r, w') -> namesKept w w'.
Proof.
  rewrite executeToolCall_identify_user. unfold identify_user.
  unfold bind, ret, throw, storage.getUserByPhoneNumber, storage.createUser,
    storage.getAppointmentsByUser, storage.updateCallSession, storageRead,
    storageCall.
  intros H. split_path H; inversion H; subst; names_kept.
Qed.

Lemma toolExecute_identify_user_names args context w r w' :
  uniqueUserIds (db w) ->
  toolExecute_identify_user args context w = (r, w') ->
  namesKept w w' /\
  (forall u,
      Js.stripNonDigits (Js.orEmpty (Args.phone_number args)) <> "" ->
      find (fun x =>
              (User.phoneNumber x =?
               Js.stripNonDigits (Js.orEmpty (Args.phone_number args)))%string)
           (users (db w)) = Some u ->
      Js.truthyStr (User.name u) = false ->
      Js.truthyStr (Args.name args) = true ->
      nameOf (User.id u) (db w') = Some (Args.name args)).
Proof.
  intros Hnd H. unfold toolExecute_identify_user in H.
  unfold bind, ret, storage.getUserByPhoneNumber, storage.createUser,
    storage.updateUser, storage.getAppointmentsByUser, storageRead,
    storageCall in H.
  simpl in H.
  destruct (Js.stripNonDigits (Js.orEmpty (Args.phone_number args)) =? "")%string
    eqn:Hd.
  { inversion H; subst. split; [apply namesKept_refl|].
    intros u Hne. apply String.eqb_eq in Hd. contradiction. }
  destruct (find _ (users (db w))) as [eu|] eqn:Hfind.
  - assert (Hin : In eu (users (db w)))
      by (apply find_some in Hfind; exact (proj1 Hfind)).
    pose proof (nameIn_found _ _ Hnd Hin) as Hname.
    destruct (negb (Js.orEmpty (Args.name args) =? "")%string &&
              negb (Js.truthyStr (User.name eu))) eqn:Hfill.
    + apply andb_true_iff in Hfill. destruct Hfill as [Hnm Hab].
      apply negb_true_iff in Hab.
      assert (Hargs : Some (Js.orEmpty (Args.name args)) = Args.name args).
      { unfold Js.orEmpty in *.
        destruct (Js.truthyStr (Args.name args)) eqn:T;
          [apply truthyStr_show; exact T|discriminate]. }
      assert (Hw : users (db w') =
                   storage.updateWhere (fun u => User.id u =? User.id eu)
                     (User.setName (Some (Js.orEmpty (Args.name args))))
                     (users (db w))).
      { simpl in H. split_path H; inversion H; reflexivity. }
      split.
      * intros id n Hn Ht. unfold nameOf in *. rewrite Hw.
        eapply nameIn_update_absent; eassumption.
      * intros u _ Hu _ _. inversion Hu; subst u. unfold nameOf.
        rewrite Hw, nameIn_update, Z.eqb_refl, Hname. simpl.
        rewrite Hargs. reflexivity.
    + assert (Hw : users (db w') = users (db w)).
      { simpl in H. split_path H; inversion H; reflexivity. }
      split; [apply namesKept_same_users; exact Hw|].
      intros u _ Hu Hab Ht. inversion Hu; subst u. exfalso.
      rewrite Hab in Hfill. simpl in Hfill. rewrite andb_true_r in Hfill.
      apply negb_false_iff in Hfill. apply String.eqb_eq in Hfill.
      unfold Js.orEmpty in Hfill. rewrite Ht in Hfill.
      destruct (Args.name args) as [nm|]; [|discriminate].
      simpl in Hfill, Ht. subst nm. discriminate.
  - split.
    + simpl in H. split_path H; inversion H; subst; names_kept.
    + intros u _ Hu. discriminate.
Qed.

Lemma toolExecute_set_user_name_sets args context w userId name :
  BeyContext.userId context = Some userId -> userId <> 0 ->
  Args.name args = Some name -> name <> "" ->
  exists text context' w',
    toolExecute_set_user_name args context w = (Ok (text, context'), w') /\
    BeyContext.userName context' = Some name /\
    nameOf userId (db w') =
    option_map (fun _ => Some name) (nameOf userId (db w)).
Proof.
  intros Hid Hnz Hname Hne. unfold toolExecute_set_user_name.
  rewrite Hid. apply Z.eqb_neq in Hnz. rewrite Hnz.
  unfold Js.orEmpty, Js.truthyStr. rewrite Hname. simpl.
  apply String.eqb_neq in Hne. rewrite Hne. simpl. rewrite Hne.
  unfold bind, ret, storage.updateUser, storageCall. simpl.
  do 3 eexists. split; [reflexivity|]. split; [reflexivity|].
  unfold nameOf. simpl. rewrite nameIn_update, Z.eqb_refl. reflexivity.
Qed.

(** C5, as amended.  [identify_user] (of the Tool Executor, which takes no
    name, and of the tool-execute route) and the user resolution of the
    Call Summarizer keep every non-empty name, and write the supplied
    non-empty name on the user they find when that user's name is absent.
    [set_user_name], for an identified caller and a non-empty supplied
    name, writes the supplied name on the caller's row whatever name the
    row had. *)
Theorem C5_names_filled_once_except_set_user_name :
  (forall args ctx w r w',
      executeToolCall "identify_user" args ctx w = (r, w') ->
      namesKept w w') /\
  (forall args context w r w',
      uniqueUserIds (db w) ->
      toolExecute_identify_user args context w = (r, w') ->
      namesKept w w' /\
      (forall u,
          Js.stripNonDigits (Js.orEmpty (Args.phone_number args)) <> "" ->
          find (fun x =>
                  (User.phoneNumber x =?
                   Js.stripNonDigits
                     (Js.orEmpty (Args.phone_number args)))%string)
               (users (db w)) = Some u ->
          Js.truthyStr (User.name u) = false ->
          Js.truthyStr (Args.name args) = true ->
          nameOf (User.id u) (db w') = Some (Args.name args))) /\
  (forall user0 extractedPhone extractedName w r w',
      uniqueUserIds (db w) ->
      (forall u, user0 = Some u -> In u (users (db w))) ->
      resolveUser user0 extractedPhone extractedName w = (r, w') ->
      namesKept w w' /\
      (forall u,
          resolvesTo user0 extractedPhone (db w) u ->
          Js.truthyStr (User.name u) = false ->
          Js.truthyStr extractedName = true ->
          nameOf (User.id u) (db w') = Some extractedName)) /\
  (forall args context w userId name,
      BeyContext.userId context = Some userId -> userId <> 0 ->
      Args.name args = Some name -> name <> "" ->
      exists text context' w',
        toolExecute_set_user_name args context w = (Ok (text, context'), w') /\
        BeyContext.userName context' = Some name /\
        nameOf userId (db w') =
        option_map (fun _ => Some name) (nameOf userId (db w))).
Proof.
  split; [exact identify_user_names|].
  split; [exact toolExecute_identify_user_names|].
  split; [exact resolveUser_names|].
  exact toolExecute_set_user_name_sets.
Qed.

Definition namedWorld (name : option string) : World :=
  mkWorld (mkStore [User.mk 1 "5551234567" name] [] [] [] 2 1 1) [].

Definition beyContext (userId : option Z) : BeyContext.t :=
  BeyContext.mk "call-1" "" userId None None.

Definition nameArgs (phone name : option string) : Args.t :=
  Args.mk phone name None None None None None None.

Lemma C5_witness :
  nameOf 1
    (db (snd (toolExecute_identify_user
                (nameArgs (Some "555-123-4567") (Some "Ann"))
                (beyContext None) (namedWorld None)))) =
  Some (Some "Ann").
Proof.
  refine (proj2 (proj1 (proj2 C5_names_filled_once_except_set_user_name)
                   (nameArgs (Some "555-123-4567") (Some "Ann"))
                   (beyContext None) (namedWorld None) _ _ _ eq_refl)
                (User.mk 1 "5551234567" None) _ eq_refl eq_refl eq_refl).
  - repeat constructor. simpl. intros [].
  - simpl. discriminate.
Defined.

(** C5 as it was stated, for [set_user_name]: a non-empty name is never
    overwritten. *)
Definition C5_as_stated_for_set_user_name (args : Args.t)
           (context : BeyContext.t) (w : World) : Prop :=
  forall r w',
    toolExecute_set_user_name args context w = (r, w') -> namesKept w w'.

(** The caller is user 1, whose name is Alice; [set_user_name] with the
    name Bob leaves the row with the name Bob. *)
Lemma C5_counterexample :
  ~ C5_as_stated_for_set_user_name (nameArgs None (Some "Bob"))
      (beyContext (Some 1)) (namedWorld (Some "Alice")).
Proof.
  intros H.
  specialize (H _ _ eq_refl 1 (Some "Alice") eq_refl eq_refl).
  vm_compute in H. discriminate H.
Qed.

(** ** Re-running the summarizer *)

(** The test of [isDuplicate] on one appointment. *)
Definition matchesRequest (date time : string) (a : Appointment.t) : bool :=
  (Appointment.date a =? date)%string &&
  (normalizeTime (Appointment.time a) =? normalizeTime time)%string &&
  Appointment.isActive a.

Lemma isDuplicate_existsb date time l :
  isDuplicate date time l = existsb (matchesRequest date time) l.
Proof. reflexivity. Qed.

(** Both [date] and [time] of a request are present. *)
Definition complete (q : ApptRequest.t) : bool :=
  Js.truthyStr (ApptRequest.date q) && Js.truthyStr (ApptRequest.time q).

Definition requestDate (q : ApptRequest.t) : string :=
  Js.showStr (ApptRequest.date q).
Definition requestTime (q : ApptRequest.t) : string :=
  Js.showStr (ApptRequest.time q).

(** The requests the loop reaches: those before the first [null]. *)
Fixpoint reached {A} (requests : list (option A)) : list A :=
  match requests with
  | Some q :: rest => q :: reached rest
  | _ => []
  end.

(** The appointment the loop creates for a request. *)
Definition createdFor (userId : Z) (q : ApptRequest.t) (id : Z)
  : Appointment.t :=
  Appointment.mk id userId (requestDate q) (requestTime q)
    (Js.orElse (ApptRequest.description q) (Some defaultDescription))
    "pending".

(** The primary key of [appointments] and its sequence. *)
Definition appointmentIdsFresh (s : Store) : Prop :=
  NoDup (List.map Appointment.id (appointments s)) /\
  Forall (fun a => Appointment.id a < nextAppointmentId s) (appointments s).

Lemma createdFor_matches userId q id :
  matchesRequest (requestDate q) (requestTime q) (createdFor userId q id)
  = true.
Proof.
  unfold matchesRequest, createdFor. simpl.
  rewrite !String.eqb_refl. reflexivity.
Qed.

Lemma createAppointment_fresh userId date time description status w :
  appointmentIdsFresh (db w) ->
  appointmentIdsFresh
    (db (snd (storage.createAppointment userId date time description status w))).
Proof.
  intros [Hnd Hlt]. unfold appointmentIdsFresh. simpl. split.
  - rewrite map_app. simpl. apply NoDup_app.
    + exact Hnd.
    + constructor; [intros []|constructor].
    + intros x Hx [Hx'|[]]. subst x. apply in_map_iff in Hx.
      destruct Hx as (a & Ha & Hin).
      rewrite Forall_forall in Hlt. specialize (Hlt a Hin). lia.
  - apply Forall_app. split.
    + eapply Forall_impl; [|exact Hlt]. simpl. intros a Ha. lia.
    + constructor; [simpl; lia|constructor].
Qed.

Lemma orElse_default_truthy (d : option string) :
  Js.truthyStr (Js.orElse d (Some defaultDescription)) = true.
Proof.
  unfold Js.orElse. destruct (Js.truthyStr d) eqn:E; [exact E|reflexivity].
Qed.

(** What a run of the booking loop does, whether it ends or throws at a
    [null] element. *)
Lemma bookingLoop_run userId requests :
  forall existing n w r w',
    bookingLoop userId requests existing n w = (r, w') ->
    exists created,
      appointments (db w') = (appointments (db w) ++ created)%list /\
      users (db w') = users (db w) /\
      callSessions (db w') = callSessions (db w) /\
      Forall (fun a => Appointment.userId a = userId /\
                       Appointment.status a = "pending" /\
                       Js.truthyStr (Appointment.description a) = true)
             created /\
      (forall existing' n',
          r = Ok (existing', n') ->
          existing' = (existing ++ created)%list /\
          n' = n + Z.of_nat (List.length created)) /\
      (forall q,
          In q (reached requests) -> complete q = true ->
          existsb (matchesRequest (requestDate q) (requestTime q))
                  (existing ++ created) = true) /\
      (appointmentIdsFresh (db w) -> appointmentIdsFresh (db w')).
Proof.
  induction requests as [|[q|] requests IH]; intros existing n w r w' H;
    simpl in H.
  - inversion H; subst. exists []. rewrite !app_nil_r.
    split; [reflexivity|]. split; [reflexivity|]. split; [reflexivity|].
    split; [constructor|]. split; [|split; [intros q []|auto]].
    intros existing' n' E. inversion E; subst. simpl. split; [reflexivity|lia].
  - fold (complete q) in H. fold (requestDate q) (requestTime q) in H.
    destruct (complete q) eqn:Hc.
    + destruct (isDuplicate (requestDate q) (requestTime q) existing) eqn:Hd.
      * destruct (IH _ _ _ _ _ H)
          as (created & Ha & Hu & Hs & Hall & Hr & Hcov & Hfresh).
        exists created.
        split; [exact Ha|]. split; [exact Hu|]. split; [exact Hs|].
        split; [exact Hall|]. split; [exact Hr|]. split; [|exact Hfresh].
        intros q' [<-|Hin] Hc'.
        -- rewrite existsb_app, <- isDuplicate_existsb, Hd. reflexivity.
        -- apply Hcov; assumption.
      * unfold bind in H.
        remember (storage.createAppointment userId (requestDate q)
                    (requestTime q)
                    (Js.orElse (ApptRequest.description q)
                               (Some defaultDescription)) "pending" w)
          as step eqn:Hstep.
        assert (Hstep' : step =
                  (Ok (createdFor userId q (nextAppointmentId (db w))),
                   snd step)) by (subst step; reflexivity).
        rewrite Hstep' in H.
        destruct (IH _ _ _ _ _ H)
          as (created & Ha & Hu & Hs & Hall & Hr & Hcov & Hfresh).
        exists (createdFor userId q (nextAppointmentId (db w)) :: created).
        assert (Happ : forall (l : list Appointment.t) x l',
                   ((l ++ [x]) ++ l' = l ++ x :: l')%list)
          by (intros; rewrite <- app_assoc; reflexivity).
        subst step. simpl in Ha, Hu, Hs.
        split; [rewrite Ha; apply Happ|]. split; [exact Hu|].
        split; [exact Hs|].
        split.
        { constructor; [|exact Hall].
          split; [reflexivity|]. split; [reflexivity|].
          simpl. apply orElse_default_truthy. }
        split.
        { intros existing' n' E. destruct (Hr _ _ E) as [He Hn].
          split; [rewrite He; apply Happ|].
          rewrite Hn. simpl List.length. lia. }
        split.
        { intros q' [<-|Hin] Hc'.
          - rewrite existsb_app. simpl. rewrite createdFor_matches.
            rewrite orb_true_r. reflexivity.
          - rewrite <- Happ. apply Hcov; assumption. }
        intros Hf. apply Hfresh.
        apply (createAppointment_fresh userId (requestDate q)
                 (requestTime q) _ "pending" w Hf).
    + destruct (IH _ _ _ _ _ H)
        as (created & Ha & Hu & Hs & Hall & Hr & Hcov & Hfresh).
      exists created.
      split; [exact Ha|]. split; [exact Hu|]. split; [exact Hs|].
      split; [exact Hall|]. split; [exact Hr|]. split; [|exact Hfresh].
      intros q' [<-|Hin] Hc'; [congruence|apply Hcov; assumption].
  - inversion H; subst. exists []. rewrite !app_nil_r.
    split; [reflexivity|]. split; [reflexivity|]. split; [reflexivity|].
    split; [constructor|]. split; [|split; [intros q []|auto]].
    intros existing' n' E. discriminate E.
Qed.

(** When every complete request that is reached has a duplicate among
    [existing], the loop makes no storage call. *)
Lemma bookingLoop_all_duplicates userId requests :
  forall existing n w,
    (forall q, In q (reached requests) -> complete q = true ->
               existsb (matchesRequest (requestDate q) (requestTime q))
                       existing = true) ->
    exists r,
      bookingLoop userId requests existing n w = (r, w) /\
      (forall existing' n', r = Ok (existing', n') -> n' = n).
Proof.
  induction requests as [|[q|] requests IH]; intros existing n w Hcov; simpl.
  - eexists. split; [reflexivity|]. intros ? ? E. inversion E. reflexivity.
  - fold (complete q). fold (requestDate q) (requestTime q).
    assert (Hrest : forall q', In q' (reached requests) -> complete q' = true ->
                existsb (matchesRequest (requestDate q') (requestTime q'))
                        existing = true)
      by (intros q' Hin; apply Hcov; right; exact Hin).
    destruct (complete q) eqn:Hc; [|apply IH; exact Hrest].
    rewrite isDuplicate_existsb, (Hcov q (or_introl eq_refl) Hc).
    apply IH; exact Hrest.
  - eexists. split; [reflexivity|]. intros ? ? E. discriminate E.
Qed.

Lemma In_updateWhere_other {R} (sel : R -> bool) (f : R -> R) (rows : list R)
      (a : R) :
  In a rows -> sel a = false -> In a (storage.updateWhere sel f rows).
Proof.
  intros Hin Hsel. unfold storage.updateWhere. apply in_map_iff.
  exists a. rewrite Hsel. split; [reflexivity|exact Hin].
Qed.

(** What a run of the cancellation loop does. *)
Lemma cancellationLoop_run requests userAppts :
  forall w r w',
    cancellationLoop requests userAppts w = (r, w') ->
    List.length (appointments (db w')) = List.length (appointments (db w)) /\
    users (db w') = users (db w) /\
    callSessions (db w') = callSessions (db w) /\
    (forall a,
        In a (appointments (db w)) ->
        (forall c m, In c (reached requests) ->
                     matchingAppt c userAppts = Some m ->
                     Appointment.id m <> Appointment.id a) ->
        In a (appointments (db w'))).
Proof.
  induction requests as [|[c|] requests IH]; intros w r w' H; simpl in H.
  - inversion H; subst. auto.
  - destruct (matchingAppt c userAppts) as [m|] eqn:Hm.
    + unfold bind, storage.updateAppointment, storageCall in H. simpl in H.
      apply IH in H. simpl in H. destruct H as (Hlen & Hu & Hs & Hkeep).
      split; [|split; [exact Hu|split; [exact Hs|]]].
      * rewrite Hlen. unfold storage.updateWhere. apply length_map.
      * intros a Hin Hother. apply Hkeep.
        -- apply In_updateWhere_other; [exact Hin|].
           apply Z.eqb_neq. intros E.
           apply (Hother c m (or_introl eq_refl) Hm). symmetry. exact E.
        -- intros c' m' Hin'. apply Hother. right. exact Hin'.
    + apply IH in H. destruct H as (Hlen & Hu & Hs & Hkeep).
      split; [exact Hlen|split; [exact Hu|split; [exact Hs|]]].
      intros a Hin Hother. apply Hkeep; [exact Hin|].
      intros c' m' Hin'. apply Hother. right. exact Hin'.
  - inversion H; subst. auto.
Qed.

Definition bookingRequests (d : ExtractedData.t)
  : list (option ApptRequest.t) :=
  match ExtractedData.appointmentRequests d with Some l => l | None => [] end.

Definition cancelRequests (d : ExtractedData.t)
  : list (option CancelRequest.t) :=
  match ExtractedData.cancellationRequests d with Some l => l | None => [] end.

(** No cancellation request of the extraction designates the date and the
    normalized time of one of its complete booking requests. *)
Definition cancelsNoRequest (d : ExtractedData.t) : Prop :=
  forall q c,
    In (Some q) (bookingRequests d) -> In (Some c) (cancelRequests d) ->
    complete q = true ->
    ~ (CancelRequest.date c = ApptRequest.date q /\
       normalizeTime (Js.orEmpty (CancelRequest.time c)) =
       normalizeTime (requestTime q)).

(** An active appointment of the user stands for the request. *)
Definition covered (userId : Z) (q : ApptRequest.t) (s : Store) : Prop :=
  exists a,
    In a (appointments s) /\ Appointment.userId a = userId /\
    matchesRequest (requestDate q) (requestTime q) a = true.

Lemma reached_In {A} (l : list (option A)) (x : A) :
  In x (reached l) -> In (Some x) l.
Proof.
  induction l as [|[y|] l IH]; simpl; [intros []| |intros []].
  intros [->|H]; [left; reflexivity|right; apply IH; exact H].
Qed.

Lemma NoDup_map_eq {A B} (f : A -> B) (l : list A) (a b : A) :
  NoDup (List.map f l) -> In a l -> In b l -> f a = f b -> a = b.
Proof.
  induction l as [|x l IH]; simpl; intros Hnd Ha Hb E; [contradiction|].
  inversion Hnd as [|? ? Hnotin Hnd']; subst.
  destruct Ha as [->|Ha], Hb as [->|Hb].
  - reflexivity.
  - exfalso. apply Hnotin. rewrite E. apply in_map. exact Hb.
  - exfalso. apply Hnotin. rewrite <- E. apply in_map. exact Ha.
  - apply IH; assumption.
Qed.

Lemma bookingStep_eq userId (d : ExtractedData.t) existing :
  match nonEmpty (ExtractedData.appointmentRequests d) with
  | Some requests => bookingLoop userId requests existing 0
  | None => ret (existing, 0)
  end = bookingLoop userId (bookingRequests d) existing 0.
Proof.
  unfold bookingRequests, nonEmpty.
  destruct (ExtractedData.appointmentRequests d) as [[|x l]|]; reflexivity.
Qed.

Lemma In_userAppts userId (l : list Appointment.t) a :
  In a (rev (List.filter (fun a => Appointment.userId a =? userId) l)) <->
  In a l /\ Appointment.userId a = userId.
Proof.
  rewrite <- in_rev, filter_In, Z.eqb_eq. reflexivity.
Qed.

Lemma applyRequests_covers (u : User.t) (d : ExtractedData.t) w r w' :
  appointmentIdsFresh (db w) -> cancelsNoRequest d ->
  applyRequests (Some u) d w = (r, w') ->
  (forall q, In q (reached (bookingRequests d)) -> complete q = true ->
             covered (User.id u) q (db w')) /\
  users (db w') = users (db w) /\
  callSessions (db w') = callSessions (db w).
Proof.
  intros Hfresh Hno H. unfold applyRequests in H. cbv beta iota in H.
  unfold bind at 1 in H.
  unfold storage.getAppointmentsByUser, storageRead, storageCall in H.
  simpl in H. rewrite bookingStep_eq in H.
  unfold bind at 1 in H.
  match type of H with
  | context [bookingLoop ?uid ?reqs ?ex ?n ?wa] =>
      destruct (bookingLoop uid reqs ex n wa) as [rb wb] eqn:Hb
  end.
  destruct (bookingLoop_run _ _ _ _ _ _ _ Hb)
    as (created & Ha & Hu & Hs & Hall & Hr & Hcov & Hf).
  simpl in Ha, Hu, Hs. specialize (Hf Hfresh).
  assert (Hcovb : forall q, In q (reached (bookingRequests d)) ->
                            complete q = true -> covered (User.id u) q (db wb)).
  { intros q Hin Hc. specialize (Hcov q Hin Hc).
    apply existsb_exists in Hcov. destruct Hcov as (a & Hina & Hm).
    exists a. split; [|split; [|exact Hm]].
    - rewrite Ha. apply in_or_app. apply in_app_or in Hina.
      destruct Hina as [Hina|Hina]; [left|right; exact Hina].
      apply In_userAppts in Hina. exact (proj1 Hina).
    - apply in_app_or in Hina. destruct Hina as [Hina|Hina].
      + apply In_userAppts in Hina. exact (proj2 Hina).
      + rewrite Forall_forall in Hall. exact (proj1 (Hall a Hina)). }
  destruct rb as [[existing' n']|e].
  2:{ inversion H; subst. split; [exact Hcovb|]. split; assumption. }
  unfold bind at 1 in H.
  destruct (nonEmpty (ExtractedData.cancellationRequests d))
    as [requests|] eqn:Hne.
  2:{ unfold ret in H. inversion H; subst.
      split; [exact Hcovb|]. split; assumption. }
  unfold bind at 1 in H.
  unfold storage.getAppointmentsByUser, storageRead, storageCall in H.
  simpl in H.
  match type of H with
  | context [cancellationLoop ?reqs ?ua ?wa] =>
      destruct (cancellationLoop reqs ua wa) as [rc wc] eqn:Hc
  end.
  destruct (cancellationLoop_run _ _ _ _ _ Hc) as (_ & Hu' & Hs' & Hkeep).
  simpl in Hu', Hs', Hkeep.
  assert (Hw : w' = wc) by (destruct rc; inversion H; reflexivity).
  subst w'. split; [|split; congruence].
  intros q Hin Hcq. destruct (Hcovb q Hin Hcq) as (a & Hina & Hua & Hm).
  exists a. split; [|split; assumption].
  apply Hkeep; [exact Hina|].
  intros c m Hinc Hmatch Hid.
  apply find_some in Hmatch. destruct Hmatch as [Hinm Hpm].
  apply In_userAppts in Hinm. destruct Hinm as [Hinm _].
  assert (Heq : m = a)
    by (eapply NoDup_map_eq; [exact (proj1 Hf)|exact Hinm|exact Hina|exact Hid]).
  subst m.
  apply (Hno q c).
  - apply reached_In. exact Hin.
  - apply reached_In in Hinc. unfold cancelRequests.
    unfold nonEmpty in Hne.
    destruct (ExtractedData.cancellationRequests d) as [[|x l]|];
      try discriminate. inversion Hne; subst. exact Hinc.
  - exact Hcq.
  - unfold matchesRequest in Hm.
    apply andb_true_iff in Hm. destruct Hm as [Hm _].
    apply andb_true_iff in Hm. destruct Hm as [Hd Ht].
    apply andb_true_iff in Hpm. destruct Hpm as [Hpm _].
    apply andb_true_iff in Hpm. destruct Hpm as [Hcd Hct].
    apply String.eqb_eq in Hd, Ht, Hct.
    unfold Js.strictEq in Hcd.
    destruct (CancelRequest.date c) as [cd|]; [|discriminate].
    apply String.eqb_eq in Hcd.
    unfold complete in Hcq. apply andb_true_iff in Hcq.
    destruct Hcq as [Hqd _]. apply truthyStr_show in Hqd.
    split.
    + rewrite <- Hqd. f_equal. unfold requestDate in Hd. congruence.
    + congruence.
Qed.

Lemma applyRequests_no_new (u : User.t) (d : ExtractedData.t) w r w' :
  (forall q, In q (reached (bookingRequests d)) -> complete q = true ->
             covered (User.id u) q (db w)) ->
  applyRequests (Some u) d w = (r, w') ->
  List.length (appointments (db w')) = List.length (appointments (db w)) /\
  users (db w') = users (db w) /\
  callSessions (db w') = callSessions (db w) /\
  (forall n, r = Ok n -> n = 0).
Proof.
  intros Hcov H. unfold applyRequests in H. cbv beta iota in H.
  unfold bind at 1 in H.
  unfold storage.getAppointmentsByUser, storageRead, storageCall in H.
  simpl in H. rewrite bookingStep_eq in H.
  unfold bind at 1 in H.
  match type of H with
  | context [bookingLoop ?uid ?reqs ?ex ?n ?wa] =>
      destruct (bookingLoop_all_duplicates uid reqs ex n wa) as (rb & Hb & Hn)
  end.
  { intros q Hin Hc. destruct (Hcov q Hin Hc) as (a & Hina & Hua & Hm).
    apply existsb_exists. exists a. split; [|exact Hm].
    apply In_userAppts. split; assumption. }
  rewrite Hb in H.
  destruct rb as [[existing' n']|e].
  2:{ inversion H; subst. simpl. repeat split; try reflexivity.
      intros n E. discriminate E. }
  specialize (Hn _ _ eq_refl). subst n'.
  unfold bind at 1 in H.
  destruct (nonEmpty (ExtractedData.cancellationRequests d))
    as [requests|] eqn:Hne.
  2:{ unfold ret in H. inversion H; subst. simpl.
      repeat split; try reflexivity. intros n E. inversion E. reflexivity. }
  unfold bind at 1 in H.
  unfold storage.getAppointmentsByUser, storageRead, storageCall in H.
  simpl in H.
  match type of H with
  | context [cancellationLoop ?reqs ?ua ?wa] =>
      destruct (cancellationLoop reqs ua wa) as [rc wc] eqn:Hc
  end.
  destruct (cancellationLoop_run _ _ _ _ _ Hc) as (Hlen & Hu' & Hs' & _).
  simpl in Hlen, Hu', Hs'.
  destruct rc; inversion H; subst; repeat split; try assumption.
  - intros n E. inversion E. reflexivity.
  - intros n E. discriminate E.
Qed.

Lemma applyRequests_nobody (d : ExtractedData.t) w :
  applyRequests None d w = (Ok 0, w).
Proof. reflexivity. Qed.

(** *** The phases of a run *)

(** The user id a session is linked to ([session?.userId], when truthy). *)
Definition linkOf (session : option CallSession.t) : option Z :=
  match session with
  | Some c =>
      match CallSession.userId c with
      | Some userId => if userId =? 0 then None else Some userId
      | None => None
      end
  | None => None
  end.

Definition byId (x : Z) (u : User.t) : bool := User.id u =? x.
Definition byPhone (phone : string) (u : User.t) : bool :=
  (User.phoneNumber u =? phone)%string.

(** The user the session is linked to. *)
Definition linkedUser (session : option CallSession.t) (s : Store)
  : option User.t :=
  match linkOf session with
  | Some userId => find (byId userId) (users s)
  | None => None
  end.

Lemma loadSession_run sessionId w :
  exists w0,
    loadSession sessionId w =
    (Ok (sessionRow sessionId (db w),
         linkedUser (sessionRow sessionId (db w)) (db w)), w0) /\
    db w0 = db w.
Proof.
  unfold loadSession, bind, ret, storage.getCallSession,
    storage.getToolCallsBySession, sessionUser, storage.getUser, storageRead,
    storageCall, linkedUser, linkOf, sessionRow. simpl.
  destruct (find _ (callSessions (db w))) as [c|];
    [|eexists; split; reflexivity].
  destruct (CallSession.userId c) as [x|]; [|eexists; split; reflexivity].
  destruct (x =? 0); simpl; eexists; split; reflexivity.
Qed.

(** The value of [extract]: it depends on the session through its phone
    number and on the user through the name. *)
Definition sessionPhone (session : option CallSession.t) : option string :=
  match session with Some c => CallSession.phoneNumber c | None => None end.

Definition userNameOf (user : option User.t) : option string :=
  match user with Some u => User.name u | None => None end.

Definition extractedPhoneOf (d : ExtractedData.t) (phone : option string)
  : option (option string) :=
  match ExtractedData.phoneNumber d with
  | JUndefined | JNull => Some phone
  | JString s => Some (Js.orElse (Some (Js.stripNonDigits s)) phone)
  | JBool _ | JNumber _ => None
  end.

Definition dataOf (llm : Extraction) : option ExtractedData.t :=
  match llm with
  | LlmRejects | JsonNull => None
  | NotJson => Some defaultExtractedData
  | JsonObject d => Some d
  end.

Lemma extract_run llm session user w :
  match dataOf llm with
  | Some d =>
      match extractedPhoneOf d (sessionPhone session) with
      | Some phone =>
          extract llm session user w =
          (Ok (d, phone,
               Js.orElse (ExtractedData.userName d) (userNameOf user)), w)
      | None => exists e, extract llm session user w = (Throw e, w)
      end
  | None => exists e, extract llm session user w = (Throw e, w)
  end.
Proof.
  unfold extract, dataOf, extractedPhoneOf, bind, ret, throw.
  destruct llm as [| | |d]; simpl; eauto;
    destruct (ExtractedData.phoneNumber d); simpl; eauto.
Qed.

(** The rows of [l'] are those of [l], in order, with the same ids and
    phone numbers (names may have been filled in). *)
Definition renames (l l' : list User.t) : Prop :=
  exists g,
    l' = List.map g l /\
    forall u, User.id (g u) = User.id u /\
              User.phoneNumber (g u) = User.phoneNumber u.

Lemma renames_refl l : renames l l.
Proof. exists (fun u => u). split; [symmetry; apply map_id|auto]. Qed.

Lemma renames_setName id name l :
  renames l (storage.updateWhere (fun u => User.id u =? id)
                                 (User.setName name) l).
Proof.
  exists (fun u => if User.id u =? id then User.setName name u else u).
  split; [reflexivity|]. intros u. destruct (User.id u =? id); auto.
Qed.

Lemma find_renames (p : User.t -> bool) l l' :
  (forall u u', User.id u' = User.id u ->
                User.phoneNumber u' = User.phoneNumber u -> p u' = p u) ->
  renames l l' ->
  match find p l with
  | Some u => exists u', find p l' = Some u' /\ User.id u' = User.id u
  | None => find p l' = None
  end.
Proof.
  intros Hp (g & -> & Hg).
  induction l as [|a l IH]; simpl; [reflexivity|].
  destruct (Hg a) as [Hi Hph]. rewrite (Hp a (g a) Hi Hph).
  destruct (p a); [|exact IH]. exists (g a). split; [reflexivity|exact Hi].
Qed.

Lemma byId_stable x u u' :
  User.id u' = User.id u -> User.phoneNumber u' = User.phoneNumber u ->
  byId x u' = byId x u.
Proof. unfold byId. intros -> _. reflexivity. Qed.

Lemma byPhone_stable phone u u' :
  User.id u' = User.id u -> User.phoneNumber u' = User.phoneNumber u ->
  byPhone phone u' = byPhone phone u.
Proof. unfold byPhone. intros _ ->. reflexivity. Qed.

(** The tables of appointments are the same. *)
Definition sameBookings (w w' : World) : Prop :=
  appointments (db w') = appointments (db w) /\
  nextAppointmentId (db w') = nextAppointmentId (db w).

Lemma fillName_run (u : User.t) extractedName w :
  exists u' w',
    fillName u extractedName w = (Ok u', w') /\
    User.id u' = User.id u /\
    renames (users (db w)) (users (db w')) /\
    sameBookings w w'.
Proof.
  unfold fillName, bind, ret, storage.updateUser, storageCall.
  destruct (_ && _); simpl.
  - do 2 eexists. split; [reflexivity|]. split; [reflexivity|].
    split; [apply renames_setName|split; reflexivity].
  - do 2 eexists. split; [reflexivity|]. split; [reflexivity|].
    split; [apply renames_refl|split; reflexivity].
Qed.

Definition phoneUsable (extractedPhone : option string) : bool :=
  Js.truthyStr extractedPhone &&
  (10 <=? String.length (Js.showStr extractedPhone))%nat.

(** How [resolveUser] arrives at its user. *)
Lemma resolveUser_run user0 extractedPhone extractedName w :
  exists u1 w1,
    resolveUser user0 extractedPhone extractedName w = (Ok u1, w1) /\
    sameBookings w w1 /\
    match user0 with
    | Some u0 =>
        renames (users (db w)) (users (db w1)) /\
        option_map User.id u1 = Some (User.id u0)
    | None =>
        if phoneUsable extractedPhone then
          match find (byPhone (Js.showStr extractedPhone)) (users (db w)) with
          | Some eu =>
              renames (users (db w)) (users (db w1)) /\
              option_map User.id u1 = Some (User.id eu)
          | None =>
              exists new,
                users (db w1) = (users (db w) ++ [new])%list /\
                User.phoneNumber new = Js.showStr extractedPhone /\
                u1 = Some new
          end
        else users (db w1) = users (db w) /\ u1 = None
    end.
Proof.
  unfold resolveUser. destruct user0 as [u0|].
  - destruct (fillName_run u0 extractedName w) as (u' & w' & Hf & Hi & Hr & Hb).
    unfold bind. rewrite Hf. unfold ret. do 2 eexists.
    split; [reflexivity|]. split; [exact Hb|]. split; [exact Hr|].
    simpl. rewrite Hi. reflexivity.
  - fold (phoneUsable extractedPhone).
    destruct (phoneUsable extractedPhone).
    + unfold bind at 1. unfold storage.getUserByPhoneNumber, storageRead,
        storageCall. simpl.
      fold (byPhone (Js.showStr extractedPhone)).
      destruct (find (byPhone (Js.showStr extractedPhone)) (users (db w)))
        as [eu|].
      * unfold bind.
        match goal with
        | |- context [fillName eu extractedName ?wa] =>
            destruct (fillName_run eu extractedName wa)
              as (u' & w' & Hf & Hi & Hr & Hb)
        end.
        rewrite Hf. unfold ret. do 2 eexists.
        split; [reflexivity|]. split; [exact Hb|]. split; [exact Hr|].
        simpl. rewrite Hi. reflexivity.
      * unfold bind, ret, storage.createUser, storageCall. simpl.
        do 2 eexists. split; [reflexivity|]. split; [split; reflexivity|].
        eexists. split; [reflexivity|]. split; reflexivity.
    + unfold ret. do 2 eexists. split; [reflexivity|].
      split; [split; reflexivity|]. split; reflexivity.
Qed.

Lemma find_snoc_none {A} (p : A -> bool) (l : list A) (x : A) :
  find p l = None -> p x = true -> find p (l ++ [x]) = Some x.
Proof.
  induction l as [|a l IH]; simpl; intros H Hx; [rewrite Hx; reflexivity|].
  destruct (p a); [discriminate|]. apply IH; assumption.
Qed.

(** Resolving again, from a store whose users are those the first
    resolution left, arrives at the same user. *)
Lemma resolveUser_again (session session' : option CallSession.t)
      extractedPhone extractedName extractedName' w u1 w1 w' :
  (forall x, linkOf session = Some x ->
             exists u, find (byId x) (users (db w)) = Some u) ->
  resolveUser (linkedUser session (db w)) extractedPhone extractedName w =
  (Ok u1, w1) ->
  linkOf session' = linkOf session ->
  users (db w') = users (db w1) ->
  exists u1' w1',
    resolveUser (linkedUser session' (db w')) extractedPhone extractedName' w'
    = (Ok u1', w1') /\
    option_map User.id u1' = option_map User.id u1 /\
    sameBookings w' w1'.
Proof.
  intros Hvalid Hrun Hlink Husers.
  destruct (resolveUser_run (linkedUser session (db w)) extractedPhone
                            extractedName w)
    as (u1_ & w1_ & Hrun_ & _ & Hcase).
  rewrite Hrun in Hrun_. inversion Hrun_; subst u1_ w1_. clear Hrun_.
  destruct (resolveUser_run (linkedUser session' (db w')) extractedPhone
                            extractedName' w')
    as (u1' & w1' & Hrun' & Hb' & Hcase').
  exists u1', w1'. split; [exact Hrun'|]. split; [|exact Hb'].
  unfold linkedUser in *. rewrite Hlink in *.
  destruct (linkOf session) as [x|].
  - destruct (Hvalid x eq_refl) as (u0 & Hu0). rewrite Hu0 in Hcase.
    destruct Hcase as [Hren Hid1].
    pose proof (find_renames (byId x) _ _ (byId_stable x) Hren) as Hf.
    rewrite Hu0 in Hf. destruct Hf as (u0' & Hf & Hid0).
    rewrite Husers, Hf in Hcase'. destruct Hcase' as [_ Hid1'].
    congruence.
  - destruct (phoneUsable extractedPhone).
    + destruct (find (byPhone (Js.showStr extractedPhone)) (users (db w)))
        as [eu|] eqn:Hfind.
      * destruct Hcase as [Hren Hid1].
        pose proof (find_renames (byPhone (Js.showStr extractedPhone)) _ _
                      (byPhone_stable _) Hren) as Hf.
        rewrite Hfind in Hf. destruct Hf as (eu' & Hf & Hid0).
        rewrite Husers, Hf in Hcase'. destruct Hcase' as [_ Hid1'].
        congruence.
      * destruct Hcase as (new & Hnew & Hph & ->).
        rewrite Husers, Hnew in Hcase'.
        rewrite (find_snoc_none _ _ new Hfind) in Hcase'.
        -- destruct Hcase' as [_ Hid1']. exact Hid1'.
        -- unfold byPhone. rewrite Hph. apply String.eqb_refl.
    + destruct Hcase as [_ ->]. destruct Hcase' as [_ ->]. reflexivity.
Qed.

(** What closing the session changes: the row of the session, of which the
    link to the user and the phone number stay. *)
Definition closes (sessionId : Z) (w w' : World) : Prop :=
  appointments (db w') = appointments (db w) /\
  nextAppointmentId (db w') = nextAppointmentId (db w) /\
  users (db w') = users (db w) /\
  linkOf (sessionRow sessionId (db w')) = linkOf (sessionRow sessionId (db w)) /\
  sessionPhone (sessionRow sessionId (db w')) =
  sessionPhone (sessionRow sessionId (db w)).

Lemma endCallSession_closes sessionId summary views prefs transcript w l :
  closes sessionId w
    (snd (storage.endCallSession sessionId summary views prefs transcript
            (mkWorld (db w) l))).
Proof.
  unfold closes, sessionRow, storage.endCallSession, storageCall. simpl.
  repeat split; try reflexivity;
    rewrite find_updateWhere by (intros r H; exact H);
    destruct (find _ (callSessions (db w))); reflexivity.
Qed.

Lemma fallback_closes sessionId transcript session user w :
  exists payload w',
    fallback sessionId transcript session user w = (Ok payload, w') /\
    CallSummary.newAppointmentsCreated payload = None /\
    closes sessionId w w'.
Proof.
  rewrite fallback_run. do 2 eexists. split; [reflexivity|].
  split; [reflexivity|]. apply endCallSession_closes.
Qed.

Lemma finalize_closes sessionId transcript user d phone name n w :
  exists payload w',
    finalize sessionId transcript user d phone name n w = (Ok payload, w') /\
    CallSummary.newAppointmentsCreated payload = Some n /\
    closes sessionId w w'.
Proof.
  unfold finalize, currentAppointments, bind, ret.
  destruct user as [u|].
  - unfold storage.getAppointmentsByUser, storageRead, storageCall at 1.
    simpl. do 2 eexists. split; [reflexivity|]. split; [reflexivity|].
    apply endCallSession_closes.
  - do 2 eexists. split; [reflexivity|]. split; [reflexivity|].
    destruct w as [s l]. apply (endCallSession_closes _ _ _ _ _ (mkWorld s l) l).
Qed.

(** The run of [generateCallSummary], phase by phase. *)
Lemma generateCallSummary_phases llm sessionId transcript w :
  exists w0,
    db w0 = db w /\
    let session := sessionRow sessionId (db w) in
    let user0 := linkedUser session (db w) in
    match dataOf llm with
    | Some d =>
        match extractedPhoneOf d (sessionPhone session) with
        | Some phone =>
            let name :=
              Js.orElse (ExtractedData.userName d) (userNameOf user0) in
            exists u1 w1 r2 w2,
              resolveUser user0 phone name w0 = (Ok u1, w1) /\
              applyRequests u1 d w1 = (r2, w2) /\
              generateCallSummary llm sessionId transcript w =
              match r2 with
              | Ok n => finalize sessionId transcript u1 d phone name n w2
              | Throw _ => fallback sessionId transcript session u1 w2
              end
        | None =>
            generateCallSummary llm sessionId transcript w =
            fallback sessionId transcript session user0 w0
        end
    | None =>
        generateCallSummary llm sessionId transcript w =
        fallback sessionId transcript session user0 w0
    end.
Proof.
  destruct (loadSession_run sessionId w) as (w0 & Hload & Hdb).
  exists w0. split; [exact Hdb|]. intros session user0.
  pose proof (extract_run llm session user0 w0) as Hex.
  unfold generateCallSummary, bind. rewrite Hload. fold session user0.
  unfold tryStep at 1.
  destruct (dataOf llm) as [d|].
  - destruct (extractedPhoneOf d (sessionPhone session)) as [phone|].
    + rewrite Hex.
      set (name := Js.orElse (ExtractedData.userName d) (userNameOf user0)).
      destruct (resolveUser_run user0 phone name w0)
        as (u1 & w1 & Hres & _ & _).
      unfold tryStep at 1. rewrite Hres.
      destruct (applyRequests u1 d w1) as [r2 w2] eqn:Happ.
      exists u1, w1, r2, w2. split; [reflexivity|]. split; [exact Happ|].
      unfold tryStep, applyExtraction, bind. rewrite Happ.
      destruct r2 as [n|e]; [|reflexivity].
      destruct (finalize_returns sessionId transcript u1 d phone name n w2)
        as (payload & w' & Hf).
      rewrite Hf. reflexivity.
    + destruct Hex as (e & Hex). unfold tryStep. rewrite Hex. reflexivity.
  - destruct Hex as (e & Hex). unfold tryStep. rewrite Hex. reflexivity.
Qed.

Lemma applyRequests_count user d w n w' :
  applyRequests user d w = (Ok n, w') ->
  Z.of_nat (List.length (appointments (db w'))) =
  Z.of_nat (List.length (appointments (db w))) + n.
Proof.
  destruct user as [u|].
  2:{ rewrite applyRequests_nobody. intros H. inversion H; subst. lia. }
  intros H. unfold applyRequests in H. cbv beta iota in H.
  unfold bind at 1 in H.
  unfold storage.getAppointmentsByUser, storageRead, storageCall in H.
  simpl in H. rewrite bookingStep_eq in H.
  unfold bind at 1 in H.
  match type of H with
  | context [bookingLoop ?uid ?reqs ?ex ?n ?wa] =>
      destruct (bookingLoop uid reqs ex n wa) as [rb wb] eqn:Hb
  end.
  destruct (bookingLoop_run _ _ _ _ _ _ _ Hb)
    as (created & Ha & _ & _ & _ & Hr & _ & _).
  simpl in Ha.
  destruct rb as [[existing' n']|e]; [|discriminate H].
  destruct (Hr _ _ eq_refl) as [_ Hn]. simpl in Hn.
  unfold bind at 1 in H.
  destruct (nonEmpty (ExtractedData.cancellationRequests d)) as [requests|].
  - unfold bind at 1 in H.
    unfold storage.getAppointmentsByUser, storageRead, storageCall in H.
    simpl in H.
    match type of H with
    | context [cancellationLoop ?reqs ?ua ?wa] =>
        destruct (cancellationLoop reqs ua wa) as [rc wc] eqn:Hc
    end.
    destruct (cancellationLoop_run _ _ _ _ _ Hc) as (Hlen & _).
    simpl in Hlen.
    destruct rc; [|discriminate H]. inversion H; subst.
    rewrite Hlen, Ha, length_app. lia.
  - unfold ret in H. inversion H; subst. rewrite Ha, length_app. lia.
Qed.

(** The counter a run reports is the number of rows it added. *)
Lemma generateCallSummary_count llm sessionId transcript w payload w' k :
  generateCallSummary llm sessionId transcript w = (Ok payload, w') ->
  CallSummary.newAppointmentsCreated payload = Some k ->
  Z.of_nat (List.length (appointments (db w'))) =
  Z.of_nat (List.length (appointments (db w))) + k.
Proof.
  intros Hrun Hk.
  destruct (generateCallSummary_phases llm sessionId transcript w)
    as (w0 & Hdb & Hph).
  cbv zeta in Hph.
  assert (Hfb : forall session user wx,
             generateCallSummary llm sessionId transcript w =
             fallback sessionId transcript session user wx -> False).
  { intros session user wx E. rewrite Hrun in E.
    destruct (fallback_closes sessionId transcript session user wx)
      as (p & wf & Hf & Hnone & _).
    rewrite Hf in E. inversion E; subst. congruence. }
  destruct (dataOf llm) as [d|]; [|exfalso; eapply Hfb; exact Hph].
  destruct (extractedPhoneOf d _) as [phone|];
    [|exfalso; eapply Hfb; exact Hph].
  destruct Hph as (u1 & w1 & r2 & w2 & Hres & Happ & Heq).
  destruct r2 as [n|e]; [|exfalso; eapply Hfb; exact Heq].
  destruct (finalize_closes sessionId transcript u1 d phone
              (Js.orElse (ExtractedData.userName d)
                 (userNameOf (linkedUser (sessionRow sessionId (db w)) (db w))))
              n w2) as (p & wf & Hf & Hsome & Hcl).
  rewrite Hrun, Hf in Heq. inversion Heq; subst p wf.
  rewrite Hsome in Hk. inversion Hk; subst k.
  destruct Hcl as (Ha & _).
  destruct (resolveUser_run (linkedUser (sessionRow sessionId (db w)) (db w))
              phone
              (Js.orElse (ExtractedData.userName d)
                 (userNameOf (linkedUser (sessionRow sessionId (db w)) (db w))))
              w0) as (u1_ & w1_ & Hres_ & [Hb _] & _).
  rewrite Hres in Hres_. inversion Hres_; subst u1_ w1_.
  rewrite Ha, (applyRequests_count _ _ _ _ _ Happ), Hb, Hdb. reflexivity.
Qed.

(** The foreign key of [call_sessions.user_id]. *)
Definition sessionLinkValid (sessionId : Z) (s : Store) : Prop :=
  forall x, linkOf (sessionRow sessionId s) = Some x ->
            exists u, find (byId x) (users s) = Some u.

Definition reportedCount (r : Result Z) : option Z :=
  match r with Ok n => Some n | Throw _ => None end.

(** A run always returns; what it leaves. *)
Lemma generateCallSummary_outcome llm sessionId transcript w :
  exists payload wF,
    generateCallSummary llm sessionId transcript w = (Ok payload, wF) /\
    linkOf (sessionRow sessionId (db wF)) = linkOf (sessionRow sessionId (db w)) /\
    sessionPhone (sessionRow sessionId (db wF)) =
    sessionPhone (sessionRow sessionId (db w)) /\
    let session := sessionRow sessionId (db w) in
    let user0 := linkedUser session (db w) in
    let aborted :=
      appointments (db wF) = appointments (db w) /\
      CallSummary.newAppointmentsCreated payload = None in
    match dataOf llm with
    | Some d =>
        match extractedPhoneOf d (sessionPhone session) with
        | Some phone =>
            exists w0 u1 w1 r2 w2,
              db w0 = db w /\
              resolveUser user0 phone
                (Js.orElse (ExtractedData.userName d) (userNameOf user0)) w0 =
              (Ok u1, w1) /\
              sameBookings w w1 /\
              applyRequests u1 d w1 = (r2, w2) /\
              users (db w2) = users (db w1) /\
              appointments (db wF) = appointments (db w2) /\
              users (db wF) = users (db w2) /\
              CallSummary.newAppointmentsCreated payload = reportedCount r2
        | None => aborted
        end
    | None => aborted
    end.
Proof.
  destruct (generateCallSummary_phases llm sessionId transcript w)
    as (w0 & Hdb & Hph).
  cbv zeta in Hph. cbv zeta.
  assert (Hab : forall user,
             generateCallSummary llm sessionId transcript w =
             fallback sessionId transcript (sessionRow sessionId (db w)) user w0 ->
             exists payload wF,
               generateCallSummary llm sessionId transcript w = (Ok payload, wF) /\
               linkOf (sessionRow sessionId (db wF)) =
               linkOf (sessionRow sessionId (db w)) /\
               sessionPhone (sessionRow sessionId (db wF)) =
               sessionPhone (sessionRow sessionId (db w)) /\
               appointments (db wF) = appointments (db w) /\
               CallSummary.newAppointmentsCreated payload = None).
  { intros user E.
    destruct (fallback_closes sessionId transcript
                (sessionRow sessionId (db w)) user w0)
      as (p & wf & Hf & Hnone & Ha & _ & _ & Hl & Hp).
    exists p, wf. rewrite E, Hf. rewrite Hdb in *.
    repeat split; assumption. }
  destruct (dataOf llm) as [d|]; [|apply Hab in Hph; exact Hph].
  destruct (extractedPhoneOf d _) as [phone|]; [|apply Hab in Hph; exact Hph].
  destruct Hph as (u1 & w1 & r2 & w2 & Hres & Happ & Heq).
  destruct (resolveUser_run (linkedUser (sessionRow sessionId (db w)) (db w))
              phone
              (Js.orElse (ExtractedData.userName d)
                 (userNameOf (linkedUser (sessionRow sessionId (db w)) (db w))))
              w0) as (u1_ & w1_ & Hres_ & Hb & _).
  rewrite Hres in Hres_. inversion Hres_; subst u1_ w1_. clear Hres_.
  assert (Hb' : sameBookings w w1).
  { destruct Hb as [H1 H2]. split; rewrite <- Hdb; assumption. }
  assert (Hs2 : callSessions (db w2) = callSessions (db w) /\
                users (db w2) = users (db w1)).
  { pose proof (sameSessions_applyRequests u1 d _ _ _ Happ) as S2.
    pose proof (sameSessions_resolveUser _ phone _ _ _ _ Hres) as S1.
    unfold sameSessions in *. split; [congruence|].
    destruct u1 as [u|].
    - assert (keeps (fun a b => users (db b) = users (db a))
                    (applyRequests (Some u) d)) as K.
      { apply keeps_applyRequests; intros; simpl; try reflexivity; congruence. }
      exact (K _ _ _ Happ).
    - rewrite applyRequests_nobody in Happ. inversion Happ; reflexivity. }
  destruct Hs2 as [Hs2 Hu2].
  assert (Hclose : forall payload wF,
             generateCallSummary llm sessionId transcript w = (Ok payload, wF) ->
             closes sessionId w2 wF ->
             CallSummary.newAppointmentsCreated payload = reportedCount r2 ->
             exists payload wF,
               generateCallSummary llm sessionId transcript w = (Ok payload, wF) /\
               linkOf (sessionRow sessionId (db wF)) =
               linkOf (sessionRow sessionId (db w)) /\
               sessionPhone (sessionRow sessionId (db wF)) =
               sessionPhone (sessionRow sessionId (db w)) /\
               exists w0 u1 w1 r2 w2,
                 db w0 = db w /\
                 resolveUser (linkedUser (sessionRow sessionId (db w)) (db w))
                   phone
                   (Js.orElse (ExtractedData.userName d)
                      (userNameOf
                         (linkedUser (sessionRow sessionId (db w)) (db w))))
                   w0 = (Ok u1, w1) /\
                 sameBookings w w1 /\
                 applyRequests u1 d w1 = (r2, w2) /\
                 users (db w2) = users (db w1) /\
                 appointments (db wF) = appointments (db w2) /\
                 users (db wF) = users (db w2) /\
                 CallSummary.newAppointmentsCreated payload = reportedCount r2).
  { intros payload wF Hrun (Ha & _ & Hu & Hl & Hp) Hcount.
    exists payload, wF. split; [exact Hrun|].
    unfold sessionRow in *. rewrite Hs2 in Hl, Hp.
    split; [exact Hl|]. split; [exact Hp|].
    exists w0, u1, w1, r2, w2. repeat split; try assumption.
    - exact (proj1 Hb').
    - exact (proj2 Hb'). }
  destruct r2 as [n|e].
  - destruct (finalize_closes sessionId transcript u1 d phone
                (Js.orElse (ExtractedData.userName d)
                   (userNameOf
                      (linkedUser (sessionRow sessionId (db w)) (db w))))
                n w2) as (p & wf & Hf & Hsome & Hcl).
    rewrite Hf in Heq. exact (Hclose p wf Heq Hcl Hsome).
  - destruct (fallback_closes sessionId transcript
                (sessionRow sessionId (db w)) u1 w2)
      as (p & wf & Hf & Hnone & Hcl).
    rewrite Hf in Heq. exact (Hclose p wf Heq Hcl Hnone).
Qed.

Lemma fresh_sameBookings w w' :
  sameBookings w w' -> appointmentIdsFresh (db w) -> appointmentIdsFresh (db w').
Proof.
  intros [Ha Hn] Hf. unfold appointmentIdsFresh in *. rewrite Ha, Hn. exact Hf.
Qed.

Lemma covered_same_appointments userId q s s' :
  appointments s' = appointments s -> covered userId q s -> covered userId q s'.
Proof. unfold covered. intros ->. auto. Qed.

(** The second run on the same extraction adds no appointment, provided no
    cancellation request of the extraction designates one of its booking
    requests. *)
Lemma generateCallSummary_rerun llm sessionId transcript w :
  appointmentIdsFresh (db w) ->
  sessionLinkValid sessionId (db w) ->
  (forall d, dataOf llm = Some d -> cancelsNoRequest d) ->
  let first := generateCallSummary llm sessionId transcript w in
  let second := generateCallSummary llm sessionId transcript (snd first) in
  List.length (appointments (db (snd second))) =
  List.length (appointments (db (snd first))) /\
  forall payload k,
    fst second = Ok payload ->
    CallSummary.newAppointmentsCreated payload = Some k -> k = 0.
Proof.
  intros Hfresh Hvalid Hno first second. subst first second.
  destruct (generateCallSummary_outcome llm sessionId transcript w)
    as (p1 & wF & Hrun1 & Hl1 & Hp1 & Hcase1).
  rewrite Hrun1. simpl snd.
  destruct (generateCallSummary_outcome llm sessionId transcript wF)
    as (p2 & wG & Hrun2 & _ & _ & Hcase2).
  rewrite Hrun2. simpl fst. simpl snd.
  cbv zeta in Hcase1, Hcase2. rewrite Hp1 in Hcase2.
  assert (Hdone : appointments (db wG) = appointments (db wF) /\
                  CallSummary.newAppointmentsCreated p2 = None ->
                  List.length (appointments (db wG)) =
                  List.length (appointments (db wF)) /\
                  forall payload k,
                    Ok p2 = Ok payload ->
                    CallSummary.newAppointmentsCreated payload = Some k ->
                    k = 0).
  { intros [Ha Hn]. split; [rewrite Ha; reflexivity|].
    intros payload k E Hk. inversion E; subst. congruence. }
  destruct (dataOf llm) as [d|] eqn:Hd; [|exact (Hdone Hcase2)].
  destruct (extractedPhoneOf d (sessionPhone (sessionRow sessionId (db w))))
    as [phone|]; [|exact (Hdone Hcase2)].
  clear Hdone.
  destruct Hcase1
    as (w0 & u1 & w1 & r2 & w2 & Hdb0 & Hres & Hb1 & Happ & Hu2 & HaF & HuF & _).
  destruct Hcase2
    as (w0' & u1' & w1' & r2' & w2' & Hdb0' & Hres' & Hb1' & Happ' & _ & HaG
        & _ & Hcount).
  (* the second resolution arrives at the same user *)
  assert (Hsame : option_map User.id u1' = option_map User.id u1).
  { destruct (resolveUser_again
                (sessionRow sessionId (db w)) (sessionRow sessionId (db wF))
                phone
                (Js.orElse (ExtractedData.userName d)
                   (userNameOf
                      (linkedUser (sessionRow sessionId (db w)) (db w))))
                (Js.orElse (ExtractedData.userName d)
                   (userNameOf
                      (linkedUser (sessionRow sessionId (db wF)) (db wF))))
                w0 u1 w1 w0')
      as (u1'' & w1'' & Hres'' & Hid & _).
    - intros x Hx. rewrite Hdb0. apply Hvalid. exact Hx.
    - unfold linkedUser in *. rewrite Hdb0. exact Hres.
    - exact Hl1.
    - congruence.
    - unfold linkedUser in *. rewrite Hdb0' in Hres''.
      rewrite Hres' in Hres''. inversion Hres''; subst. exact Hid. }
  assert (Hlen : List.length (appointments (db w2')) =
                 List.length (appointments (db wF)) /\
                 forall n, r2' = Ok n -> n = 0).
  { destruct u1 as [u|], u1' as [u'|]; try discriminate Hsame.
    - simpl in Hsame. inversion Hsame as [Hid].
      destruct (applyRequests_covers u d w1 r2 w2
                  (fresh_sameBookings _ _ Hb1 Hfresh) (Hno d eq_refl) Happ)
        as (Hcov & _ & _).
      destruct (applyRequests_no_new u' d w1' r2' w2') as (Hlen & _ & _ & Hn).
      + intros q Hin Hc. rewrite Hid.
        apply (covered_same_appointments _ _ (db w2)); [|apply Hcov; assumption].
        rewrite (proj1 Hb1'). exact HaF.
      + exact Happ'.
      + split; [rewrite Hlen, (proj1 Hb1'); reflexivity|exact Hn].
    - rewrite applyRequests_nobody in Happ'. inversion Happ'; subst.
      split; [rewrite (proj1 Hb1'); reflexivity|].
      intros n E. inversion E. reflexivity. }
  destruct Hlen as [Hlen Hzero].
  split; [rewrite HaG; exact Hlen|].
  intros payload k E Hk. inversion E; subst payload.
  rewrite Hcount in Hk. destruct r2' as [n|e]; [|discriminate Hk].
  simpl in Hk. inversion Hk; subst k. apply Hzero. reflexivity.
Qed.

(** *** The normalized time *)

Lemma isSpace_upperChar c : Js.isSpace c = true -> Js.upperChar c = c.
Proof.
  destruct c as [[] [] [] [] [] [] [] []]; intros H;
    try discriminate H; reflexivity.
Qed.

Lemma isDigit_not_space c : Js.isDigit c = true -> Js.isSpace c = false.
Proof.
  destruct c as [[] [] [] [] [] [] [] []]; intros H;
    try discriminate H; reflexivity.
Qed.

Lemma isPeriod_shape p :
  isPeriod p = true ->
  exists a m,
    p = String a (String m EmptyString) /\
    Js.isSpace a = false /\
    Js.toUpperCase p = String (Js.upperChar a) (String "M" EmptyString).
Proof.
  destruct p as [|a [|m [|x r]]]; simpl; try discriminate.
  intros H. apply andb_true_iff in H. destruct H as [Ha Hm].
  apply Ascii.eqb_eq in Hm. exists a, m. split; [reflexivity|]. split.
  - destruct (Js.isSpace a) eqn:S; [|reflexivity].
    pose proof (isSpace_upperChar a S) as U. rewrite U in Ha.
    apply orb_true_iff in Ha.
    destruct Ha as [Ha|Ha]; apply Ascii.eqb_eq in Ha; subst a;
      vm_compute in S; discriminate S.
  - change (Js.toUpperCase (String a (String m EmptyString)))
      with (String (Js.upperChar a) (String (Js.upperChar m) EmptyString)).
    rewrite Hm. reflexivity.
Qed.

Lemma trimStart_spaces ws s :
  Js.forallb Js.isSpace ws = true ->
  Js.trimStart (ws ++ s) = Js.trimStart s.
Proof.
  induction ws as [|c ws IH]; simpl; intros H; [reflexivity|].
  apply andb_true_iff in H. destruct H as [Hc Hws]. rewrite Hc. auto.
Qed.

Lemma trimEnd_kept s c :
  Js.isSpace c = false ->
  Js.trimEnd (s ++ String c EmptyString) = s ++ String c EmptyString.
Proof.
  intros Hc. induction s as [|x s IH]; simpl.
  - rewrite Hc. reflexivity.
  - rewrite IH. destruct s; reflexivity.
Qed.

Lemma matchAfterHour_period m1 m2 ws p :
  Js.isDigit m1 = true -> Js.isDigit m2 = true ->
  Js.forallb Js.isSpace ws = true -> isPeriod p = true ->
  matchAfterHour (String ":" (String m1 (String m2 (ws ++ p)))) =
  Some (String m1 (String m2 EmptyString), p).
Proof.
  intros H1 H2 Hws Hp.
  destruct (isPeriod_shape p Hp) as (a & m & E & Ha & _).
  assert (Ht : Js.trimStart (ws ++ p) = p).
  { rewrite trimStart_spaces by exact Hws. subst p.
    unfold Js.trimStart. rewrite Ha. reflexivity. }
  unfold matchAfterHour. rewrite H1, H2, Ht, Hp, orb_true_r. reflexivity.
Qed.

Lemma trim_kept c s x :
  Js.isSpace c = false -> Js.isSpace x = false ->
  Js.trim (String c (s ++ String x EmptyString)) =
  String c (s ++ String x EmptyString).
Proof.
  intros Hc Hx. unfold Js.trim. unfold Js.trimStart. rewrite Hc.
  change (String c (s ++ String x EmptyString))
    with (String c s ++ String x EmptyString).
  apply trimEnd_kept. exact Hx.
Qed.

(** An hour of one digit is padded with a zero, white space before the
    marker becomes one space, and the marker is put in upper case. *)
Lemma normalizeTime_one_digit h m1 m2 ws p :
  Js.isDigit h = true -> Js.isDigit m1 = true -> Js.isDigit m2 = true ->
  Js.forallb Js.isSpace ws = true -> isPeriod p = true ->
  normalizeTime (String h (String ":" (String m1 (String m2 (ws ++ p))))) =
  String "0" (String h (String ":" (String m1 (String m2
    (String " " (Js.toUpperCase p)))))).
Proof.
  intros Hh H1 H2 Hws Hp.
  pose proof (matchAfterHour_period m1 m2 ws p H1 H2 Hws Hp) as Hm.
  destruct (isPeriod_shape p Hp) as (a & m & E & Ha & Hup).
  unfold normalizeTime, matchTime. rewrite Hh.
  change (Js.isDigit ":") with false. cbv iota.
  rewrite Hm. cbv beta iota. unfold option_map, fst, snd.
  rewrite Hup. unfold padStart2.
  change (String "0" (String h EmptyString) ++ ":" ++
          String m1 (String m2 EmptyString) ++ " " ++
          String (Js.upperChar a) (String "M" EmptyString))
    with (String "0"
            (String h (String ":" (String m1 (String m2
               (String " " (String (Js.upperChar a) EmptyString)))))
             ++ String "M" EmptyString)).
  apply trim_kept; reflexivity.
Qed.

(** An hour of two digits is kept. *)
Lemma normalizeTime_two_digits h1 h2 m1 m2 ws p :
  Js.isDigit h1 = true -> Js.isDigit h2 = true ->
  Js.isDigit m1 = true -> Js.isDigit m2 = true ->
  Js.forallb Js.isSpace ws = true -> isPeriod p = true ->
  normalizeTime
    (String h1 (String h2 (String ":" (String m1 (String m2 (ws ++ p)))))) =
  String h1 (String h2 (String ":" (String m1 (String m2
    (String " " (Js.toUpperCase p)))))).
Proof.
  intros Hh1 Hh2 H1 H2 Hws Hp.
  pose proof (matchAfterHour_period m1 m2 ws p H1 H2 Hws Hp) as Hm.
  destruct (isPeriod_shape p Hp) as (a & m & E & Ha & Hup).
  unfold normalizeTime, matchTime. rewrite Hh1, Hh2.
  rewrite Hm. cbv beta iota. unfold option_map, fst, snd.
  rewrite Hup. unfold padStart2.
  change (String h1 (String h2 EmptyString) ++ ":" ++
          String m1 (String m2 EmptyString) ++ " " ++
          String (Js.upperChar a) (String "M" EmptyString))
    with (String h1
            (String h2 (String ":" (String m1 (String m2
               (String " " (String (Js.upperChar a) EmptyString)))))
             ++ String "M" EmptyString)).
  apply trim_kept; [apply isDigit_not_space; exact Hh1|reflexivity].
Qed.

Lemma isDuplicate_iff date time existing :
  isDuplicate date time existing = true <->
  exists a,
    In a existing /\ Appointment.date a = date /\
    normalizeTime (Appointment.time a) = normalizeTime time /\
    Appointment.status a <> "cancelled".
Proof.
  rewrite isDuplicate_existsb, existsb_exists. unfold matchesRequest.
  split; intros (a & Hin & H); exists a; (split; [exact Hin|]).
  - apply andb_true_iff in H. destruct H as [H Hact].
    apply andb_true_iff in H. destruct H as [Hd Ht].
    apply String.eqb_eq in Hd, Ht. unfold Appointment.isActive in Hact.
    apply negb_true_iff, String.eqb_neq in Hact. auto.
  - destruct H as (Hd & Ht & Hact).
    apply String.eqb_eq in Hd, Ht. apply String.eqb_neq in Hact.
    unfold Appointment.isActive. rewrite Hd, Ht, Hact. reflexivity.
Qed.

(** C2, as amended.  Each extracted booking request with both date and
    time present is skipped when the resolved user has a non-cancelled
    appointment with the same date and the same normalized time (the hour
    padded to two digits, the marker in upper case); otherwise exactly one
    appointment is created, with status [pending] and the generic
    description when none is given.  The counter [newAppointmentsCreated]
    of a run is the number of rows the run added.  A second run on the same
    extraction adds no row and reports no creation, provided no
    cancellation request of the extraction designates the date and
    normalized time of one of its booking requests. *)
Theorem C2_summarizer_skips_duplicates_and_rerun_adds_nothing :
  (forall h m1 m2 ws p,
      Js.isDigit h = true -> Js.isDigit m1 = true -> Js.isDigit m2 = true ->
      Js.forallb Js.isSpace ws = true -> isPeriod p = true ->
      normalizeTime (String h (String ":" (String m1 (String m2 (ws ++ p)))))
      = String "0" (String h (String ":" (String m1 (String m2
          (String " " (Js.toUpperCase p))))))) /\
  (forall date time existing,
      isDuplicate date time existing = true <->
      exists a,
        In a existing /\ Appointment.date a = date /\
        normalizeTime (Appointment.time a) = normalizeTime time /\
        Appointment.status a <> "cancelled") /\
  (forall userId q rest existing n w,
      complete q = true ->
      bookingLoop userId (Some q :: rest) existing n w =
      if isDuplicate (requestDate q) (requestTime q) existing
      then bookingLoop userId rest existing n w
      else
        let created := createdFor userId q (nextAppointmentId (db w)) in
        bookingLoop userId rest (existing ++ [created]) (n + 1)
          (mkWorld
             (mkStore (users (db w)) (appointments (db w) ++ [created])
                      (callSessions (db w)) (toolCalls (db w))
                      (nextUserId (db w)) (nextAppointmentId (db w) + 1)
                      (nextToolCallId (db w)))
             (log w ++ [OpCreateAppointment userId]))) /\
  (forall userId q id,
      Appointment.status (createdFor userId q id) = "pending" /\
      Appointment.description (createdFor userId q id) =
      if Js.truthyStr (ApptRequest.description q)
      then ApptRequest.description q else Some defaultDescription) /\
  (forall llm sessionId transcript w payload w' k,
      generateCallSummary llm sessionId transcript w = (Ok payload, w') ->
      CallSummary.newAppointmentsCreated payload = Some k ->
      Z.of_nat (List.length (appointments (db w'))) =
      Z.of_nat (List.length (appointments (db w))) + k) /\
  (forall llm sessionId transcript w,
      appointmentIdsFresh (db w) ->
      sessionLinkValid sessionId (db w) ->
      (forall d, dataOf llm = Some d -> cancelsNoRequest d) ->
      let first := generateCallSummary llm sessionId transcript w in
      let second := generateCallSummary llm sessionId transcript (snd first) in
      List.length (appointments (db (snd second))) =
      List.length (appointments (db (snd first))) /\
      forall payload k,
        fst second = Ok payload ->
        CallSummary.newAppointmentsCreated payload = Some k -> k = 0).
Proof.
  split; [exact normalizeTime_one_digit|].
  split; [exact isDuplicate_iff|].
  split.
  { intros userId q rest existing n w Hc. simpl.
    fold (complete q). rewrite Hc. fold (requestDate q) (requestTime q).
    destruct (isDuplicate (requestDate q) (requestTime q) existing);
      reflexivity. }
  split; [intros; split; reflexivity|].
  split; [exact generateCallSummary_count|].
  exact generateCallSummary_rerun.
Qed.

Lemma C2_witness :
  let first :=
    generateCallSummary (requestFor "2026-01-28" "9:00 AM") 1 None
                        summaryWorld in
  let second :=
    generateCallSummary (requestFor "2026-01-28" "9:00 AM") 1 None (snd first) in
  List.length (appointments (db (snd second))) =
  List.length (appointments (db (snd first))) /\
  forall payload k,
    fst second = Ok payload ->
    CallSummary.newAppointmentsCreated payload = Some k -> k = 0.
Proof.
  apply (proj2 (proj2 (proj2 (proj2 (proj2
           C2_summarizer_skips_duplicates_and_rerun_adds_nothing))))
           (requestFor "2026-01-28" "9:00 AM") 1 None summaryWorld).
  - split; constructor.
  - intros x Hx. vm_compute in Hx. inversion Hx; subst x.
    eexists. reflexivity.
  - intros d Hd. inversion Hd; subst d. intros q c _ [].
Defined.

(** The user confirmed a booking and then cancelled it in the same call. *)
Definition bookedThenCancelled : Extraction :=
  JsonObject
    (ExtractedData.mk None JUndefined
       (Some [Some (ApptRequest.mk (Some "2026-01-28") (Some "9:00 AM") None)])
       (Some [Some (CancelRequest.mk (Some "2026-01-28") (Some "09:00 am"))])
       (Some "Booked, then cancelled.") None).

(** C2 as it was stated: the second run on the same extraction creates no
    appointment. *)
Definition C2_as_stated (llm : Extraction) (sessionId : Z)
           (transcript : option string) (w : World) : Prop :=
  let first := generateCallSummary llm sessionId transcript w in
  let second := generateCallSummary llm sessionId transcript (snd first) in
  List.length (appointments (db (snd second))) =
  List.length (appointments (db (snd first))) /\
  forall payload,
    fst second = Ok payload ->
    CallSummary.newAppointmentsCreated payload = Some 0.

(** The first run creates appointment 1 and cancels it; the second run
    finds no active duplicate, creates appointment 2 and reports one
    creation. *)
Lemma C2_counterexample :
  ~ C2_as_stated bookedThenCancelled 1 None summaryWorld.
Proof.
  intros [Hlen _]. vm_compute in Hlen. discriminate Hlen.
Qed.

(** ** Further properties of the code *)

(** ** Further properties of the Tool Executor *)

(** The storage layer and the steps of the monad, unfolded. *)
Ltac run_storage H :=
  unfold bind, ret, throw, storage.getUser, storage.getUserByPhoneNumber,
    storage.createUser, storage.updateUser, storage.getAppointment,
    storage.getAppointmentsByUser, storage.createAppointment,
    storage.updateAppointment, storage.cancelAppointment,
    storage.getBookedSlots, storage.getCallSession,
    storage.updateCallSession, storage.endCallSession,
    storage.createToolCall, storage.getToolCallsBySession, storageRead,
    storageCall in H.

(** The tool named is none of the seven: the [default] case. *)
Lemma executeToolCall_default toolName args ctx :
  ~ In toolName toolNames ->
  executeToolCall toolName args ctx =
  ret (mkOutcome ("Unknown tool: " ++ toolName) ctx false).
Proof.
  intros Hn. unfold executeToolCall.
  repeat match goal with
         | |- context [(toolName =? ?s)%string] =>
             destruct (String.eqb_spec toolName s) as [E|_];
             [exfalso; apply Hn; rewrite E; simpl; tauto|]
         end.
  reflexivity.
Qed.

(** The case a tool name selects. *)
Lemma executeToolCall_cases toolName args ctx :
  (toolName = "identify_user" /\
   executeToolCall toolName args ctx = identify_user args ctx) \/
  (toolName = "fetch_slots" /\
   executeToolCall toolName args ctx = fetch_slots args ctx) \/
  (toolName = "book_appointment" /\
   executeToolCall toolName args ctx = book_appointment args ctx) \/
  (toolName = "retrieve_appointments" /\
   executeToolCall toolName args ctx = retrieve_appointments args ctx) \/
  (toolName = "cancel_appointment" /\
   executeToolCall toolName args ctx = cancel_appointment args ctx) \/
  (toolName = "modify_appointment" /\
   executeToolCall toolName args ctx = modify_appointment args ctx) \/
  (toolName = "end_conversation" /\
   executeToolCall toolName args ctx = end_conversation args ctx) \/
  (~ In toolName toolNames /\
   executeToolCall toolName args ctx =
   ret (mkOutcome ("Unknown tool: " ++ toolName) ctx false)).
Proof.
  destruct (in_dec string_dec toolName toolNames) as [Hin|Hn].
  - simpl in Hin.
    destruct Hin as [E|[E|[E|[E|[E|[E|[E|[]]]]]]]]; subst toolName;
      [left|right; left|do 2 right; left|do 3 right; left|do 4 right; left|
       do 5 right; left|do 6 right; left]; split; reflexivity.
  - do 7 right. split; [exact Hn|apply executeToolCall_default; exact Hn].
Qed.

(** [fetch_slots] reads the booked slots and answers. *)
Lemma fetch_slots_run args ctx w :
  exists text,
    fetch_slots args ctx w =
    (Ok (mkOutcome text ctx false),
     mkWorld (db w) (log w ++ [OpGetBookedSlots])).
Proof.
  unfold fetch_slots, bind, ret, storage.getBookedSlots, storageRead,
    storageCall. cbv beta iota zeta. eexists. reflexivity.
Qed.

(** X1.  A caller who is not identified can change nothing but through
    [identify_user]: every other tool call, known or not, returns a text,
    hands the context back as it was, leaves the database as it was, and
    reads at most the booked slots. *)
Theorem executeToolCall_unidentified_changes_nothing
        (toolName : string) (args : Args.t) (ctx : ConversationContext.t)
        (w : World) :
  identified ctx = None ->
  toolName <> "identify_user" ->
  exists text w',
    executeToolCall toolName args ctx w =
    (Ok (mkOutcome text ctx (toolName =? "end_conversation")%string), w') /\
    db w' = db w /\
    (log w' = log w \/ log w' = (log w ++ [OpGetBookedSlots])%list).
Proof.
  intros Hid Hname.
  destruct (executeToolCall_cases toolName args ctx)
    as [[E _]|[[E R]|[[E R]|[[E R]|[[E R]|[[E R]|[[E R]|[Hn R]]]]]]]];
    [contradiction| | | | | | |]; rewrite R; try subst toolName.
  - destruct (fetch_slots_run args ctx w) as (text & Hrun). rewrite Hrun.
    do 2 eexists. split; [reflexivity|]. split; [reflexivity|].
    right. reflexivity.
  - unfold book_appointment. rewrite Hid. unfold ret.
    do 2 eexists. split; [reflexivity|]. split; [reflexivity|left; reflexivity].
  - unfold retrieve_appointments. rewrite Hid. unfold ret.
    do 2 eexists. split; [reflexivity|]. split; [reflexivity|left; reflexivity].
  - unfold cancel_appointment. rewrite Hid. unfold ret.
    do 2 eexists. split; [reflexivity|]. split; [reflexivity|left; reflexivity].
  - unfold modify_appointment. rewrite Hid. unfold ret.
    do 2 eexists. split; [reflexivity|]. split; [reflexivity|left; reflexivity].
  - unfold end_conversation, ret.
    do 2 eexists. split; [reflexivity|]. split; [reflexivity|left; reflexivity].
  - unfold ret.
    assert (Hf : (toolName =? "end_conversation")%string = false).
    { apply String.eqb_neq. intros E. apply Hn. rewrite E. simpl. tauto. }
    rewrite Hf.
    do 2 eexists. split; [reflexivity|]. split; [reflexivity|left; reflexivity].
Qed.

Lemma executeToolCall_unidentified_witness :
  exists text w',
    executeToolCall "book_appointment" (bookArgs "2026-01-28" "09:00 AM")
                    (sessionContext 1) (mkWorld emptyStore []) =
    (Ok (mkOutcome text (sessionContext 1) false), w') /\
    db w' = emptyStore /\
    (log w' = [] \/ log w' = [OpGetBookedSlots]).
Proof.
  apply (executeToolCall_unidentified_changes_nothing
           "book_appointment" (bookArgs "2026-01-28" "09:00 AM")
           (sessionContext 1) (mkWorld emptyStore [])).
  - reflexivity.
  - discriminate.
Defined.

(** Rows outside a filter stay outside it under an update that never
    moves a selected row into it. *)
Lemma filter_updateWhere_outside {R} (p sel : R -> bool) (f : R -> R)
      (rows : list R) :
  (forall r, In r rows -> sel r = true -> p r = false /\ p (f r) = false) ->
  List.filter p (storage.updateWhere sel f rows) = List.filter p rows.
Proof.
  unfold storage.updateWhere.
  induction rows as [|x rows IH]; intros H; simpl; [reflexivity|].
  rewrite IH by (intros r Hr; apply H; right; exact Hr).
  destruct (sel x) eqn:S; [|reflexivity].
  destruct (H x (or_introl eq_refl) S) as [-> ->]. reflexivity.
Qed.

Lemma appointmentById_In id s a :
  storage.appointmentById id s = Some a ->
  In a (appointments s) /\ id = Some (Appointment.id a).
Proof.
  unfold storage.appointmentById. destruct id as [i|]; [|discriminate].
  intros H. apply find_some in H. destruct H as [Hin E].
  apply Z.eqb_eq in E. subst i. split; [exact Hin|reflexivity].
Qed.

(** What identifies an appointment and its owner. *)
Definition identityOf (a : Appointment.t) : Z * Z * option string :=
  (Appointment.id a, Appointment.userId a, Appointment.description a).

(** The appointments of the users other than [userId]. *)
Definition appointmentsOfOthers (userId : Z) (s : Store)
  : list Appointment.t :=
  List.filter (fun a => negb (Appointment.userId a =? userId))
              (appointments s).

Lemma map_updateWhere_same {R B} (g : R -> B) (sel : R -> bool) (f : R -> R)
      (rows : list R) :
  (forall r, g (f r) = g r) ->
  List.map g (storage.updateWhere sel f rows) = List.map g rows.
Proof.
  intros H. unfold storage.updateWhere. rewrite map_map.
  apply map_ext. intros r. destruct (sel r); [apply H|reflexivity].
Qed.

(** The effect of a tool call on the two tables of users and
    appointments. *)
Inductive ToolEffect (userId : option Z) (s s' : Store) : Prop :=
| NoEffect :
    users s' = users s -> appointments s' = appointments s ->
    ToolEffect userId s s'
| UserCreated (user : User.t) :
    users s' = (users s ++ [user])%list ->
    appointments s' = appointments s ->
    find (byPhone (User.phoneNumber user)) (users s) = None ->
    ToolEffect userId s s'
| AppointmentCreated (created : Appointment.t) :
    users s' = users s ->
    appointments s' = (appointments s ++ [created])%list ->
    Some (Appointment.userId created) = userId ->
    ToolEffect userId s s'
| AppointmentUpdated (a : Appointment.t) (f : Appointment.t -> Appointment.t) :
    users s' = users s ->
    In a (appointments s) ->
    Some (Appointment.userId a) = userId ->
    (forall x, identityOf (f x) = identityOf x) ->
    appointments s' =
    storage.updateWhere (fun x => Appointment.id x =? Appointment.id a) f
                        (appointments s) ->
    ToolEffect userId s s'.

Lemma executeToolCall_effect toolName args ctx w r w' :
  executeToolCall toolName args ctx w = (r, w') ->
  ToolEffect (identified ctx) (db w) (db w').
Proof.
  intros H.
  destruct (executeToolCall_cases toolName args ctx)
    as [[_ R]|[[_ R]|[[_ R]|[[_ R]|[[_ R]|[[_ R]|[[_ R]|[_ R]]]]]]]];
    rewrite R in H; clear R.
  - unfold identify_user in H. run_storage H.
    split_path_eq H; inversion H; subst; simpl;
      solve [ apply NoEffect; reflexivity
            | eapply UserCreated; [reflexivity|reflexivity|assumption] ].
  - destruct (fetch_slots_run args ctx w) as (text & Hrun).
    rewrite Hrun in H. inversion H; subst. apply NoEffect; reflexivity.
  - unfold book_appointment in H.
    remember (existsb (slotIs (Args.date args) (Args.time args))
                      availableSlots) as cat.
    run_storage H.
    split_path H; inversion H; subst;
      solve [ apply NoEffect; reflexivity
            | eapply AppointmentCreated; reflexivity ].
  - unfold retrieve_appointments in H. run_storage H.
    split_path H; inversion H; subst; apply NoEffect; reflexivity.
  - unfold cancel_appointment in H. run_storage H.
    split_path_eq H; inversion H; subst;
      try (apply NoEffect; reflexivity).
    match goal with
    | Hfind : storage.appointmentById _ _ = Some ?found,
      Hown : negb (Appointment.userId ?found =? _) = false |- _ =>
        apply negb_false_iff, Z.eqb_eq in Hown;
        apply appointmentById_In in Hfind;
        eapply AppointmentUpdated with (a := found);
          [reflexivity|exact (proj1 Hfind)|congruence| |reflexivity]
    end.
    intros x. reflexivity.
  - unfold modify_appointment in H. run_storage H.
    split_path_eq H; inversion H; subst;
      try (apply NoEffect; reflexivity).
    match goal with
    | Hfind : storage.appointmentById _ _ = Some ?found,
      Hown : negb (Appointment.userId ?found =? _) = false |- _ =>
        apply negb_false_iff, Z.eqb_eq in Hown;
        apply appointmentById_In in Hfind;
        eapply AppointmentUpdated with (a := found);
          [reflexivity|exact (proj1 Hfind)|congruence| |reflexivity]
    end.
    intros x. reflexivity.
  - inversion H; subst. apply NoEffect; reflexivity.
  - inversion H; subst. apply NoEffect; reflexivity.
Qed.

(** X2.  No tool call deletes a user or an appointment, gives an
    appointment another id, owner or description, or adds more than one
    row; and when the ids of the appointments are distinct, the
    appointments of the users other than the caller are exactly as they
    were. *)
Theorem executeToolCall_keeps_rows_and_other_users
        (toolName : string) (args : Args.t) (ctx : ConversationContext.t)
        (w w' : World) (r : Result ToolOutcome) :
  executeToolCall toolName args ctx w = (r, w') ->
  (exists addedUsers added,
      (List.length addedUsers + List.length added <= 1)%nat /\
      users (db w') = (users (db w) ++ addedUsers)%list /\
      List.map identityOf (appointments (db w')) =
      (List.map identityOf (appointments (db w)) ++
       List.map identityOf added)%list) /\
  (NoDup (List.map Appointment.id (appointments (db w))) ->
   forall userId,
     identified ctx = Some userId ->
     appointmentsOfOthers userId (db w') =
     appointmentsOfOthers userId (db w)).
Proof.
  intros H. apply executeToolCall_effect in H.
  split.
  - destruct H as [Hu Ha|user Hu Ha _|created Hu Ha _|a f Hu _ _ Hf Ha].
    + exists [], []. rewrite Hu, Ha, !app_nil_r. auto.
    + exists [user], []. rewrite Hu, Ha, !app_nil_r. auto.
    + exists [], [created]. rewrite Hu, Ha, app_nil_r, map_app. auto.
    + exists [], []. rewrite Hu, Ha, !app_nil_r.
      split; [auto|]. split; [reflexivity|].
      apply map_updateWhere_same. exact Hf.
  - intros Hnd userId Hid. unfold appointmentsOfOthers.
    destruct H as [_ Ha|user _ Ha _|created _ Ha Hc|a f _ Hin Hown Hf Ha];
      rewrite Ha; try reflexivity.
    + rewrite filter_app. simpl.
      assert (E : Appointment.userId created = userId) by congruence.
      rewrite E, Z.eqb_refl. simpl. apply app_nil_r.
    + apply filter_updateWhere_outside. intros x Hx Hsel.
      apply Z.eqb_eq in Hsel.
      assert (x = a)
        by (eapply NoDup_map_eq; [exact Hnd|exact Hx|exact Hin|exact Hsel]).
      subst x.
      assert (E : Appointment.userId a = userId) by congruence.
      pose proof (Hf a) as Hfa. unfold identityOf in Hfa.
      assert (Hfu : Appointment.userId (f a) = Appointment.userId a)
        by congruence.
      rewrite Hfu, E, Z.eqb_refl. split; reflexivity.
Qed.

(** Caller 1 cancels appointment 1 of the shared-slot store; appointment
    2, of user 2, stays as it was. *)
Lemma executeToolCall_keeps_rows_witness :
  appointmentsOfOthers 1
    (db (snd (executeToolCall "cancel_appointment" (cancelArgs 1)
                              callerContext sharedSlotWorld))) =
  appointmentsOfOthers 1 (db sharedSlotWorld).
Proof.
  refine (proj2 (executeToolCall_keeps_rows_and_other_users
                   "cancel_appointment" (cancelArgs 1) callerContext
                   sharedSlotWorld _ _ _) _ 1 eq_refl).
  - apply surjective_pairing.
  - simpl. repeat constructor; simpl; intuition discriminate.
Defined.

(** The tools other than the three that book, cancel and move leave the
    table of appointments alone. *)
Lemma executeToolCall_appointments_unchanged toolName args ctx w r w' :
  toolName <> "book_appointment" -> toolName <> "cancel_appointment" ->
  toolName <> "modify_appointment" ->
  executeToolCall toolName args ctx w = (r, w') ->
  appointments (db w') = appointments (db w).
Proof.
  intros Hb Hc Hm H.
  destruct (executeToolCall_cases toolName args ctx)
    as [[_ R]|[[_ R]|[[E _]|[[_ R]|[[E _]|[[E _]|[[_ R]|[_ R]]]]]]]];
    try contradiction; rewrite R in H; clear R.
  - unfold identify_user in H. run_storage H.
    split_path H; inversion H; subst; reflexivity.
  - destruct (fetch_slots_run args ctx w) as (text & Hrun).
    rewrite Hrun in H. inversion H; subst. reflexivity.
  - unfold retrieve_appointments in H. run_storage H.
    split_path H; inversion H; subst; reflexivity.
  - inversion H; subst. reflexivity.
  - inversion H; subst. reflexivity.
Qed.

Lemma modify_appointment_not_found args ctx w r w' :
  storage.appointmentById (Args.appointment_id args) (db w) = None ->
  executeToolCall "modify_appointment" args ctx w = (r, w') ->
  db w' = db w.
Proof.
  intros Hfind H. rewrite executeToolCall_modify_appointment in H.
  unfold modify_appointment in H. run_storage H.
  destruct (identified ctx); [|inversion H; reflexivity].
  destruct (_ && _); [inversion H; reflexivity|].
  cbv beta iota zeta in H. rewrite Hfind in H.
  inversion H; reflexivity.
Qed.

(** X3.  A tool call keeps the invariant that no slot holds two active
    appointments, for every tool and every argument bag, with one
    exception: [modify_appointment] asked to put a cancelled appointment
    on the slot it already has. *)
Theorem executeToolCall_keeps_noDoubleBooking
        (toolName : string) (args : Args.t) (ctx : ConversationContext.t)
        (w w' : World) (r : Result ToolOutcome) :
  noDoubleBooking (db w) ->
  NoDup (List.map Appointment.id (appointments (db w))) ->
  (toolName = "modify_appointment" ->
   forall a,
     storage.appointmentById (Args.appointment_id args) (db w) = Some a ->
     Appointment.isActive a = true \/
     sameSlot (Appointment.date a) (Appointment.time a)
              (mkSlot (orCurrent (Args.new_date args) (Appointment.date a))
                      (orCurrent (Args.new_time args) (Appointment.time a)))
     = false) ->
  executeToolCall toolName args ctx w = (r, w') ->
  noDoubleBooking (db w').
Proof.
  intros Hinv Hnd Hsafe H.
  destruct (string_dec toolName "book_appointment") as [->|Hb].
  { exact (book_appointment_keeps_invariant _ _ _ _ _ Hinv H). }
  destruct (string_dec toolName "cancel_appointment") as [->|Hc].
  { exact (cancel_appointment_keeps_invariant _ _ _ _ _ Hinv H). }
  destruct (string_dec toolName "modify_appointment") as [->|Hm].
  { destruct (storage.appointmentById (Args.appointment_id args) (db w))
      as [a|] eqn:Hfind.
    - exact (modify_appointment_keeps_invariant _ _ _ _ _ a Hinv Hnd Hfind
               (Hsafe eq_refl a eq_refl) H).
    - rewrite (modify_appointment_not_found _ _ _ _ _ Hfind H). exact Hinv. }
  intros date time. unfold activeOn.
  rewrite (executeToolCall_appointments_unchanged _ _ _ _ _ _ Hb Hc Hm H).
  apply Hinv.
Qed.

Lemma noDoubleBooking_empty : noDoubleBooking emptyStore.
Proof. intros date time. simpl. lia. Qed.

Lemma executeToolCall_keeps_noDoubleBooking_witness :
  noDoubleBooking
    (db (snd (executeToolCall "book_appointment"
                (bookArgs "2026-01-28" "09:00 AM") callerContext
                (mkWorld emptyStore [])))).
Proof.
  apply (executeToolCall_keeps_noDoubleBooking
           "book_appointment" (bookArgs "2026-01-28" "09:00 AM")
           callerContext (mkWorld emptyStore []) _
           (fst (executeToolCall "book_appointment"
                   (bookArgs "2026-01-28" "09:00 AM") callerContext
                   (mkWorld emptyStore [])))).
  - exact noDoubleBooking_empty.
  - constructor.
  - discriminate.
  - apply surjective_pairing.
Defined.

(** What a returning tool call does to the context and to the tables of
    tool calls and call sessions. *)
Ltac context_kept :=
  split; [reflexivity|]; split; [reflexivity|]; split; [reflexivity|];
  split; [intros _; split; reflexivity|split; reflexivity].

Lemma executeToolCall_context_kept toolName args ctx w out w' :
  executeToolCall toolName args ctx w = (Ok out, w') ->
  endCall out = (toolName =? "end_conversation")%string /\
  ConversationContext.sessionId (context out) =
  ConversationContext.sessionId ctx /\
  ConversationContext.messages (context out) =
  ConversationContext.messages ctx /\
  (toolName <> "identify_user" ->
   context out = ctx /\ callSessions (db w') = callSessions (db w)) /\
  toolCalls (db w') = toolCalls (db w) /\
  nextToolCallId (db w') = nextToolCallId (db w).
Proof.
  intros H.
  destruct (executeToolCall_cases toolName args ctx)
    as [[E R]|[[E R]|[[E R]|[[E R]|[[E R]|[[E R]|[[E R]|[Hn R]]]]]]]];
    rewrite R in H; clear R; try subst toolName.
  - unfold identify_user in H. run_storage H.
    split_path H; inversion H; subst; simpl;
      (split; [reflexivity|]; split; [reflexivity|]; split; [reflexivity|];
       split; [intros E; exfalso; apply E; reflexivity|split; reflexivity]).
  - destruct (fetch_slots_run args ctx w) as (text & Hrun).
    rewrite Hrun in H. inversion H; subst. simpl. context_kept.
  - unfold book_appointment in H.
    remember (existsb (slotIs (Args.date args) (Args.time args))
                      availableSlots) as cat.
    run_storage H.
    split_path H; inversion H; subst; simpl; context_kept.
  - unfold retrieve_appointments in H. run_storage H.
    split_path H; inversion H; subst; simpl; context_kept.
  - unfold cancel_appointment in H. run_storage H.
    split_path H; inversion H; subst; simpl; context_kept.
  - unfold modify_appointment in H. run_storage H.
    split_path H; inversion H; subst; simpl; context_kept.
  - inversion H; subst. simpl. context_kept.
  - inversion H; subst. simpl.
    assert (Hf : (toolName =? "end_conversation")%string = false).
    { apply String.eqb_neq. intros E. apply Hn. rewrite E. simpl. tauto. }
    rewrite Hf. context_kept.
Qed.

(** X4.  Only [end_conversation] ends the call, and only [identify_user]
    changes the context or the row of the session; no tool changes the
    session id or the message history of the context. *)
Theorem executeToolCall_ends_and_identifies
        (toolName : string) (args : Args.t) (ctx : ConversationContext.t)
        (w w' : World) (out : ToolOutcome) :
  executeToolCall toolName args ctx w = (Ok out, w') ->
  (endCall out = true <-> toolName = "end_conversation") /\
  ConversationContext.sessionId (context out) =
  ConversationContext.sessionId ctx /\
  ConversationContext.messages (context out) =
  ConversationContext.messages ctx /\
  (toolName <> "identify_user" ->
   context out = ctx /\ callSessions (db w') = callSessions (db w)).
Proof.
  intros H.
  destruct (executeToolCall_context_kept _ _ _ _ _ _ H)
    as (He & Hs & Hm & Hc & _).
  split; [|auto]. rewrite He. apply String.eqb_eq.
Qed.

Lemma executeToolCall_ends_witness :
  let run :=
    executeToolCall "end_conversation" Args.empty callerContext
                    (mkWorld emptyStore []) in
  exists out,
    fst run = Ok out /\
    (endCall out = true <-> "end_conversation" = "end_conversation") /\
    context out = callerContext.
Proof.
  eexists. split; [reflexivity|].
  destruct (executeToolCall_ends_and_identifies
              "end_conversation" Args.empty callerContext
              (mkWorld emptyStore []) _ _ eq_refl) as (He & _ & _ & Hc).
  split; [exact He|]. apply Hc. discriminate.
Defined.





(** *** Offered slots *)

(** The list [available] of [fetch_slots]: the free slots of the catalog,
    on the date asked for when there is one. *)
Definition offeredSlots (dateFilter : option string) (s : Store)
  : list Slot :=
  let free :=
    freeSlots (List.map slotOf
                        (List.filter Appointment.isActive (appointments s))) in
  if Js.truthyStr dateFilter
  then List.filter (fun slot => Js.strictEq (slotDate slot) dateFilter) free
  else free.

(** The text [fetch_slots] makes of that list. *)
Definition offerText (dateFilter : option string) (available : list Slot)
  : string :=
  match available with
  | [] =>
      if Js.truthyStr dateFilter
      then "No available slots on " ++ Js.showStr dateFilter ++
           ". Would you like to check another date?"
      else "No available slots at the moment. Please check back later."
  | _ =>
      "Available slots: " ++
      Js.join ", "
        (List.map (fun s => slotDate s ++ " at " ++ slotTime s)
                  (firstn 5 available)) ++
      (if (5 <? List.length available)%nat
       then " and " ++
            Js.numberToString (Z.of_nat (List.length available - 5)) ++
            " more"
       else "") ++ "."
  end.

Lemma fetch_slots_offer args ctx w :
  executeToolCall "fetch_slots" args ctx w =
  (Ok (mkOutcome (offerText (Args.date args)
                            (offeredSlots (Args.date args) (db w)))
                 ctx false),
   mkWorld (db w) (log w ++ [OpGetBookedSlots])).
Proof.
  rewrite executeToolCall_fetch_slots.
  unfold fetch_slots, bind, ret, storage.getBookedSlots, storageRead,
    storageCall, offerText, offeredSlots, freeSlots, slotOf.
  cbv beta iota zeta. reflexivity.
Qed.

(** A slot whose key is not the key of a booked slot is not booked. *)
Lemma freeSlots_not_booked slot booked :
  In slot (freeSlots booked) ->
  In slot availableSlots /\
  existsb (slotIs (Some (slotDate slot)) (Some (slotTime slot))) booked
  = false.
Proof.
  unfold freeSlots. cbv zeta. rewrite filter_In. intros [Hin Hfree].
  split; [exact Hin|].
  apply negb_true_iff in Hfree.
  destruct (existsb (slotIs _ _) booked) eqn:E; [|reflexivity].
  apply existsb_exists in E. destruct E as (s & Hs & Hslot).
  unfold slotIs, Js.strictEq in Hslot.
  apply andb_true_iff in Hslot. destruct Hslot as [Hd Ht].
  apply String.eqb_eq in Hd, Ht.
  assert (Hkey : existsb (String.eqb (slotKey slot)) (List.map slotKey booked)
                 = true).
  { apply existsb_exists. exists (slotKey s).
    split; [apply in_map; exact Hs|].
    unfold slotKey. rewrite Hd, Ht. apply String.eqb_refl. }
  congruence.
Qed.

Lemma inCatalog_member slot :
  In slot availableSlots ->
  inCatalog (Some (slotDate slot)) (Some (slotTime slot)) = true.
Proof.
  intros Hin. unfold inCatalog. apply existsb_exists. exists slot.
  split; [exact Hin|]. unfold slotIs, Js.strictEq.
  rewrite !String.eqb_refl. reflexivity.
Qed.

Lemma offeredSlots_free dateFilter s slot :
  In slot (offeredSlots dateFilter s) ->
  In slot availableSlots /\
  activeBooked (Some (slotDate slot)) (Some (slotTime slot)) s = false.
Proof.
  intros Hin.
  assert (Hfree : In slot
                    (freeSlots
                       (List.map slotOf
                          (List.filter Appointment.isActive
                                       (appointments s))))).
  { unfold offeredSlots in Hin. cbv zeta in Hin.
    destruct (Js.truthyStr dateFilter); [|exact Hin].
    apply filter_In in Hin. exact (proj1 Hin). }
  apply freeSlots_not_booked in Hfree. destruct Hfree as [Hcat Hno].
  split; [exact Hcat|].
  rewrite <- (booked_test _ _ (mkWorld s [])). exact Hno.
Qed.

(** X6.  What [fetch_slots] offers can be booked.  The tool answers with
    the text of its list of available slots, and so does [GET /api/slots]
    with the list itself; for every slot of that list, [book_appointment]
    called by an identified caller on the same state of the database
    creates the appointment. *)
Theorem offered_slots_can_be_booked
        (args : Args.t) (ctx : ConversationContext.t) (w : World) :
  executeToolCall "fetch_slots" args ctx w =
  (Ok (mkOutcome (offerText (Args.date args)
                            (offeredSlots (Args.date args) (db w)))
                 ctx false),
   mkWorld (db w) (log w ++ [OpGetBookedSlots])) /\
  getSlots w =
  (Ok (mkResponse 200 (Json (offeredSlots None (db w)))),
   mkWorld (db w) (log w ++ [OpGetBookedSlots])) /\
  forall dateFilter slot bookArgs bookCtx userId wb,
    In slot (offeredSlots dateFilter (db w)) ->
    db wb = db w ->
    identified bookCtx = Some userId ->
    Args.date bookArgs = Some (slotDate slot) ->
    Args.time bookArgs = Some (slotTime slot) ->
    exists text wb',
      executeToolCall "book_appointment" bookArgs bookCtx wb =
      (Ok (mkOutcome text bookCtx false), wb') /\
      appointments (db wb') =
      (appointments (db w) ++
       [Appointment.mk (nextAppointmentId (db w)) userId (slotDate slot)
                       (slotTime slot) (Args.description bookArgs)
                       "scheduled"])%list.
Proof.
  split; [apply fetch_slots_offer|]. split; [reflexivity|].
  intros dateFilter slot bookArgs bookCtx userId wb Hin Hdb Hid Hd Ht.
  apply offeredSlots_free in Hin. destruct Hin as [Hcat Hfree].
  rewrite <- Hdb in Hfree.
  destruct (book_appointment_free bookArgs bookCtx wb userId _ _ Hid Hd Ht
              Hfree (inCatalog_member slot Hcat))
    as (text & wb' & Hrun & Happ & _).
  exists text, wb'. split; [exact Hrun|]. rewrite Happ, Hdb. reflexivity.
Qed.

(** *** Booking, cancelling, booking again *)

Lemma updateWhere_unselected {R} (sel : R -> bool) (f : R -> R)
      (rows : list R) :
  (forall r, In r rows -> sel r = false) ->
  storage.updateWhere sel f rows = rows.
Proof.
  intros H. unfold storage.updateWhere.
  rewrite <- (map_id rows) at 2. apply map_ext_in.
  intros r Hr. rewrite (H r Hr). reflexivity.
Qed.

Lemma find_fresh_id (l : list Appointment.t) (a : Appointment.t) :
  Forall (fun x => Appointment.id x < Appointment.id a) l ->
  find (fun x => Appointment.id x =? Appointment.id a) (l ++ [a]) = Some a /\
  storage.updateWhere (fun x => Appointment.id x =? Appointment.id a)
                      cancelled (l ++ [a]) = (l ++ [cancelled a])%list.
Proof.
  intros Hlt. rewrite Forall_forall in Hlt.
  assert (Hno : forall r, In r l ->
                          (Appointment.id r =? Appointment.id a) = false).
  { intros r Hr. apply Z.eqb_neq. specialize (Hlt r Hr). lia. }
  split.
  - induction l as [|x l IH]; simpl; [rewrite Z.eqb_refl; reflexivity|].
    rewrite (Hno x (or_introl eq_refl)). apply IH.
    + intros r Hr. apply Hlt. right. exact Hr.
    + intros r Hr. apply Hno. right. exact Hr.
  - unfold storage.updateWhere. rewrite map_app.
    change (List.map ?g l) with (storage.updateWhere
                                   (fun x => Appointment.id x =? Appointment.id a)
                                   cancelled l).
    rewrite (updateWhere_unselected _ _ l Hno). simpl.
    rewrite Z.eqb_refl. reflexivity.
Qed.

Lemma activeBooked_snoc_cancelled date time (s : Store) l a :
  appointments s = (l ++ [cancelled a])%list ->
  activeBooked date time s = existsb (occupies date time) l.
Proof.
  intros E. unfold activeBooked. rewrite E, existsb_app. simpl.
  unfold occupies, cancelled, Appointment.isActive. simpl.
  rewrite orb_false_r. reflexivity.
Qed.

(** The world after [book_appointment] has created an appointment. *)
Definition bookedWorld (w : World) (created : Appointment.t) : World :=
  mkWorld
    (mkStore (users (db w)) (appointments (db w) ++ [created])
             (callSessions (db w)) (toolCalls (db w)) (nextUserId (db w))
             (nextAppointmentId (db w) + 1) (nextToolCallId (db w)))
    (log w ++ [OpGetBookedSlots; OpCreateAppointment
                                   (Appointment.userId created)]).

Lemma book_appointment_creates args ctx w userId d t :
  identified ctx = Some userId ->
  Args.date args = Some d -> Args.time args = Some t ->
  inCatalog (Some d) (Some t) = true ->
  activeBooked (Some d) (Some t) (db w) = false ->
  exists text,
    executeToolCall "book_appointment" args ctx w =
    (Ok (mkOutcome text ctx false),
     bookedWorld w (Appointment.mk (nextAppointmentId (db w)) userId d t
                                   (Args.description args) "scheduled")).
Proof.
  intros Hid Hd Ht Hcat Hfree. rewrite executeToolCall_book_appointment.
  unfold book_appointment. rewrite Hid.
  rewrite Hd, Ht. fold (inCatalog (Some d) (Some t)). rewrite Hcat.
  unfold bind, storage.getBookedSlots, storageRead, storageCall.
  cbv beta iota zeta. rewrite booked_test, Hfree.
  unfold negb, ret, storage.createAppointment, storageCall, bookedWorld.
  cbv beta iota zeta. simpl db. simpl log.
  rewrite <- app_assoc. eexists. reflexivity.
Qed.

(** X7.  A booked slot is hidden until the booking is cancelled.  When an
    identified caller books a free slot of the catalog, [fetch_slots] no
    longer offers the slot; when the caller then cancels that appointment,
    [book_appointment] accepts the slot again, and the table holds the
    cancelled row and the new one. *)
Theorem booked_slot_is_free_again_after_cancel
        (args : Args.t) (ctx : ConversationContext.t) (w : World)
        (userId : Z) (d t : string) :
  identified ctx = Some userId ->
  appointmentIdsFresh (db w) ->
  Args.date args = Some d -> Args.time args = Some t ->
  inCatalog (Some d) (Some t) = true ->
  activeBooked (Some d) (Some t) (db w) = false ->
  let id := nextAppointmentId (db w) in
  let booked :=
    Appointment.mk id userId d t (Args.description args) "scheduled" in
  exists text1 w1 text2 w2 text3 w3,
    executeToolCall "book_appointment" args ctx w =
    (Ok (mkOutcome text1 ctx false), w1) /\
    (forall dateFilter, ~ In (mkSlot d t) (offeredSlots dateFilter (db w1))) /\
    executeToolCall "cancel_appointment" (cancelArgs id) ctx w1 =
    (Ok (mkOutcome text2 ctx false), w2) /\
    executeToolCall "book_appointment" args ctx w2 =
    (Ok (mkOutcome text3 ctx false), w3) /\
    appointments (db w3) =
    (appointments (db w) ++
     [cancelled booked;
      Appointment.mk (id + 1) userId d t (Args.description args)
                     "scheduled"])%list.
Proof.
  intros Hid [_ Hlt] Hd Ht Hcat Hfree id booked.
  destruct (book_appointment_creates args ctx w userId d t Hid Hd Ht Hcat
                                     Hfree) as (text1 & Hrun1).
  fold id in Hrun1. fold booked in Hrun1.
  set (w1 := bookedWorld w booked) in *.
  assert (Hfresh : Forall (fun x => Appointment.id x < Appointment.id booked)
                          (appointments (db w))) by exact Hlt.
  destruct (find_fresh_id _ booked Hfresh) as [Hfind Hupd].
  assert (Hrun2 : exists text2 w2,
             executeToolCall "cancel_appointment" (cancelArgs id) ctx w1 =
             (Ok (mkOutcome text2 ctx false), w2) /\
             appointments (db w2) =
             (appointments (db w) ++ [cancelled booked])%list /\
             nextAppointmentId (db w2) = id + 1).
  { rewrite executeToolCall_cancel_appointment.
    unfold cancel_appointment. rewrite Hid.
    unfold bind, ret, storage.getAppointment, storage.cancelAppointment,
      storageRead, storageCall.
    cbv beta iota zeta.
    change (storage.appointmentById (Args.appointment_id (cancelArgs id))
                                    (db w1))
      with (find (fun x => Appointment.id x =? Appointment.id booked)
                 (appointments (db w) ++ [booked])).
    rewrite Hfind. cbv beta iota zeta.
    change (Appointment.userId booked) with userId. rewrite Z.eqb_refl.
    change (Appointment.status booked =? "cancelled")%string with false.
    cbv beta iota zeta. simpl negb. cbv iota.
    do 2 eexists. split; [reflexivity|]. split; [|reflexivity].
    simpl. exact Hupd. }
  destruct Hrun2 as (text2 & w2 & Hrun2 & Happ2 & Hnext2).
  assert (Hfree2 : activeBooked (Some d) (Some t) (db w2) = false).
  { rewrite (activeBooked_snoc_cancelled _ _ _ _ _ Happ2). exact Hfree. }
  destruct (book_appointment_creates args ctx w2 userId d t Hid Hd Ht Hcat
                                     Hfree2) as (text3 & Hrun3).
  exists text1, w1, text2, w2, text3. eexists.
  split; [exact Hrun1|]. split.
  { intros dateFilter Hin. apply offeredSlots_free in Hin.
    destruct Hin as [_ Hno]. simpl in Hno.
    unfold activeBooked in Hno. simpl in Hno.
    rewrite existsb_app in Hno. simpl in Hno.
    unfold occupies, Appointment.isActive, Js.strictEq in Hno.
    simpl in Hno. rewrite !String.eqb_refl in Hno.
    rewrite orb_true_r in Hno. discriminate Hno. }
  split; [exact Hrun2|]. split; [exact Hrun3|].
  simpl. rewrite Happ2, Hnext2, <- app_assoc. reflexivity.
Qed.

Lemma booked_slot_is_free_again_witness :
  exists text1 w1 text2 w2 text3 w3,
    executeToolCall "book_appointment" (bookArgs "2026-01-28" "09:00 AM")
                    callerContext (mkWorld emptyStore []) =
    (Ok (mkOutcome text1 callerContext false), w1) /\
    (forall dateFilter,
        ~ In (mkSlot "2026-01-28" "09:00 AM")
             (offeredSlots dateFilter (db w1))) /\
    executeToolCall "cancel_appointment" (cancelArgs 1) callerContext w1 =
    (Ok (mkOutcome text2 callerContext false), w2) /\
    executeToolCall "book_appointment" (bookArgs "2026-01-28" "09:00 AM")
                    callerContext w2 =
    (Ok (mkOutcome text3 callerContext false), w3) /\
    appointments (db w3) =
    [ Appointment.mk 1 1 "2026-01-28" "09:00 AM" None "cancelled";
      Appointment.mk 2 1 "2026-01-28" "09:00 AM" None "scheduled" ].
Proof.
  apply (booked_slot_is_free_again_after_cancel
           (bookArgs "2026-01-28" "09:00 AM") callerContext
           (mkWorld emptyStore []) 1 "2026-01-28" "09:00 AM").
  - reflexivity.
  - split; constructor.
  - reflexivity.
  - reflexivity.
  - reflexivity.
  - reflexivity.
Defined.

(** *** Identification *)

Lemma substring_app (s : string) :
  forall i n m,
    substring i (n + m) s = substring i n s ++ substring (i + n) m s.
Proof.
  induction s as [|c s IH]; intros i n m.
  - destruct i, n, m; reflexivity.
  - destruct i as [|i].
    + destruct n as [|n]; [reflexivity|].
      simpl. rewrite (IH 0%nat n m). reflexivity.
    + simpl. apply IH.
Qed.

Lemma substring_whole (s : string) : substring 0 (String.length s) s = s.
Proof. induction s as [|c s IH]; simpl; [reflexivity|rewrite IH; reflexivity]. Qed.

Lemma filter_append (p : ascii -> bool) (a b : string) :
  Js.filter p (a ++ b) = Js.filter p a ++ Js.filter p b.
Proof.
  induction a as [|c a IH]; simpl; [reflexivity|].
  destruct (p c); simpl; rewrite IH; reflexivity.
Qed.

Lemma filter_all (p : ascii -> bool) (s : string) :
  Js.forallb p s = true -> Js.filter p s = s.
Proof.
  induction s as [|c s IH]; simpl; [reflexivity|].
  intros H. apply andb_true_iff in H. destruct H as [Hc Hs].
  rewrite Hc, (IH Hs). reflexivity.
Qed.

Lemma length_append (a b : string) :
  String.length (a ++ b) = (String.length a + String.length b)%nat.
Proof. induction a as [|c a IH]; simpl; [reflexivity|rewrite IH; reflexivity]. Qed.

Lemma forallb_append (p : ascii -> bool) (a b : string) :
  Js.forallb p (a ++ b) = Js.forallb p a && Js.forallb p b.
Proof.
  induction a as [|c a IH]; simpl; [reflexivity|].
  rewrite IH, andb_assoc. reflexivity.
Qed.

(** [formattedPhone] of [identify_user]. *)
Definition formattedPhone (digitsOnly : string) : string :=
  Js.slice 0 3 digitsOnly ++ "-" ++ Js.slice 3 6 digitsOnly ++ "-" ++
  Js.sliceFrom 6 digitsOnly.

(** The number read back holds the digits of the number, in order. *)
Lemma formattedPhone_digits (digitsOnly : string) :
  String.length digitsOnly = 10%nat ->
  Js.forallb Js.isDigit digitsOnly = true ->
  Js.stripNonDigits (formattedPhone digitsOnly) = digitsOnly /\
  String.length (formattedPhone digitsOnly) = 12%nat.
Proof.
  intros Hlen Hdig.
  assert (Hsplit : digitsOnly =
                   substring 0 3 digitsOnly ++ substring 3 3 digitsOnly ++
                   substring 6 4 digitsOnly).
  { pose proof (substring_app digitsOnly 0 3 7) as H1.
    pose proof (substring_app digitsOnly 3 3 4) as H2.
    simpl Nat.add in H1, H2. rewrite H2 in H1. rewrite <- H1, <- Hlen.
    symmetry. apply substring_whole. }
  unfold formattedPhone, Js.slice, Js.sliceFrom. rewrite Hlen.
  change (3 - 0)%nat with 3%nat. change (6 - 3)%nat with 3%nat.
  change (10 - 6)%nat with 4%nat.
  set (a := substring 0 3 digitsOnly) in *.
  set (b := substring 3 3 digitsOnly) in *.
  set (c := substring 6 4 digitsOnly) in *.
  rewrite Hsplit in Hdig, Hlen. rewrite !forallb_append in Hdig.
  apply andb_true_iff in Hdig. destruct Hdig as [Ha Hbc].
  apply andb_true_iff in Hbc. destruct Hbc as [Hb Hc].
  split.
  - unfold Js.stripNonDigits. rewrite !filter_append.
    rewrite (filter_all _ a Ha), (filter_all _ b Hb), (filter_all _ c Hc).
    change (Js.filter Js.isDigit "-") with "". simpl append.
    symmetry. exact Hsplit.
  - rewrite !length_append in *. simpl. lia.
Qed.

(** The context [identify_user] hands back. *)
Definition identifiedContext (ctx : ConversationContext.t) (user : User.t)
           (digitsOnly : string) : ConversationContext.t :=
  ConversationContext.mk (ConversationContext.sessionId ctx)
    (Some (User.id user)) (Some digitsOnly) (Js.orUndefined (User.name user))
    (ConversationContext.messages ctx).

(** The run of [identify_user] on a number of ten digits. *)
Lemma identify_user_run args ctx w phone :
  Args.phone_number args = Some phone ->
  String.length (Js.stripNonDigits phone) = 10%nat ->
  let digits := Js.stripNonDigits phone in
  let user :=
    match find (byPhone digits) (users (db w)) with
    | Some known => known
    | None => User.mk (nextUserId (db w)) digits None
    end in
  exists text w1,
    executeToolCall "identify_user" args ctx w =
    (Ok (mkOutcome
           ("Just to confirm, your phone number is " ++
            formattedPhone digits ++ text)
           (identifiedContext ctx user digits) false),
     snd (storage.updateCallSession (ConversationContext.sessionId ctx)
                                    (User.id user) digits w1)) /\
    appointments (db w1) = appointments (db w) /\
    callSessions (db w1) = callSessions (db w) /\
    users (db w1) =
    match find (byPhone digits) (users (db w)) with
    | Some _ => users (db w)
    | None => (users (db w) ++ [user])%list
    end.
Proof.
  intros Hp Hlen digits user.
  rewrite executeToolCall_identify_user. unfold identify_user.
  rewrite Hp. cbv zeta. rewrite Hlen. fold digits.
  change (10 <? 10)%nat with false. cbv iota.
  unfold bind at 1.
  unfold storage.getUserByPhoneNumber, storageRead, storageCall.
  cbv beta iota zeta. simpl db.
  fold (byPhone digits). fold (formattedPhone digits).
  subst user.
  destruct (find (byPhone digits) (users (db w))) as [known|].
  - unfold bind, ret, storage.getAppointmentsByUser, storageRead,
      storageCall.
    cbv beta iota zeta.
    do 2 eexists. split; [reflexivity|].
    split; [reflexivity|]. split; reflexivity.
  - unfold bind, ret, storage.createUser, storageCall.
    cbv beta iota zeta.
    do 2 eexists. split; [reflexivity|].
    split; [reflexivity|]. split; reflexivity.
Qed.

(** X8.  [identify_user] on a number of ten digits finds the user with
    those digits or creates it, and registers it once.  The text reads the
    number back in groups of 3, 3 and 4 digits, which are the digits
    stored; the context handed back carries the id of the user and the
    digits; the user is the one the table had for the digits, or a new
    row, without name, at the end of the table; no appointment changes;
    the row of the session, when there is one, is linked to the user and
    the digits; and a second call with the same number finds the same
    user and adds no row. *)
Theorem identify_user_registers_once
        (args : Args.t) (ctx : ConversationContext.t) (w : World)
        (phone : string) :
  Args.phone_number args = Some phone ->
  String.length (Js.stripNonDigits phone) = 10%nat ->
  let digits := Js.stripNonDigits phone in
  let sessionId := ConversationContext.sessionId ctx in
  exists text user w',
    executeToolCall "identify_user" args ctx w =
    (Ok (mkOutcome
           ("Just to confirm, your phone number is " ++
            formattedPhone digits ++ text)
           (identifiedContext ctx user digits) false),
     w') /\
    Js.stripNonDigits (formattedPhone digits) = digits /\
    find (byPhone digits) (users (db w')) = Some user /\
    match find (byPhone digits) (users (db w)) with
    | Some known => user = known /\ users (db w') = users (db w)
    | None =>
        user = User.mk (nextUserId (db w)) digits None /\
        users (db w') = (users (db w) ++ [user])%list
    end /\
    appointments (db w') = appointments (db w) /\
    (forall row,
        sessionRow sessionId (db w) = Some row ->
        exists row',
          sessionRow sessionId (db w') = Some row' /\
          CallSession.userId row' = Some (User.id user) /\
          CallSession.phoneNumber row' = Some digits /\
          CallSession.status row' = CallSession.status row) /\
    exists text' w'',
      executeToolCall "identify_user" args (identifiedContext ctx user digits)
                      w' =
      (Ok (mkOutcome
             ("Just to confirm, your phone number is " ++
              formattedPhone digits ++ text')
             (identifiedContext ctx user digits) false),
       w'') /\
      users (db w'') = users (db w').
Proof.
  intros Hp Hlen digits sessionId.
  destruct (identify_user_run args ctx w phone Hp Hlen)
    as (text & w1 & Hrun & Happ & Hsess & Husers).
  cbv zeta in Hrun, Husers. fold digits in Hrun, Husers.
  set (user := match find (byPhone digits) (users (db w)) with
               | Some known => known
               | None => User.mk (nextUserId (db w)) digits None
               end) in *.
  set (w' := snd (storage.updateCallSession
                    (ConversationContext.sessionId ctx) (User.id user) digits
                    w1)) in *.
  assert (Hu' : users (db w') = users (db w1)) by reflexivity.
  assert (Hfind' : find (byPhone digits) (users (db w')) = Some user).
  { rewrite Hu', Husers. subst user.
    destruct (find (byPhone digits) (users (db w))) as [known|] eqn:Hfind.
    - exact Hfind.
    - apply find_snoc_none; [exact Hfind|].
      unfold byPhone. simpl. apply String.eqb_refl. }
  exists text, user, w'.
  split; [exact Hrun|].
  split.
  { apply formattedPhone_digits; [exact Hlen|apply stripNonDigits_digits]. }
  split; [exact Hfind'|].
  split.
  { rewrite Hu', Husers. subst user.
    destruct (find (byPhone digits) (users (db w))); split; reflexivity. }
  split; [exact Happ|].
  split.
  { intros row Hrow. unfold sessionRow in *. subst w'.
    unfold storage.updateCallSession, storageCall. simpl.
    rewrite find_updateWhere by (intros r H; exact H).
    rewrite Hsess. fold sessionId. rewrite Hrow. simpl.
    eexists. split; [reflexivity|]. repeat split; reflexivity. }
  destruct (identify_user_run args (identifiedContext ctx user digits) w'
                              phone Hp Hlen)
    as (text' & w2 & Hrun' & _ & _ & Husers').
  cbv zeta in Hrun', Husers'. fold digits in Hrun', Husers'.
  rewrite Hfind' in Hrun', Husers'.
  exists text'. eexists. split; [exact Hrun'|].
  simpl. exact Husers'.
Qed.

Lemma identify_user_registers_witness :
  exists text user w',
    executeToolCall "identify_user" (identifyArgs "555-123-4567")
                    (sessionContext 1) summaryWorld =
    (Ok (mkOutcome
           ("Just to confirm, your phone number is 555-123-4567" ++ text)
           (identifiedContext (sessionContext 1) user "5551234567") false),
     w') /\
    user = User.mk 1 "5551234567" None /\
    users (db w') = users (db summaryWorld).
Proof.
  destruct (identify_user_registers_once
              (identifyArgs "555-123-4567") (sessionContext 1) summaryWorld
              "555-123-4567" eq_refl eq_refl)
    as (text & user & w' & Hrun & _ & _ & Hknown & _).
  exists text, user, w'. split; [exact Hrun|exact Hknown].
Defined.

(** ** Further properties of the Call Summarizer *)

(** *** Normal forms of times *)

Lemma matchAfterHour_shape rest min period :
  matchAfterHour rest = Some (min, period) ->
  exists m1 m2,
    min = String m1 (String m2 EmptyString) /\
    Js.isDigit m1 = true /\ Js.isDigit m2 = true /\
    (period = "" \/ isPeriod period = true).
Proof.
  unfold matchAfterHour.
  destruct rest as [|c [|m1 [|m2 tail]]];
    try (destruct c as [[] [] [] [] [] [] [] []]; discriminate);
    try discriminate.
  destruct c as [[] [] [] [] [] [] [] []]; try discriminate.
  destruct (Js.isDigit m1) eqn:H1; [|discriminate].
  destruct (Js.isDigit m2) eqn:H2; [|discriminate].
  simpl. destruct (Js.trimStart tail =? "")%string eqn:He; simpl.
  - intros H. inversion H; subst. exists m1, m2.
    apply String.eqb_eq in He. auto.
  - destruct (isPeriod (Js.trimStart tail)) eqn:Hp; [|discriminate].
    intros H. inversion H; subst. exists m1, m2. auto.
Qed.

(** The hour of a match, padded, is two digits. *)
Lemma matchTime_shape time hour min period :
  matchTime time = Some (hour, min, period) ->
  exists h1 h2 m1 m2,
    padStart2 hour = String h1 (String h2 EmptyString) /\
    min = String m1 (String m2 EmptyString) /\
    Js.isDigit h1 = true /\ Js.isDigit h2 = true /\
    Js.isDigit m1 = true /\ Js.isDigit m2 = true /\
    (period = "" \/ isPeriod period = true).
Proof.
  unfold matchTime. destruct time as [|d1 [|d2 rest']]; try discriminate.
  - destruct (Js.isDigit d1); discriminate.
  - destruct (Js.isDigit d1) eqn:Hd1; [|discriminate].
    destruct (Js.isDigit d2) eqn:Hd2.
    + destruct (matchAfterHour rest') as [[m p]|] eqn:Hm; [|discriminate].
      simpl. intros H. inversion H; subst.
      destruct (matchAfterHour_shape _ _ _ Hm) as (m1 & m2 & -> & H1 & H2 & Hp).
      exists d1, d2, m1, m2. repeat split; auto.
    + destruct (matchAfterHour (String d2 rest')) as [[m p]|] eqn:Hm;
        [|discriminate].
      simpl. intros H. inversion H; subst.
      destruct (matchAfterHour_shape _ _ _ Hm) as (m1 & m2 & -> & H1 & H2 & Hp).
      exists "0"%char, d1, m1, m2. repeat split; auto.
Qed.

Lemma upperChar_idempotent c : Js.upperChar (Js.upperChar c) = Js.upperChar c.
Proof. destruct c as [[] [] [] [] [] [] [] []]; reflexivity. Qed.

(** A time without marker in normal form. *)
Lemma normalizeTime_plain h1 h2 m1 m2 :
  Js.isDigit h1 = true -> Js.isDigit h2 = true ->
  Js.isDigit m1 = true -> Js.isDigit m2 = true ->
  Js.trim (String h1 (String h2 (String ":" (String m1 (String m2 " "))))) =
  String h1 (String h2 (String ":" (String m1 (String m2 "")))) /\
  normalizeTime (String h1 (String h2 (String ":" (String m1 (String m2 ""))))) =
  String h1 (String h2 (String ":" (String m1 (String m2 "")))).
Proof.
  intros Hh1 Hh2 H1 H2.
  assert (Htrim : Js.trim (String h1 (String h2 (String ":"
                    (String m1 (String m2 " "))))) =
                  String h1 (String h2 (String ":" (String m1 (String m2 ""))))).
  { unfold Js.trim, Js.trimStart.
    rewrite (isDigit_not_space h1 Hh1).
    change (String h1 (String h2 (String ":" (String m1 (String m2 " ")))))
      with (String h1 (String h2 (String ":" (String m1 EmptyString))) ++
            String m2 " ").
    assert (Hend : forall s, Js.trimEnd (s ++ String m2 " ") =
                             s ++ String m2 "").
    { induction s as [|x s IH]; simpl.
      - rewrite (isDigit_not_space m2 H2). reflexivity.
      - rewrite IH. destruct s; reflexivity. }
    apply Hend. }
  split; [exact Htrim|].
  unfold normalizeTime, matchTime. rewrite Hh1, Hh2.
  unfold matchAfterHour. rewrite H1, H2. simpl andb. cbv iota.
  change (Js.trimStart "") with "". change ("" =? "")%string with true.
  simpl orb. cbv iota. unfold option_map, fst, snd, padStart2.
  exact Htrim.
Qed.

(** X9.  A time the pattern of [normalizeTime] matches is put in the form
    HH:MM, HH:MM AM or HH:MM PM, and that form is kept when it is
    normalized again: it is the form under which a stored time and an
    extracted time are compared. *)
Theorem normalizeTime_normal_form
        (time hour min period : string) :
  matchTime time = Some (hour, min, period) ->
  exists h1 h2 m1 m2 marker,
    Js.isDigit h1 = true /\ Js.isDigit h2 = true /\
    Js.isDigit m1 = true /\ Js.isDigit m2 = true /\
    (marker = "" \/ marker = " AM" \/ marker = " PM") /\
    normalizeTime time =
    String h1 (String h2 (String ":" (String m1 (String m2 marker)))) /\
    normalizeTime (normalizeTime time) = normalizeTime time.
Proof.
  intros Hm.
  destruct (matchTime_shape _ _ _ _ Hm)
    as (h1 & h2 & m1 & m2 & Hh & -> & Hh1 & Hh2 & H1 & H2 & Hp).
  exists h1, h2, m1, m2.
  assert (Hnt : normalizeTime time =
                Js.trim (String h1 (String h2 "") ++ ":" ++
                         String m1 (String m2 "") ++ " " ++
                         Js.toUpperCase period)).
  { unfold normalizeTime. rewrite Hm, Hh. reflexivity. }
  rewrite Hnt. clear Hnt Hm Hh.
  destruct Hp as [->|Hp].
  - exists "".
    destruct (normalizeTime_plain h1 h2 m1 m2 Hh1 Hh2 H1 H2) as [Ht Hn].
    change (String h1 (String h2 "") ++ ":" ++ String m1 (String m2 "") ++
            " " ++ Js.toUpperCase "")
      with (String h1 (String h2 (String ":" (String m1 (String m2 " "))))).
    rewrite Ht, Hn. repeat split; auto.
  - destruct (isPeriod_shape period Hp) as (a & m & -> & Ha & Hup).
    rewrite Hup.
    assert (HA : Js.upperChar a = "A"%char \/ Js.upperChar a = "P"%char).
    { simpl in Hp. apply andb_true_iff in Hp. destruct Hp as [Hp _].
      apply orb_true_iff in Hp.
      destruct Hp as [Hp|Hp]; apply Ascii.eqb_eq in Hp; auto. }
    exists (String " " (String (Js.upperChar a) "M")).
    change (String h1 (String h2 "") ++ ":" ++ String m1 (String m2 "") ++
            " " ++ String (Js.upperChar a) "M")
      with (String h1
              (String h2 (String ":" (String m1 (String m2
                 (String " " (String (Js.upperChar a) EmptyString)))))
               ++ String "M" EmptyString)).
    rewrite trim_kept by
      (first [apply isDigit_not_space; exact Hh1|reflexivity]).
    change (String h1
              (String h2 (String ":" (String m1 (String m2
                 (String " " (String (Js.upperChar a) EmptyString)))))
               ++ String "M" EmptyString))
      with (String h1 (String h2 (String ":" (String m1 (String m2
              (" " ++ String (Js.upperChar a) "M")))))).
    assert (Hper : isPeriod (String (Js.upperChar a) "M") = true).
    { simpl. rewrite upperChar_idempotent.
      destruct HA as [->| ->]; reflexivity. }
    rewrite (normalizeTime_two_digits h1 h2 m1 m2 " "
               (String (Js.upperChar a) "M") Hh1 Hh2 H1 H2 eq_refl Hper).
    change (Js.toUpperCase (String (Js.upperChar a) "M"))
      with (String (Js.upperChar (Js.upperChar a)) "M").
    rewrite upperChar_idempotent.
    repeat split; auto.
    destruct HA as [->| ->]; auto.
Qed.

Lemma normalizeTime_normal_form_witness :
  exists h1 h2 m1 m2 marker,
    Js.isDigit h1 = true /\ Js.isDigit h2 = true /\
    Js.isDigit m1 = true /\ Js.isDigit m2 = true /\
    (marker = "" \/ marker = " AM" \/ marker = " PM") /\
    normalizeTime "9:05   pm" =
    String h1 (String h2 (String ":" (String m1 (String m2 marker)))) /\
    normalizeTime (normalizeTime "9:05   pm") = normalizeTime "9:05   pm".
Proof.
  apply (normalizeTime_normal_form "9:05   pm" "9" "05" "pm").
  reflexivity.
Defined.

(** *** Every run ends the session *)

(** The row [endCallSession] writes over the row [c]. *)
Definition endedRow (summary : string) (payload : CallSummary.t)
           (transcript : option string) (c : CallSession.t)
  : CallSession.t :=
  CallSession.mk (CallSession.id c) (CallSession.userId c)
    (CallSession.phoneNumber c) "ended"
    (match transcript with
     | Some t => Some t
     | None => CallSession.transcript c
     end)
    (Some summary) (Some (CallSummary.appointments payload))
    (Some (CallSummary.userPreferences payload)).

(** The session table after the run of a closing step. *)
Definition closedBy {A} (sessionId : Z) (transcript : option string)
           (m : M A) (payloadOf : A -> CallSummary.t) : Prop :=
  forall w,
    exists a final summary,
      m w = (Ok a, final) /\
      In (OpEndCallSession sessionId) (log final) /\
      callSessions (db final) =
      storage.updateWhere (fun c => CallSession.id c =? sessionId)
        (endedRow summary (payloadOf a) transcript) (callSessions (db w)).

Lemma fallback_closedBy sessionId transcript session user :
  closedBy sessionId transcript
           (fallback sessionId transcript session user) (fun p => p).
Proof.
  intros w. rewrite fallback_run. do 3 eexists.
  split; [reflexivity|]. split.
  - simpl. apply in_or_app. right. left. reflexivity.
  - reflexivity.
Qed.

Lemma finalize_closedBy sessionId transcript user d phone name n :
  closedBy sessionId transcript
           (finalize sessionId transcript user d phone name n) (fun p => p).
Proof.
  intros w. unfold finalize, currentAppointments, bind, ret,
    storage.getAppointmentsByUser, storage.endCallSession, storageRead,
    storageCall.
  destruct user as [u|]; cbv beta iota zeta; do 3 eexists;
    (split; [reflexivity|]); (split; [|reflexivity]);
    simpl; apply in_or_app; right; left; reflexivity.
Qed.

(** Every run closes the session table over the rows it had. *)
Lemma generateCallSummary_closes llm sessionId transcript w :
  exists payload final summary,
    generateCallSummary llm sessionId transcript w = (Ok payload, final) /\
    In (OpEndCallSession sessionId) (log final) /\
    callSessions (db final) =
    storage.updateWhere (fun c => CallSession.id c =? sessionId)
      (endedRow summary payload transcript) (callSessions (db w)).
Proof.
  destruct (generateCallSummary_phases llm sessionId transcript w)
    as (w0 & Hdb & Hph).
  cbv zeta in Hph.
  assert (Hclose : forall (m : M CallSummary.t) wx,
             closedBy sessionId transcript m (fun p => p) ->
             callSessions (db wx) = callSessions (db w) ->
             generateCallSummary llm sessionId transcript w = m wx ->
             exists payload final summary,
               generateCallSummary llm sessionId transcript w =
               (Ok payload, final) /\
               In (OpEndCallSession sessionId) (log final) /\
               callSessions (db final) =
               storage.updateWhere (fun c => CallSession.id c =? sessionId)
                 (endedRow summary payload transcript) (callSessions (db w))).
  { intros m wx Hm Hs Hrun.
    destruct (Hm wx) as (payload & final & summary & Hr & Hlog & Hrows).
    exists payload, final, summary. rewrite Hrun, <- Hs. auto. }
  assert (Hs0 : callSessions (db w0) = callSessions (db w))
    by (rewrite Hdb; reflexivity).
  destruct (dataOf llm) as [d|];
    [|eapply Hclose; [apply fallback_closedBy|exact Hs0|exact Hph]].
  destruct (extractedPhoneOf d _) as [phone|];
    [|eapply Hclose; [apply fallback_closedBy|exact Hs0|exact Hph]].
  destruct Hph as (u1 & w1 & r2 & w2 & Hres & Happ & Hrun).
  assert (Hs2 : callSessions (db w2) = callSessions (db w)).
  { apply sameSessions_resolveUser in Hres.
    apply sameSessions_applyRequests in Happ.
    unfold sameSessions in *. congruence. }
  destruct r2 as [n|e].
  - eapply Hclose; [apply finalize_closedBy|exact Hs2|exact Hrun].
  - eapply Hclose; [apply fallback_closedBy|exact Hs2|exact Hrun].
Qed.

(** X10.  Every run of the Call Summarizer returns a summary and ends the
    session, whatever the model call yields and whether or not the session
    exists.  The row of the session, when there is one, gets the status
    [ended], a summary, the appointments and the preferences of the
    returned summary, and the transcript when one was passed; its link to
    the user and its phone number stay; the rows of the other sessions are
    not touched. *)
Theorem generateCallSummary_always_ends_the_session
        (llm : Extraction) (sessionId : Z) (transcript : option string)
        (w : World) :
  exists payload final,
    generateCallSummary llm sessionId transcript w = (Ok payload, final) /\
    In (OpEndCallSession sessionId) (log final) /\
    (exists summary,
        sessionRow sessionId (db final) =
        option_map (endedRow summary payload transcript)
                   (sessionRow sessionId (db w))) /\
    (forall other,
        other <> sessionId ->
        sessionRow other (db final) = sessionRow other (db w)).
Proof.
  destruct (generateCallSummary_closes llm sessionId transcript w)
    as (payload & final & summary & Hrun & Hlog & Hrows).
  exists payload, final. split; [exact Hrun|]. split; [exact Hlog|].
  unfold sessionRow. rewrite Hrows. split.
  - exists summary. apply find_updateWhere. intros r H. exact H.
  - intros other Hother.
    rewrite find_updateWhere_any by (intros r; reflexivity).
    destruct (find _ (callSessions (db w))) as [r|] eqn:Hfind;
      [|reflexivity].
    apply find_some in Hfind. destruct Hfind as [_ Hid].
    apply Z.eqb_eq in Hid. simpl.
    destruct (CallSession.id r =? sessionId) eqn:E; [|reflexivity].
    apply Z.eqb_eq in E. congruence.
Qed.

(** *** What a run keeps of the records *)

(** An appointment as it was, or cancelled. *)
Definition onlyCancelled (a a' : Appointment.t) : Prop :=
  a' = a \/ a' = cancelled a.

(** The status of a row the summarizer has added: [pending], or
    [cancelled] when a cancellation request of the same run matched it. *)
Definition addedBySummary (a : Appointment.t) : Prop :=
  Appointment.status a = "pending" \/ Appointment.status a = "cancelled".

Definition sameUser (u u' : User.t) : Prop :=
  User.id u' = User.id u /\ User.phoneNumber u' = User.phoneNumber u.

(** The rows of the two tables stay, in order: an appointment as it was or
    cancelled, a user with its id and phone number; rows may be added at
    the end. *)
Definition keepsRecords (w w' : World) : Prop :=
  (exists g added,
      appointments (db w') =
      (List.map g (appointments (db w)) ++ added)%list /\
      (forall a, onlyCancelled a (g a)) /\
      Forall addedBySummary added) /\
  (exists h addedUsers,
      users (db w') = (List.map h (users (db w)) ++ addedUsers)%list /\
      forall u, sameUser u (h u)).

Lemma keepsRecords_same w w' :
  appointments (db w') = appointments (db w) ->
  users (db w') = users (db w) ->
  keepsRecords w w'.
Proof.
  intros Ha Hu. split.
  - exists (fun a => a), []. rewrite Ha, map_id, app_nil_r.
    split; [reflexivity|]. split; [left; reflexivity|constructor].
  - exists (fun u => u), []. rewrite Hu, map_id, app_nil_r.
    split; [reflexivity|]. split; reflexivity.
Qed.

Lemma keepsRecords_refl w : keepsRecords w w.
Proof. apply keepsRecords_same; reflexivity. Qed.

Lemma keepsRecords_trans a b c :
  keepsRecords a b -> keepsRecords b c -> keepsRecords a c.
Proof.
  intros [(g1 & n1 & Ha1 & Hg1 & Hn1) (h1 & u1 & Hu1 & Hh1)]
         [(g2 & n2 & Ha2 & Hg2 & Hn2) (h2 & u2 & Hu2 & Hh2)].
  split.
  - exists (fun x => g2 (g1 x)), (List.map g2 n1 ++ n2)%list.
    rewrite Ha2, Ha1, map_app, map_map, <- app_assoc.
    split; [reflexivity|]. split.
    + intros x. destruct (Hg1 x) as [E1|E1], (Hg2 (g1 x)) as [E2|E2];
        rewrite E2, E1; unfold onlyCancelled; auto.
    + apply Forall_app. split; [|exact Hn2].
      rewrite Forall_forall in *. intros x Hx.
      apply in_map_iff in Hx. destruct Hx as (y & <- & Hy).
      destruct (Hg2 y) as [E|E]; rewrite E;
        [apply Hn1; exact Hy|right; reflexivity].
  - exists (fun x => h2 (h1 x)), (List.map h2 u1 ++ u2)%list.
    rewrite Hu2, Hu1, map_app, map_map, <- app_assoc.
    split; [reflexivity|]. intros u.
    destruct (Hh1 u) as [E1 E2], (Hh2 (h1 u)) as [E3 E4].
    split; congruence.
Qed.

Lemma keeps_records_read {A} (op : StoreOp) (f : Store -> A) :
  keeps keepsRecords (storageRead op f).
Proof.
  apply keeps_storageCall. intros w. apply keepsRecords_same; reflexivity.
Qed.

Lemma keeps_records_createUser phone name :
  keeps keepsRecords (storage.createUser phone name).
Proof.
  apply keeps_storageCall. intros w. split.
  - exists (fun a => a), []. simpl. rewrite map_id, app_nil_r.
    split; [reflexivity|]. split; [left; reflexivity|constructor].
  - exists (fun u => u). eexists. simpl. rewrite map_id.
    split; [reflexivity|]. split; reflexivity.
Qed.

Lemma keeps_records_updateUser id name :
  keeps keepsRecords (storage.updateUser id name).
Proof.
  apply keeps_storageCall. intros w. split.
  - exists (fun a => a), []. simpl. rewrite map_id, app_nil_r.
    split; [reflexivity|]. split; [left; reflexivity|constructor].
  - exists (fun u => if User.id u =? id then User.setName (Some name) u
                     else u), [].
    simpl. rewrite app_nil_r. split; [reflexivity|].
    intros u. destruct (User.id u =? id); split; reflexivity.
Qed.

Lemma keeps_records_createPending userId date time description :
  keeps keepsRecords
        (storage.createAppointment userId date time description "pending").
Proof.
  apply keeps_storageCall. intros w. split.
  - exists (fun a => a). eexists. simpl. rewrite map_id.
    split; [reflexivity|]. split; [left; reflexivity|].
    constructor; [left; reflexivity|constructor].
  - exists (fun u => u), []. simpl. rewrite map_id, app_nil_r.
    split; [reflexivity|]. split; reflexivity.
Qed.

Lemma keeps_records_cancel id :
  keeps keepsRecords
        (storage.updateAppointment id
           (storage.mkPatch None None (Some "cancelled"))).
Proof.
  apply keeps_storageCall. intros w. split.
  - exists (fun a => if Appointment.id a =? id then cancelled a else a), [].
    simpl. rewrite app_nil_r. split; [reflexivity|].
    split; [|constructor].
    intros a. destruct (Appointment.id a =? id);
      [right|left]; reflexivity.
  - exists (fun u => u), []. simpl. rewrite map_id, app_nil_r.
    split; [reflexivity|]. split; reflexivity.
Qed.

Lemma keeps_records_endCallSession sessionId summary views prefs transcript :
  keeps keepsRecords
        (storage.endCallSession sessionId summary views prefs transcript).
Proof.
  apply keeps_storageCall. intros w. apply keepsRecords_same; reflexivity.
Qed.

Ltac keeps_records :=
  repeat first
    [ apply keeps_ret; exact keepsRecords_refl
    | apply keeps_throw; exact keepsRecords_refl
    | apply keeps_records_read
    | apply keeps_records_createUser
    | apply keeps_records_updateUser
    | apply keeps_records_createPending
    | apply keeps_records_cancel
    | apply keeps_records_endCallSession
    | apply keeps_bind; [exact keepsRecords_trans| |intros]
    | apply keeps_tryStep; [exact keepsRecords_trans| | |intros]
    | match goal with
      | |- keeps _ (match ?x with _ => _ end) => destruct x
      | |- keeps _ (if ?b then _ else _) => destruct b
      end ].

Lemma keeps_records_bookingLoop userId requests :
  forall existing n,
    keeps keepsRecords (bookingLoop userId requests existing n).
Proof.
  induction requests as [|[q|] requests IH]; intros existing n; simpl.
  - keeps_records.
  - destruct (_ && _); [|apply IH].
    destruct (isDuplicate _ _ _); [apply IH|].
    apply keeps_bind; [exact keepsRecords_trans| |intros; apply IH].
    apply keeps_records_createPending.
  - keeps_records.
Qed.

Lemma keeps_records_cancellationLoop requests userAppts :
  keeps keepsRecords (cancellationLoop requests userAppts).
Proof.
  induction requests as [|[c|] requests IH]; simpl.
  - keeps_records.
  - destruct (matchingAppt c userAppts); [|exact IH].
    apply keeps_bind; [exact keepsRecords_trans| |intros; exact IH].
    apply keeps_records_cancel.
  - keeps_records.
Qed.

(** X11.  A run of the Call Summarizer deletes no appointment and no user
    and moves none: the rows the tables had are still there, in order; an
    appointment is as it was or cancelled, with its id, owner, date, time
    and description; a user has its id and phone number; the rows the run
    has added come after them, and an added appointment is [pending], or
    [cancelled] by the same run. *)
Theorem generateCallSummary_keeps_records
        (llm : Extraction) (sessionId : Z) (transcript : option string)
        (w w' : World) (r : Result CallSummary.t) :
  generateCallSummary llm sessionId transcript w = (r, w') ->
  keepsRecords w w'.
Proof.
  revert w r w'.
  change (keeps keepsRecords (generateCallSummary llm sessionId transcript)).
  unfold generateCallSummary.
  apply keeps_bind; [exact keepsRecords_trans| |].
  { unfold loadSession, sessionUser, storage.getCallSession,
      storage.getToolCallsBySession, storage.getUser.
    keeps_records. }
  intros [session user].
  assert (Hcatch : forall u, keeps keepsRecords
                               (fallback sessionId transcript session u)).
  { intros u. unfold fallback, currentAppointments,
      storage.getAppointmentsByUser. keeps_records. }
  apply keeps_tryStep; [exact keepsRecords_trans| |apply Hcatch|].
  { unfold extract. keeps_records. }
  intros [[extractedData extractedPhone] extractedName].
  apply keeps_tryStep; [exact keepsRecords_trans| |apply Hcatch|].
  { unfold resolveUser, fillName, storage.getUserByPhoneNumber.
    keeps_records. }
  intros user'.
  apply keeps_tryStep; [exact keepsRecords_trans| |apply Hcatch|].
  { unfold applyExtraction.
    apply keeps_bind; [exact keepsRecords_trans| |].
    - unfold applyRequests, storage.getAppointmentsByUser.
      apply keeps_bind; [exact keepsRecords_trans| |intros existing].
      { keeps_records. }
      apply keeps_bind; [exact keepsRecords_trans| |intros booked].
      { destruct user'; [|keeps_records].
        destruct (nonEmpty _); [apply keeps_records_bookingLoop|].
        keeps_records. }
      apply keeps_bind; [exact keepsRecords_trans| |intros; keeps_records].
      destruct user'; [|keeps_records].
      destruct (nonEmpty _); [|keeps_records].
      apply keeps_bind; [exact keepsRecords_trans| |intros].
      { keeps_records. }
      apply keeps_records_cancellationLoop.
    - intros n. unfold finalize, currentAppointments,
        storage.getAppointmentsByUser. keeps_records. }
  intros payload. keeps_records.
Qed.

(** The run that books and cancels in one call: appointment 1 is added,
    cancelled. *)
Lemma generateCallSummary_keeps_records_witness :
  keepsRecords summaryWorld
    (snd (generateCallSummary bookedThenCancelled 1 None summaryWorld)).
Proof.
  apply (generateCallSummary_keeps_records
           bookedThenCancelled 1 None summaryWorld _
           (fst (generateCallSummary bookedThenCancelled 1 None
                                     summaryWorld))).
  apply surjective_pairing.
Defined.

(** *** A call without caller *)

(** X12.  When the session is linked to no user and the phone number the
    run arrives at (the extracted one, else that of the session) is
    missing or shorter than ten characters, the Call Summarizer applies
    nothing, whatever requests the model extracted: the run returns, no
    user and no appointment is created or changed, and the summary lists
    no appointment. *)
Theorem generateCallSummary_without_caller_applies_nothing
        (llm : Extraction) (sessionId : Z) (transcript : option string)
        (w : World) :
  linkedUser (sessionRow sessionId (db w)) (db w) = None ->
  (forall d phone,
      dataOf llm = Some d ->
      extractedPhoneOf d (sessionPhone (sessionRow sessionId (db w))) =
      Some phone ->
      phoneUsable phone = false) ->
  exists payload final,
    generateCallSummary llm sessionId transcript w = (Ok payload, final) /\
    users (db final) = users (db w) /\
    appointments (db final) = appointments (db w) /\
    CallSummary.appointments payload = [] /\
    (CallSummary.newAppointmentsCreated payload = Some 0 \/
     CallSummary.newAppointmentsCreated payload = None).
Proof.
  intros Hlink Hphone.
  destruct (generateCallSummary_phases llm sessionId transcript w)
    as (w0 & Hdb & Hph).
  cbv zeta in Hph. rewrite Hlink in Hph.
  assert (Hfb : forall wx,
             db wx = db w ->
             generateCallSummary llm sessionId transcript w =
             fallback sessionId transcript (sessionRow sessionId (db w))
                      None wx ->
             exists payload final,
               generateCallSummary llm sessionId transcript w =
               (Ok payload, final) /\
               users (db final) = users (db w) /\
               appointments (db final) = appointments (db w) /\
               CallSummary.appointments payload = [] /\
               (CallSummary.newAppointmentsCreated payload = Some 0 \/
                CallSummary.newAppointmentsCreated payload = None)).
  { intros wx Hx Hrun. rewrite Hrun, fallback_run.
    do 2 eexists. split; [reflexivity|]. simpl. rewrite Hx. auto. }
  destruct (dataOf llm) as [d|] eqn:Hd; [|apply (Hfb w0 Hdb Hph)].
  destruct (extractedPhoneOf d _) as [phone|] eqn:He;
    [|apply (Hfb w0 Hdb Hph)].
  specialize (Hphone d phone eq_refl He).
  destruct Hph as (u1 & w1 & r2 & w2 & Hres & Happ & Hrun).
  destruct (resolveUser_run None phone
              (Js.orElse (ExtractedData.userName d) (userNameOf None)) w0)
    as (u1' & w1' & Hres' & [Hb _] & Hnone).
  rewrite Hres in Hres'. inversion Hres'; subst u1' w1'. clear Hres'.
  rewrite Hphone in Hnone. destruct Hnone as [Hu ->].
  rewrite applyRequests_nobody in Happ. inversion Happ; subst r2 w2.
  rewrite Hrun. unfold finalize, currentAppointments, bind, ret,
    storage.endCallSession, storageCall. cbv beta iota zeta.
  do 2 eexists. split; [reflexivity|]. simpl.
  rewrite Hu, Hb, Hdb. auto.
Qed.

(** Session 3 is linked to nobody and has no phone number; the model
    extracted a booking and a number of seven digits. *)
Definition anonymousWorld : World :=
  mkWorld
    (mkStore [User.mk 1 "5551234567" None] []
             [CallSession.mk 3 None None "active" None None None None]
             [] 2 1 1)
    [].

Definition shortNumberExtraction : Extraction :=
  JsonObject
    (ExtractedData.mk (Some "Ada") (JString "555-1234")
       (Some [Some (ApptRequest.mk (Some "2026-01-28") (Some "9:00 AM") None)])
       None (Some "Asked for a booking.") None).

Lemma generateCallSummary_without_caller_witness :
  exists payload final,
    generateCallSummary shortNumberExtraction 3 None anonymousWorld =
    (Ok payload, final) /\
    users (db final) = users (db anonymousWorld) /\
    appointments (db final) = [] /\
    CallSummary.appointments payload = [] /\
    (CallSummary.newAppointmentsCreated payload = Some 0 \/
     CallSummary.newAppointmentsCreated payload = None).
Proof.
  apply (generateCallSummary_without_caller_applies_nothing
           shortNumberExtraction 3 None anonymousWorld).
  - reflexivity.
  - intros d phone Hd He. inversion Hd; subst d.
    vm_compute in He. inversion He; subst phone. reflexivity.
Defined.

(** *** Phone numbers stay unique *)

(** The unique constraint of [users.phone_number]. *)
Definition uniquePhones (s : Store) : Prop :=
  NoDup (List.map User.phoneNumber (users s)).

Lemma find_byPhone_none phone (l : list User.t) :
  find (byPhone phone) l = None ->
  ~ In phone (List.map User.phoneNumber l).
Proof.
  intros Hfind Hin. apply in_map_iff in Hin. destruct Hin as (u & Hp & Hu).
  apply (find_none _ _ Hfind) in Hu. unfold byPhone in Hu.
  rewrite Hp, String.eqb_refl in Hu. discriminate Hu.
Qed.

Lemma uniquePhones_snoc (l : list User.t) (u : User.t) :
  NoDup (List.map User.phoneNumber l) ->
  find (byPhone (User.phoneNumber u)) l = None ->
  NoDup (List.map User.phoneNumber (l ++ [u])).
Proof.
  intros Hnd Hfind. rewrite map_app. simpl. apply NoDup_app.
  - exact Hnd.
  - constructor; [intros []|constructor].
  - intros x Hx [<-|[]]. exact (find_byPhone_none _ _ Hfind Hx).
Qed.

Lemma uniquePhones_setName id name (l : list User.t) :
  List.map User.phoneNumber
           (storage.updateWhere (fun u => User.id u =? id)
                                (User.setName name) l) =
  List.map User.phoneNumber l.
Proof. apply map_updateWhere_same. reflexivity. Qed.

Lemma uniquePhones_renames (l l' : list User.t) :
  renames l l' ->
  List.map User.phoneNumber l' = List.map User.phoneNumber l.
Proof.
  intros (g & -> & Hg). rewrite map_map. apply map_ext.
  intros u. exact (proj2 (Hg u)).
Qed.

Lemma findOrCreateUser_uniquePhones digitsOnly name w r w' :
  uniquePhones (db w) ->
  findOrCreateUser digitsOnly name w = (r, w') ->
  uniquePhones (db w').
Proof.
  unfold uniquePhones, findOrCreateUser. intros Hnd H. run_storage H.
  cbv beta iota zeta in H. simpl db in H. fold (byPhone digitsOnly) in H.
  destruct (find (byPhone digitsOnly) (users (db w))) as [known|] eqn:Hfind.
  - destruct (_ && _); cbv beta iota zeta in H; inversion H; subst; simpl;
      [rewrite uniquePhones_setName|]; exact Hnd.
  - cbv beta iota zeta in H. inversion H; subst. simpl.
    apply uniquePhones_snoc; [exact Hnd|exact Hfind].
Qed.

(** X13.  No path that creates a user creates a second user for a phone
    number: when the phone numbers of the users are distinct, they are
    still distinct after any tool call of the Tool Executor, after the
    find-or-create step of the webhook and of the user lookup, after the
    [identify_user] case of the tool-execute route, and after any run of
    the Call Summarizer.  Each of them inserts a user only after a lookup
    by the number has found none. *)
Theorem phone_numbers_stay_unique :
  (forall toolName args ctx w r w',
      uniquePhones (db w) ->
      executeToolCall toolName args ctx w = (r, w') ->
      uniquePhones (db w')) /\
  (forall digitsOnly name w r w',
      uniquePhones (db w) ->
      findOrCreateUser digitsOnly name w = (r, w') ->
      uniquePhones (db w')) /\
  (forall args context w r w',
      uniquePhones (db w) ->
      toolExecute_identify_user args context w = (r, w') ->
      uniquePhones (db w')) /\
  (forall llm sessionId transcript w r w',
      uniquePhones (db w) ->
      generateCallSummary llm sessionId transcript w = (r, w') ->
      uniquePhones (db w')).
Proof.
  split; [|split; [exact findOrCreateUser_uniquePhones|split]].
  - intros toolName args ctx w r w' Hnd H.
    apply executeToolCall_effect in H. unfold uniquePhones in *.
    destruct H as [Hu _|user Hu _ Hfind|created Hu _ _|a f Hu _ _ _ _];
      rewrite Hu; try exact Hnd.
    apply uniquePhones_snoc; assumption.
  - intros args context w r w' Hnd H. unfold uniquePhones in *.
    unfold toolExecute_identify_user in H. run_storage H.
    cbv beta iota zeta in H.
    destruct (_ =? "")%string; [inversion H; subst; exact Hnd|].
    cbv beta iota zeta in H. simpl db in H.
    match type of H with
    | context [find ?p (users (db w))] =>
        destruct (find p (users (db w))) as [known|] eqn:Hfind
    end.
    + assert (Hu : List.map User.phoneNumber (users (db w')) =
                   List.map User.phoneNumber (users (db w))).
      { split_path H; inversion H; subst; simpl;
          first [reflexivity|apply uniquePhones_setName]. }
      rewrite Hu. exact Hnd.
    + assert (Hu : exists u,
                 users (db w') = (users (db w) ++ [u])%list /\
                 find (byPhone (User.phoneNumber u)) (users (db w)) = None).
      { split_path H; inversion H; subst; simpl;
          eexists; (split; [reflexivity|exact Hfind]). }
      destruct Hu as (u & Hu & Hnone). rewrite Hu.
      apply uniquePhones_snoc; assumption.
  - intros llm sessionId transcript w r w' Hnd H.
    unfold uniquePhones in *.
    destruct (generateCallSummary_outcome llm sessionId transcript w)
      as (payload & wF & Hrun & _ & _ & Hout).
    rewrite Hrun in H. inversion H; subst r w'. clear H.
    destruct (generateCallSummary_phases llm sessionId transcript w)
      as (w0 & Hdb & Hph).
    cbv zeta in Hph, Hout.
    assert (Hfb : forall session user wx,
               users (db wx) = users (db w) ->
               generateCallSummary llm sessionId transcript w =
               fallback sessionId transcript session user wx ->
               NoDup (List.map User.phoneNumber (users (db wF)))).
    { intros session user wx Hx E. rewrite Hrun in E.
      destruct (fallback_closes sessionId transcript session user wx)
        as (p & wf & Hf & _ & _ & _ & Hu & _).
      rewrite Hf in E. inversion E; subst. rewrite Hu, Hx. exact Hnd. }
    assert (Hu0 : users (db w0) = users (db w)) by (rewrite Hdb; reflexivity).
    destruct (dataOf llm) as [d|]; [|exact (Hfb _ _ _ Hu0 Hph)].
    destruct (extractedPhoneOf d _) as [phone|]; [|exact (Hfb _ _ _ Hu0 Hph)].
    destruct Hout as (w0' & u1 & w1 & r2 & w2 & Hdb' & Hres & _ & Happ & Hu2
                      & _ & HuF & _).
    rewrite HuF, Hu2.
    set (user0 := linkedUser (sessionRow sessionId (db w)) (db w)) in *.
    set (name := Js.orElse (ExtractedData.userName d) (userNameOf user0)) in *.
    destruct (resolveUser_run user0 phone name w0')
      as (u1' & w1' & Hres' & _ & Hcase).
    rewrite Hres in Hres'. inversion Hres'; subst u1' w1'. clear Hres'.
    assert (Hu0' : users (db w0') = users (db w)) by (rewrite Hdb'; reflexivity).
    rewrite Hu0' in Hcase.
    destruct user0 as [u0|].
    + destruct Hcase as [Hren _].
      rewrite (uniquePhones_renames _ _ Hren). exact Hnd.
    + destruct (phoneUsable phone).
      * destruct (find (byPhone (Js.showStr phone)) (users (db w)))
          as [eu|] eqn:Hfind.
        -- destruct Hcase as [Hren _].
           rewrite (uniquePhones_renames _ _ Hren). exact Hnd.
        -- destruct Hcase as (new & Hnew & Hp & _). rewrite Hnew.
           apply uniquePhones_snoc; [exact Hnd|]. rewrite Hp. exact Hfind.
      * destruct Hcase as [Hsame _]. rewrite Hsame. exact Hnd.
Qed.

(** ** Properties of the routes *)

(** *** The map of a route *)




(** *** Sessions *)









(** *** The user lookup *)

(** The run of the find-or-create step. *)
Lemma findOrCreateUser_run digitsOnly name w :
  exists user w',
    findOrCreateUser digitsOnly name w =
    (Ok (user,
         match find (byPhone digitsOnly) (users (db w)) with
         | Some _ => false
         | None => true
         end), w') /\
    find (byPhone digitsOnly) (users (db w')) = Some user /\
    appointments (db w') = appointments (db w) /\
    match find (byPhone digitsOnly) (users (db w)) with
    | Some known =>
        User.id user = User.id known /\
        User.name user =
        (if negb (name =? "")%string && negb (Js.truthyStr (User.name known))
         then Some name else User.name known) /\
        List.length (users (db w')) = List.length (users (db w))
    | None =>
        user = User.mk (nextUserId (db w)) digitsOnly
                       (Js.orUndefined (Some name)) /\
        users (db w') = (users (db w) ++ [user])%list
    end.
Proof.
  unfold findOrCreateUser, bind at 1.
  unfold storage.getUserByPhoneNumber, storageRead, storageCall.
  cbv beta iota zeta. simpl db. fold (byPhone digitsOnly).
  destruct (find (byPhone digitsOnly) (users (db w))) as [known|] eqn:Hfind.
  - destruct (negb (name =? "")%string && negb (Js.truthyStr (User.name known)))
      eqn:Hfill.
    + unfold bind, ret, storage.updateUser, storageCall.
      cbv beta iota zeta. do 2 eexists. split; [reflexivity|].
      simpl. split.
      * rewrite find_updateWhere_any by (intros r; reflexivity).
        rewrite Hfind. simpl. rewrite Z.eqb_refl. reflexivity.
      * split; [reflexivity|]. split; [reflexivity|].
        split; [reflexivity|]. unfold storage.updateWhere.
        apply length_map.
    + unfold ret. do 2 eexists. split; [reflexivity|]. simpl.
      split; [exact Hfind|]. repeat split; reflexivity.
  - unfold bind, ret, storage.createUser, storageCall. cbv beta iota zeta.
    do 2 eexists. split; [reflexivity|]. simpl.
    split; [|repeat split; reflexivity].
    apply find_snoc_none; [exact Hfind|].
    unfold byPhone. simpl. apply String.eqb_refl.
Qed.



(** *** The two listings *)


(** *** Booking through the routes *)

(** What a booking case of a route does: [status] is the status it gives
    the appointment. *)
Definition routeBooking (status : string)
           (book : Args.t -> BeyContext.t -> M string) : Prop :=
  forall args context w,
    let date := Args.date args in
    let time := Args.time args in
    let description :=
      Js.showStr (Js.orElse (Args.description args)
                            (Some generalAppointment)) in
    match beyIdentified context with
    | None => exists text, book args context w = (Ok text, w)
    | Some userId =>
        if negb (Js.truthyStr date) || negb (Js.truthyStr time) then
          exists text, book args context w = (Ok text, w)
        else if activeBooked date time (db w) then
          exists text,
            book args context w =
            (Ok text, mkWorld (db w) (log w ++ [OpGetBookedSlots]))
        else
          exists text,
            book args context w =
            (Ok text,
             bookedWorld w
               (Appointment.mk (nextAppointmentId (db w)) userId
                               (Js.showStr date) (Js.showStr time)
                               (Some description) status))
    end.

Lemma orElse_general (d : option string) :
  Js.orElse d (Some generalAppointment) =
  Some (Js.showStr (Js.orElse d (Some generalAppointment))).
Proof.
  unfold Js.orElse. destruct d as [x|]; simpl; [|reflexivity].
  destruct (x =? "")%string; reflexivity.
Qed.

(** X18.  The two booking cases of the routes, [book_appointment] of the
    tool-execute route and of the webhook.  Without an identified caller,
    or without a date or a time, nothing is read or written; when an
    active appointment holds the slot, nothing is written; otherwise the
    appointment is created for the caller, on the date and time asked for,
    whether or not the catalog has that slot, with the description
    [General appointment] when none is given, and with the status
    [confirmed] by the tool-execute route and [scheduled] by the
    webhook. *)
Theorem route_bookings_check_the_booked_slots_only :
  routeBooking "confirmed" toolExecute_book_appointment /\
  routeBooking "scheduled" webhook_book_appointment.
Proof.
  split; intros args context w date time description.
  - unfold toolExecute_book_appointment.
    destruct (beyIdentified context) as [userId|];
      [|eexists; reflexivity].
    fold date time. destruct (negb (Js.truthyStr date) ||
                              negb (Js.truthyStr time));
      [eexists; reflexivity|].
    unfold bind, storage.getBookedSlots, storageRead, storageCall.
    cbv beta iota zeta. rewrite booked_test.
    destruct (activeBooked date time (db w)); [eexists; reflexivity|].
    unfold ret, storage.createAppointment, storageCall, bookedWorld.
    cbv beta iota zeta. simpl db. simpl log. rewrite <- app_assoc.
    eexists. reflexivity.
  - unfold webhook_book_appointment.
    destruct (beyIdentified context) as [userId|];
      [|eexists; reflexivity].
    fold date time. destruct (negb (Js.truthyStr date) ||
                              negb (Js.truthyStr time));
      [eexists; reflexivity|].
    unfold bind, storage.getBookedSlots, storageRead, storageCall.
    cbv beta iota zeta. rewrite booked_test.
    destruct (activeBooked date time (db w)); [eexists; reflexivity|].
    unfold ret, storage.createAppointment, storageCall, bookedWorld.
    cbv beta iota zeta. simpl db. simpl log. rewrite <- app_assoc.
    rewrite orElse_general. eexists. reflexivity.
Qed.

(** *** The routes and the invariant of the appointments *)

(** What one request does to the appointments: nothing, one appointment
    more on a slot no active appointment holds, or some appointments
    cancelled. *)
Definition bookingStep (s s' : Store) : Prop :=
  appointments s' = appointments s \/
  (exists created,
      appointments s' = (appointments s ++ [created])%list /\
      activeBooked (Some (Appointment.date created))
                   (Some (Appointment.time created)) s = false) \/
  (exists select,
      appointments s' =
      storage.updateWhere select cancelled (appointments s)).

Lemma bookingStep_keeps s s' :
  noDoubleBooking s -> bookingStep s s' -> noDoubleBooking s'.
Proof.
  intros Hinv [E|[(created & E & Hfree)|(select & E)]] date time;
    unfold activeOn; rewrite E.
  - apply Hinv.
  - rewrite filter_snoc, length_app.
    destruct (occupies (Some date) (Some time) created) eqn:Ho.
    + apply occupies_slot in Ho. destruct Ho as [<- <-].
      unfold activeBooked in Hfree. rewrite (filter_none _ _ Hfree).
      simpl. lia.
    + simpl. specialize (Hinv date time). unfold activeOn in Hinv. lia.
  - eapply Nat.le_trans; [|apply (Hinv date time)].
    unfold storage.updateWhere. apply filter_map_le.
    intros a. destruct (select a); [|auto].
    unfold occupies, cancelled, Appointment.isActive. simpl. discriminate.
Qed.

Lemma truthyStr_some (v : option string) :
  Js.truthyStr v = true -> v = Some (Js.showStr v).
Proof.
  destruct v as [x|]; simpl; [reflexivity|discriminate].
Qed.

Ltac route_booking_step H :=
  match type of H with
  | _ = (_, ?w') =>
      destruct (beyIdentified _) as [?userId|];
      [|inversion H; left; reflexivity];
      let Hdt := fresh "Hdt" in
      let Hd := fresh "Hd" in
      let Ht := fresh "Ht" in
      let Hfree := fresh "Hfree" in
      destruct (negb (Js.truthyStr _) || negb (Js.truthyStr _)) eqn:Hdt;
      [inversion H; left; reflexivity|];
      apply orb_false_iff in Hdt; destruct Hdt as [Hd Ht];
      apply negb_false_iff in Hd, Ht;
      unfold bind, storage.getBookedSlots, storageRead, storageCall in H;
      cbv beta iota zeta in H; rewrite booked_test in H;
      destruct (activeBooked _ _ _) eqn:Hfree;
      [inversion H; left; reflexivity|];
      unfold ret, storage.createAppointment, storageCall in H;
      cbv beta iota zeta in H; inversion H; right; left; eexists;
      split; [reflexivity|]; simpl;
      rewrite <- (truthyStr_some _ Hd), <- (truthyStr_some _ Ht);
      exact Hfree
  end.

Lemma toolExecute_book_appointment_step args context w r w' :
  toolExecute_book_appointment args context w = (r, w') ->
  bookingStep (db w) (db w').
Proof.
  intros H. unfold toolExecute_book_appointment in H.
  route_booking_step H.
Qed.

Lemma webhook_book_appointment_step args context w r w' :
  webhook_book_appointment args context w = (r, w') ->
  bookingStep (db w) (db w').
Proof.
  intros H. unfold webhook_book_appointment in H.
  route_booking_step H.
Qed.

Lemma toolExecute_cancel_appointment_step args context w r w' :
  toolExecute_cancel_appointment args context w = (r, w') ->
  bookingStep (db w) (db w').
Proof.
  intros H. unfold toolExecute_cancel_appointment in H.
  unfold bind, ret, storage.getAppointment, storage.cancelAppointment,
    storageRead, storageCall in H.
  split_path H; inversion H; subst; simpl;
    first [ left; reflexivity | right; right; eexists; reflexivity ].
Qed.

Lemma webhook_cancel_appointment_step args context w r w' :
  webhook_cancel_appointment args context w = (r, w') ->
  bookingStep (db w) (db w').
Proof.
  intros H. unfold webhook_cancel_appointment in H.
  unfold bind, ret, storage.getAppointment, storage.updateAppointment,
    storageRead, storageCall in H.
  split_path H; inversion H; subst; simpl;
    first [ left; reflexivity | right; right; eexists; reflexivity ].
Qed.

Ltac unchanged_step H :=
  unfold bind, ret, findOrCreateUser, storage.getUserByPhoneNumber,
    storage.createUser, storage.updateUser, storage.getAppointmentsByUser,
    storage.getBookedSlots, storageRead, storageCall in H;
  split_path H; inversion H; left; reflexivity.

Lemma toolExecute_identify_user_step args context w r w' :
  toolExecute_identify_user args context w = (r, w') ->
  bookingStep (db w) (db w').
Proof.
  intros H. unfold toolExecute_identify_user in H. unchanged_step H.
Qed.

Lemma toolExecute_set_user_name_step args context w r w' :
  toolExecute_set_user_name args context w = (r, w') ->
  bookingStep (db w) (db w').
Proof.
  intros H. unfold toolExecute_set_user_name in H. unchanged_step H.
Qed.

Lemma toolExecute_fetch_slots_run args w :
  exists text,
    toolExecute_fetch_slots args w =
    (Ok text, mkWorld (db w) (log w ++ [OpGetBookedSlots])).
Proof.
  unfold toolExecute_fetch_slots, bind, ret, storage.getBookedSlots,
    storageRead, storageCall. cbv beta iota zeta. eexists. reflexivity.
Qed.

Lemma toolExecute_fetch_slots_step args w r w' :
  toolExecute_fetch_slots args w = (r, w') -> bookingStep (db w) (db w').
Proof.
  intros H. destruct (toolExecute_fetch_slots_run args w) as (text & E).
  rewrite E in H. inversion H. left. reflexivity.
Qed.

Lemma toolExecute_retrieve_appointments_step context w r w' :
  toolExecute_retrieve_appointments context w = (r, w') ->
  bookingStep (db w) (db w').
Proof.
  intros H. unfold toolExecute_retrieve_appointments in H.
  unchanged_step H.
Qed.

Lemma webhook_identify_user_step args context w r w' :
  webhook_identify_user args context w = (r, w') ->
  bookingStep (db w) (db w').
Proof.
  intros H. unfold webhook_identify_user in H. cbv zeta in H.
  destruct (_ || _); [inversion H; left; reflexivity|].
  unfold bind at 1 in H.
  destruct (findOrCreateUser_run
              (Js.stripNonDigits (Js.orEmpty (Args.phone_number args)))
              (Js.orEmpty (Args.name args)) w)
    as (user & w1 & E & _ & Happ & _).
  rewrite E in H. cbv beta iota zeta in H.
  unfold bind, ret, storage.getAppointmentsByUser, storageRead,
    storageCall in H.
  cbv beta iota zeta in H. inversion H. left. exact Happ.
Qed.

Lemma webhook_get_user_appointments_step context w r w' :
  webhook_get_user_appointments context w = (r, w') ->
  bookingStep (db w) (db w').
Proof.
  intros H. unfold webhook_get_user_appointments in H. unchanged_step H.
Qed.

Lemma webhook_get_available_slots_step args w r w' :
  webhook_get_available_slots args w = (r, w') ->
  bookingStep (db w) (db w').
Proof.
  intros H. unfold webhook_get_available_slots in H. unchanged_step H.
Qed.

(** A message of the call never writes to the database. *)
Lemma webhookMessage_reads call_id message beyContexts w r w' :
  webhookMessage call_id message beyContexts w = (r, w') -> db w' = db w.
Proof.
  intros H. unfold webhookMessage in H.
  unfold bind, ret, storage.getUserByPhoneNumber, storageRead,
    storageCall in H.
  split_path H; inversion H; reflexivity.
Qed.

(** The world a handler ends in is the one its body ends in. *)
Lemma catching_world {A} (m : M A) (onError : A) w r w' :
  catching m onError w = (r, w') -> exists r0, m w = (r0, w').
Proof.
  unfold catching. destruct (m w) as [[a|e] w1]; intros H; inversion H;
    eexists; reflexivity.
Qed.

Lemma bind_world {A B} (m : M A) (k : A -> M B) w r w' :
  (forall a w0, snd (k a w0) = w0) ->
  bind m k w = (r, w') -> exists r0, m w = (r0, w').
Proof.
  intros Hk H. unfold bind in H. destruct (m w) as [[a|e] w1].
  - specialize (Hk a w1). rewrite H in Hk. simpl in Hk. subst w'.
    eexists. reflexivity.
  - inversion H. eexists. reflexivity.
Qed.

Ltac tool_case H step :=
  apply bind_world in H;
  [ let r0 := fresh "r0" in destruct H as (r0 & H); eapply step; exact H
  | intros; cbv beta iota zeta;
    repeat match goal with
           | |- context [if ?b then _ else _] => destruct b
           | |- context [match ?x with Some _ => _ | None => _ end] =>
               destruct x
           end; reflexivity ].

Lemma postToolExecute_step tool_name args call_id beyContexts w r w' :
  postToolExecute tool_name args call_id beyContexts w = (r, w') ->
  bookingStep (db w) (db w').
Proof.
  intros H. unfold postToolExecute in H. apply catching_world in H.
  destruct H as (r0 & H). cbv zeta in H.
  destruct (negb (Js.truthyStr tool_name));
    [inversion H; left; reflexivity|].
  destruct (Js.showStr tool_name =? "identify_user")%string;
    [tool_case H toolExecute_identify_user_step|].
  destruct (Js.showStr tool_name =? "set_user_name")%string;
    [tool_case H toolExecute_set_user_name_step|].
  destruct (Js.showStr tool_name =? "fetch_slots")%string;
    [tool_case H toolExecute_fetch_slots_step|].
  destruct (Js.showStr tool_name =? "book_appointment")%string;
    [tool_case H toolExecute_book_appointment_step|].
  destruct (Js.showStr tool_name =? "retrieve_appointments")%string;
    [tool_case H toolExecute_retrieve_appointments_step|].
  destruct (Js.showStr tool_name =? "cancel_appointment")%string;
    [tool_case H toolExecute_cancel_appointment_step|].
  inversion H. left. reflexivity.
Qed.

Lemma webhookTool_step toolName args context w r w' :
  webhookTool toolName args context w = (r, w') ->
  bookingStep (db w) (db w').
Proof.
  intros H. unfold webhookTool in H. cbv zeta in H.
  destruct (Js.strictEq "identify_user" toolName);
    [eapply webhook_identify_user_step; exact H|].
  destruct (Js.strictEq "get_user_appointments" toolName);
    [tool_case H webhook_get_user_appointments_step|].
  destruct (Js.strictEq "get_available_slots" toolName);
    [tool_case H webhook_get_available_slots_step|].
  destruct (Js.strictEq "book_appointment" toolName);
    [tool_case H webhook_book_appointment_step|].
  destruct (Js.strictEq "cancel_appointment" toolName);
    [tool_case H webhook_cancel_appointment_step|].
  inversion H. left. reflexivity.
Qed.

Lemma postWebhook_step now body beyContexts w r w' :
  postWebhook now body beyContexts w = (r, w') ->
  bookingStep (db w) (db w').
Proof.
  intros H. unfold postWebhook in H. apply catching_world in H.
  destruct H as (r0 & H). cbv zeta in H.
  destruct (_ || _).
  - tool_case H webhookTool_step.
  - apply bind_world in H; [|intros; reflexivity].
    destruct H as (r1 & H). left.
    destruct (WebhookBody.message body) as [message|].
    + apply webhookMessage_reads in H. rewrite H. reflexivity.
    + inversion H. reflexivity.
Qed.

(** X19.  No request to the tool-execute route or to the webhook gives a
    slot a second active appointment: when every slot has at most one
    active appointment before the request, whatever the tool, its
    arguments and the call, so it is afterwards. *)
Theorem routes_keep_noDoubleBooking :
  (forall tool_name args call_id beyContexts w r w',
      noDoubleBooking (db w) ->
      postToolExecute tool_name args call_id beyContexts w = (r, w') ->
      noDoubleBooking (db w')) /\
  (forall now body beyContexts w r w',
      noDoubleBooking (db w) ->
      postWebhook now body beyContexts w = (r, w') ->
      noDoubleBooking (db w')).
Proof.
  split.
  - intros tool_name args call_id beyContexts w r w' Hinv H.
    apply (bookingStep_keeps (db w)); [exact Hinv|].
    eapply postToolExecute_step; exact H.
  - intros now body beyContexts w r w' Hinv H.
    apply (bookingStep_keeps (db w)); [exact Hinv|].
    eapply postWebhook_step; exact H.
Qed.

(** *** Who may cancel through the routes *)

(** X20.  The cancel case of the webhook checks the owner only for an
    identified caller.  For an appointment that exists, a call that is not
    identified cancels it whoever owns it, and so does the call of the
    owner; a call identified as another user is refused and nothing is
    written.  An appointment that is cancelled already is cancelled
    again.  The cancel case of the tool-execute route refuses the call
    that is not identified. *)
Theorem webhook_cancel_checks_the_owner_only_when_identified
        (args : Args.t) (context : BeyContext.t) (w : World)
        (a : Appointment.t) :
  Js.truthyNum (Args.appointment_id args) = true ->
  storage.appointmentById (Args.appointment_id args) (db w) = Some a ->
  let cancelsIt :=
    exists text w',
      webhook_cancel_appointment args context w = (Ok text, w') /\
      appointments (db w') =
      storage.updateWhere (fun x => Appointment.id x =? Appointment.id a)
                          cancelled (appointments (db w)) /\
      storage.appointmentById (Args.appointment_id args) (db w') =
      Some (cancelled a) in
  match beyIdentified context with
  | None =>
      cancelsIt /\
      toolExecute_cancel_appointment args context w =
      (Ok "Please provide your phone number first.", w)
  | Some userId =>
      if Appointment.userId a =? userId then cancelsIt
      else
        webhook_cancel_appointment args context w =
        (Ok "That appointment doesn't belong to your account.",
         mkWorld (db w)
                 (log w ++ [OpGetAppointment (Args.appointment_id args)]))
  end.
Proof.
  intros Htruthy Hfind cancelsIt.
  assert (Hid : Args.appointment_id args = Some (Appointment.id a))
    by (apply appointmentById_In in Hfind; exact (proj2 Hfind)).
  assert (Hrun : forall checked,
             (match beyIdentified context with
              | Some userId => negb (Appointment.userId a =? userId)
              | None => false
              end) = checked ->
             checked = false -> cancelsIt).
  { intros checked Hc Hfalse. subst checked. unfold cancelsIt.
    unfold webhook_cancel_appointment. rewrite Htruthy.
    change (negb true) with false.
    unfold bind, ret, storage.getAppointment, storage.updateAppointment,
      storageRead, storageCall.
    cbv beta iota zeta. simpl db. rewrite Hfind. cbv beta iota zeta.
    rewrite Hfalse. cbv beta iota zeta.
    do 2 eexists. split; [reflexivity|]. simpl db. split; [reflexivity|].
    rewrite Hid. unfold storage.appointmentById. simpl appointments.
    rewrite find_updateWhere by (intros r E; exact E).
    rewrite Hid in Hfind. unfold storage.appointmentById in Hfind.
    rewrite Hfind. reflexivity. }
  destruct (beyIdentified context) as [userId|] eqn:Hident.
  - destruct (Appointment.userId a =? userId) eqn:Hown.
    + apply (Hrun false); reflexivity.
    + unfold webhook_cancel_appointment. rewrite Htruthy.
    change (negb true) with false.
      unfold bind, ret, storage.getAppointment, storageRead, storageCall.
      cbv beta iota zeta. simpl db. rewrite Hfind. cbv beta iota zeta.
      rewrite Hident, Hown. reflexivity.
  - split; [apply (Hrun false); reflexivity|].
    unfold toolExecute_cancel_appointment. rewrite Hident. reflexivity.
Qed.

(** The appointment of user 1, and a call nobody identified on. *)
Definition strangerWorld : World :=
  mkWorld
    (mkStore [User.mk 1 "5551234567" None]
             [Appointment.mk 1 1 "2026-01-29" "11:00 AM" None "scheduled"]
             [] [] 2 2 1)
    [].

Lemma webhook_cancel_witness :
  exists text w',
    webhook_cancel_appointment (cancelArgs 1) (contextOf "call-7" [])
                               strangerWorld = (Ok text, w') /\
    appointments (db w') =
    [Appointment.mk 1 1 "2026-01-29" "11:00 AM" None "cancelled"].
Proof.
  destruct (proj1 (webhook_cancel_checks_the_owner_only_when_identified
                     (cancelArgs 1) (contextOf "call-7" []) strangerWorld
                     (Appointment.mk 1 1 "2026-01-29" "11:00 AM" None
                                     "scheduled")
                     eq_refl eq_refl))
    as (text & w' & Hrun & Happ & _).
  exists text, w'. split; [exact Hrun|]. rewrite Happ. reflexivity.
Defined.

(** *** The phone number in a message of the call *)

Lemma digitsAt_spec (n : nat) :
  forall s a r,
    digitsAt n s = Some (a, r) ->
    s = a ++ r /\ String.length a = n /\ Js.forallb Js.isDigit a = true.
Proof.
  induction n as [|n IH]; intros s a r H; simpl in H.
  - inversion H. repeat split.
  - destruct s as [|c s]; [discriminate|].
    destruct (Js.isDigit c) eqn:Hc; [|discriminate].
    destruct (digitsAt n s) as [[a' r']|] eqn:E; [|discriminate].
    simpl in H. inversion H; subst. destruct (IH _ _ _ E) as (-> & Hl & Hd).
    simpl. rewrite Hc, Hl, Hd. repeat split.
Qed.

(** [\d{n+m}] is [\d{n}] followed by [\d{m}]. *)
Lemma digitsAt_add (n m : nat) :
  forall s,
    digitsAt (n + m) s =
    match digitsAt n s with
    | Some (a, r) =>
        match digitsAt m r with
        | Some (b, r') => Some (a ++ b, r')
        | None => None
        end
    | None => None
    end.
Proof.
  induction n as [|n IH]; intros s; simpl.
  - destruct (digitsAt m s) as [[b r']|]; reflexivity.
  - destruct s as [|c s]; [reflexivity|].
    destruct (Js.isDigit c); [|reflexivity].
    rewrite IH. destruct (digitsAt n s) as [[a r]|]; [|reflexivity].
    simpl. destruct (digitsAt m r) as [[b r']|]; reflexivity.
Qed.

Lemma digit_not_separator (c : ascii) :
  Js.isDigit c = true -> isSeparator c = false.
Proof.
  destruct c as [[] [] [] [] [] [] [] []]; try discriminate; reflexivity.
Qed.

Lemma separator_not_digit (c : ascii) :
  isSeparator c = true -> Js.isDigit c = false.
Proof.
  intros H. destruct (Js.isDigit c) eqn:E; [|reflexivity].
  rewrite (digit_not_separator c E) in H. discriminate.
Qed.

(** Before a digit the optional separator is empty. *)
Lemma separatorAt_digits (n : nat) s a r :
  digitsAt (S n) s = Some (a, r) -> separatorAt s = (EmptyString, s).
Proof.
  simpl. destruct s as [|c s]; [discriminate|].
  destruct (Js.isDigit c) eqn:Hc; [|discriminate]. intros _.
  unfold separatorAt. rewrite (digit_not_separator c Hc). reflexivity.
Qed.

Lemma separatorAt_spec s sep r :
  separatorAt s = (sep, r) ->
  s = sep ++ r /\ Js.stripNonDigits sep = "".
Proof.
  unfold separatorAt. destruct s as [|c s].
  - intros H. inversion H. split; reflexivity.
  - destruct (isSeparator c) eqn:Hc; intros H; inversion H; subst.
    + split; [reflexivity|]. unfold Js.stripNonDigits. simpl.
      rewrite (separator_not_digit c Hc). reflexivity.
    + split; reflexivity.
Qed.

(** Ten digits in a row are matched by the grouped alternative. *)
Lemma groupedPhoneAt_of_plain s m :
  plainPhoneAt s = Some m -> groupedPhoneAt s <> None.
Proof.
  unfold plainPhoneAt, groupedPhoneAt. intros H.
  change 10%nat with (3 + (3 + 4))%nat in H.
  rewrite digitsAt_add in H.
  destruct (digitsAt 3 s) as [[a r1]|]; [|discriminate].
  rewrite digitsAt_add in H.
  destruct (digitsAt 3 r1) as [[b r3]|] eqn:Eb; [|discriminate].
  rewrite (separatorAt_digits _ _ _ _ Eb), Eb.
  destruct (digitsAt 4 r3) as [[c r5]|] eqn:Ec; [|discriminate].
  rewrite (separatorAt_digits _ _ _ _ Ec), Ec. discriminate.
Qed.

Lemma append_assoc (a b c : string) : (a ++ b) ++ c = a ++ b ++ c.
Proof. induction a as [|x a IH]; simpl; [reflexivity|rewrite IH; reflexivity]. Qed.

Lemma groupedPhoneAt_spec s m :
  groupedPhoneAt s = Some m ->
  (exists after, s = m ++ after) /\
  String.length (Js.stripNonDigits m) = 10%nat.
Proof.
  unfold groupedPhoneAt. intros H.
  destruct (digitsAt 3 s) as [[a r1]|] eqn:Ea; [|discriminate].
  destruct (separatorAt r1) as [s1 r2] eqn:E1.
  destruct (digitsAt 3 r2) as [[b r3]|] eqn:Eb; [|discriminate].
  destruct (separatorAt r3) as [s2 r4] eqn:E2.
  destruct (digitsAt 4 r4) as [[c r5]|] eqn:Ec; [|discriminate].
  inversion H; subst m. clear H.
  destruct (digitsAt_spec _ _ _ _ Ea) as (-> & La & Da).
  destruct (digitsAt_spec _ _ _ _ Eb) as (-> & Lb & Db).
  destruct (digitsAt_spec _ _ _ _ Ec) as (-> & Lc & Dc).
  destruct (separatorAt_spec _ _ _ E1) as (-> & S1).
  destruct (separatorAt_spec _ _ _ E2) as (-> & S2).
  split.
  - exists r5. rewrite !append_assoc. reflexivity.
  - unfold Js.stripNonDigits in *. rewrite !filter_append, S1, S2.
    rewrite !(filter_all Js.isDigit) by assumption.
    simpl. rewrite !length_append, La, Lb, Lc. reflexivity.
Qed.

Lemma phoneAt_grouped s : phoneAt s = groupedPhoneAt s.
Proof.
  unfold phoneAt. destruct (groupedPhoneAt s) as [m|] eqn:E; [reflexivity|].
  destruct (plainPhoneAt s) as [m|] eqn:P; [|reflexivity].
  exfalso. exact (groupedPhoneAt_of_plain s m P E).
Qed.

Lemma phoneMatch_eq text :
  phoneMatch text =
  match groupedPhoneAt text with
  | Some m => Some m
  | None =>
      match text with
      | String _ r => phoneMatch r
      | EmptyString => None
      end
  end.
Proof. rewrite <- phoneAt_grouped. destruct text; reflexivity. Qed.

Lemma phoneMatch_spec text :
  forall m,
    phoneMatch text = Some m ->
    (exists before after, text = before ++ m ++ after) /\
    String.length (Js.stripNonDigits m) = 10%nat.
Proof.
  induction text as [|c text IH]; intros m H.
  - rewrite phoneMatch_eq in H.
    destruct (groupedPhoneAt "") as [x|] eqn:E; [|discriminate].
    inversion H; subst x.
    destruct (groupedPhoneAt_spec _ _ E) as ((after & Hs) & Hl).
    split; [exists "", after; exact Hs|exact Hl].
  - rewrite phoneMatch_eq in H.
    destruct (groupedPhoneAt (String c text)) as [x|] eqn:E.
    + inversion H; subst x.
      destruct (groupedPhoneAt_spec _ _ E) as ((after & Hs) & Hl).
      split; [exists "", after; exact Hs|exact Hl].
    + destruct (IH m H) as ((before & after & Hs) & Hl).
      split; [|exact Hl].
      exists (String c before), after. simpl. rewrite Hs. reflexivity.
Qed.

(** X21.  The phone number that the webhook lifts out of a message is a
    piece of the message and has exactly ten digits, whatever separators it
    has: the second alternative of the pattern, ten or eleven digits in a
    row, never decides, since wherever it matches the first alternative
    matches already, so that of eleven digits in a row the first ten are
    taken. *)
Theorem phoneMatch_takes_ten_digits (text m : string) :
  phoneMatch text = Some m ->
  (exists before after, text = before ++ m ++ after) /\
  String.length (Js.stripNonDigits m) = 10%nat /\
  (forall s, phoneAt s = groupedPhoneAt s) /\
  (forall d rest,
      String.length d = 11%nat -> Js.forallb Js.isDigit d = true ->
      phoneMatch (d ++ rest) = Some (substring 0 10 d)).
Proof.
  intros H. destruct (phoneMatch_spec text m H) as [Hsub Hlen].
  split; [exact Hsub|]. split; [exact Hlen|].
  split; [exact phoneAt_grouped|].
  intros d rest Hl Hd.
  do 11 (destruct d as [|? d]; [discriminate|]).
  destruct d; [|discriminate]. simpl in Hd.
  repeat match type of Hd with
         | _ && _ = true =>
             let Hc := fresh "Hc" in
             apply andb_true_iff in Hd; destruct Hd as [Hc Hd]
         end.
  simpl append. rewrite phoneMatch_eq.
  unfold groupedPhoneAt. simpl digitsAt.
  rewrite Hc, Hc0, Hc1. simpl option_map. cbv beta iota. simpl fst.
  simpl snd. unfold separatorAt.
  rewrite (digit_not_separator _ Hc2). simpl digitsAt.
  rewrite Hc2, Hc3, Hc4. simpl option_map. cbv beta iota. simpl fst.
  simpl snd. rewrite (digit_not_separator _ Hc5). simpl digitsAt.
  rewrite Hc5, Hc6, Hc7, Hc8. reflexivity.
Qed.

Lemma phoneMatch_witness :
  phoneMatch "my number is 555.123.4567 ok" = Some "555.123.4567" /\
  String.length (Js.stripNonDigits "555.123.4567") = 10%nat.
Proof.
  split; [reflexivity|].
  exact (proj1 (proj2 (phoneMatch_takes_ten_digits
                         "my number is 555.123.4567 ok" "555.123.4567"
                         eq_refl))).
Defined.

(** X22.  A message that is no tool call never writes to the database,
    and identifies a caller only on these terms: the call has a context
    already, the sender is the user, the message has a ten-digit phone
    number, and a user has that number.  The context of the call is then
    the one of that user; in every other case the contexts stay as they
    were, and no user is created. *)
Theorem webhookMessage_identifies_known_users_only
        (call_id : option string) (message : WebhookMessage.t)
        (beyContexts : BeyContexts) (w : World)
        (r : Result BeyContexts) (w' : World) :
  webhookMessage call_id message beyContexts w = (r, w') ->
  db w' = db w /\
  exists contexts',
    r = Ok contexts' /\
    (contexts' = beyContexts \/
     exists callId context user digitsOnly,
       call_id = Some callId /\
       JsMap.get String.eqb callId beyContexts = Some context /\
       WebhookMessage.sender message = Some "user" /\
       String.length digitsOnly = 10%nat /\
       find (byPhone digitsOnly) (users (db w)) = Some user /\
       contexts' =
       JsMap.set String.eqb callId
                 (identifyContext context user digitsOnly) beyContexts).
Proof.
  intros H. unfold webhookMessage in H.
  destruct call_id as [callId|];
    [|inversion H; split; [reflexivity|]; eexists; split; [reflexivity|];
      left; reflexivity].
  destruct (JsMap.get String.eqb callId beyContexts) as [context|] eqn:Hctx;
    [|inversion H; split; [reflexivity|]; eexists; split; [reflexivity|];
      left; reflexivity].
  destruct (Js.strictEq "user" (WebhookMessage.sender message) &&
            Js.truthyStr (WebhookMessage.message message)) eqn:Huser;
    [|inversion H; split; [reflexivity|]; eexists; split; [reflexivity|];
      left; reflexivity].
  destruct (phoneMatch (Js.showStr (WebhookMessage.message message)))
    as [matched|] eqn:Hmatch;
    [|inversion H; split; [reflexivity|]; eexists; split; [reflexivity|];
      left; reflexivity].
  unfold bind, ret, storage.getUserByPhoneNumber, storageRead,
    storageCall in H.
  cbv beta iota zeta in H. simpl db in H.
  fold (byPhone (Js.stripNonDigits matched)) in H.
  destruct (find (byPhone (Js.stripNonDigits matched)) (users (db w)))
    as [user|] eqn:Hfind;
    inversion H; (split; [reflexivity|]); eexists; (split; [reflexivity|]);
    [|left; reflexivity].
  right. exists callId, context, user, (Js.stripNonDigits matched).
  apply andb_true_iff in Huser. destruct Huser as [Hsender _].
  unfold Js.strictEq in Hsender.
  destruct (WebhookMessage.sender message) as [sender|]; [|discriminate].
  apply String.eqb_eq in Hsender. subst sender.
  split; [reflexivity|]. split; [exact Hctx|]. split; [reflexivity|].
  split; [exact (proj2 (phoneMatch_spec _ _ Hmatch))|].
  split; [exact Hfind|reflexivity].
Qed.

(** A user, and a call that has a context. *)
Definition knownCallerWorld : World :=
  mkWorld (mkStore [User.mk 1 "5551234567" (Some "Ada")] [] [] [] 2 1 1) [].

Definition openCall : BeyContexts :=
  [("call-7", BeyContext.mk "call-7" "agent" None None None)].

Definition spokenNumber : WebhookMessage.t :=
  WebhookMessage.mk (Some "user") (Some "it is 555-123-4567").

Lemma webhookMessage_witness :
  db (snd (webhookMessage (Some "call-7") spokenNumber openCall
                          knownCallerWorld)) = db knownCallerWorld.
Proof.
  exact (proj1 (webhookMessage_identifies_known_users_only
                  (Some "call-7") spokenNumber openCall knownCallerWorld
                  _ _ (surjective_pairing _))).
Defined.

(** *** The times the webhook offers *)

(** The booked slots that [storage.getBookedSlots] returns. *)
Definition bookedSlotsOf (s : Store) : list Slot :=
  List.map slotOf (List.filter Appointment.isActive (appointments s)).

(** The text [get_available_slots] makes of the open times. *)
Definition openTimesText (date : string) (open : list string) : string :=
  match open with
  | [] =>
      "Sorry, all slots are booked for " ++ date ++
      ". Would you like to try a different date? Available dates are January 28-31 and February 1, 2026."
  | _ =>
      "Available slots for " ++ date ++ ": " ++ Js.join ", " open ++
      ". Which time works best for you?"
  end.

Lemma openTimes_In date booked time :
  In time (openTimes date booked) <->
  In time allSlots /\
  existsb (slotIs (Some date) (Some time)) booked = false.
Proof.
  unfold openTimes. cbv zeta. rewrite filter_In.
  assert (E : existsb (String.eqb time)
                (List.map slotTime
                   (List.filter (fun s => (slotDate s =? date)%string)
                                booked)) =
              existsb (slotIs (Some date) (Some time)) booked).
  { induction booked as [|s booked IH]; simpl; [reflexivity|].
    unfold slotIs at 1. unfold Js.strictEq.
    destruct (slotDate s =? date)%string; simpl; rewrite IH;
      [|reflexivity].
    rewrite (String.eqb_sym time). reflexivity. }
  rewrite E. split; intros [Hin H]; (split; [exact Hin|]).
  - apply negb_true_iff in H. exact H.
  - rewrite H. reflexivity.
Qed.

Lemma allSlots_nonempty time : In time allSlots -> time <> "".
Proof.
  unfold allSlots. simpl.
  intros [H|[H|[H|[H|[H|[H|[]]]]]]]; subst time; discriminate.
Qed.

(** A booking of the webhook by an identified caller with a date and a
    time: refused on a booked slot, created otherwise. *)
Lemma webhook_book_appointment_at args context w userId date time :
  beyIdentified context = Some userId ->
  Args.date args = Some date -> Args.time args = Some time ->
  date <> "" -> time <> "" ->
  exists text,
    webhook_book_appointment args context w =
    (Ok text,
     if activeBooked (Some date) (Some time) (db w)
     then mkWorld (db w) (log w ++ [OpGetBookedSlots])
     else bookedWorld w
            (Appointment.mk (nextAppointmentId (db w)) userId date time
               (Js.orElse (Args.description args) (Some generalAppointment))
               "scheduled")).
Proof.
  intros Hid Hd Ht Hdne Htne. unfold webhook_book_appointment.
  rewrite Hid, Hd, Ht. unfold Js.truthyStr.
  apply String.eqb_neq in Hdne, Htne. rewrite Hdne, Htne.
  change (negb (negb false) || negb (negb false)) with false.
  unfold bind, storage.getBookedSlots, storageRead, storageCall.
  cbv beta iota zeta. rewrite booked_test.
  destruct (activeBooked (Some date) (Some time) (db w));
    [eexists; reflexivity|].
  unfold ret, storage.createAppointment, storageCall, bookedWorld.
  cbv beta iota zeta. simpl db. simpl log. rewrite <- app_assoc.
  eexists. reflexivity.
Qed.

(** X23.  The webhook offers exactly the times it will book.  On a date,
    [get_available_slots] answers with the times of its six that no active
    appointment has on that date; and for each of the six times,
    [book_appointment] called by an identified caller on that state of the
    database creates the appointment when the time is among those offered,
    and refuses it, writing nothing, when it is not. *)
Theorem webhook_offers_the_times_it_books
        (args : Args.t) (date : string) (w : World) :
  Args.date args = Some date -> date <> "" ->
  webhook_get_available_slots args w =
  (Ok (openTimesText date (openTimes date (bookedSlotsOf (db w)))),
   mkWorld (db w) (log w ++ [OpGetBookedSlots])) /\
  forall time bookArgs context userId wb,
    In time allSlots ->
    db wb = db w ->
    beyIdentified context = Some userId ->
    Args.date bookArgs = Some date ->
    Args.time bookArgs = Some time ->
    exists text,
      webhook_book_appointment bookArgs context wb =
      (Ok text,
       if existsb (String.eqb time) (openTimes date (bookedSlotsOf (db w)))
       then bookedWorld wb
              (Appointment.mk (nextAppointmentId (db w)) userId date time
                 (Js.orElse (Args.description bookArgs)
                            (Some generalAppointment))
                 "scheduled")
       else mkWorld (db wb) (log wb ++ [OpGetBookedSlots])).
Proof.
  intros Hd Hne. split.
  - unfold webhook_get_available_slots. rewrite Hd. unfold Js.truthyStr.
    rewrite (proj2 (String.eqb_neq date "") Hne).
    change (negb (negb false)) with false.
    change (Js.showStr (Some date)) with date.
    unfold bind, ret, storage.getBookedSlots, storageRead, storageCall,
      openTimesText, bookedSlotsOf, slotOf.
    cbv beta iota zeta.
    destruct (openTimes date _); reflexivity.
  - intros time bookArgs context userId wb Hin Hdb Hid Hbd Hbt.
    destruct (webhook_book_appointment_at bookArgs context wb userId date
                time Hid Hbd Hbt Hne (allSlots_nonempty time Hin))
      as (text & Hrun).
    exists text. rewrite Hrun, Hdb. f_equal.
    unfold activeBooked at 1.
    pose proof (openTimes_In date (bookedSlotsOf (db w)) time) as Hopen.
    unfold bookedSlotsOf in Hopen at 2. rewrite existsb_booked in Hopen.
    assert (Hocc : existsb (occupies (Some date) (Some time))
                           (appointments (db w)) =
                   existsb (fun a => Appointment.isActive a &&
                                     slotIs (Some date) (Some time) (slotOf a))
                           (appointments (db w))).
    { apply existsb_ext_eq. intros a. unfold occupies, slotIs, slotOf.
      simpl. rewrite andb_assoc. reflexivity. }
    rewrite Hocc.
    destruct (existsb (String.eqb time)
                      (openTimes date (bookedSlotsOf (db w)))) eqn:Eopen.
    + apply existsb_exists in Eopen. destruct Eopen as (t & Ht & Heq).
      apply String.eqb_eq in Heq. subst t.
      apply Hopen in Ht. rewrite (proj2 Ht). reflexivity.
    + destruct (existsb (fun a => Appointment.isActive a &&
                                  slotIs (Some date) (Some time) (slotOf a))
                        (appointments (db w))) eqn:Eb; [reflexivity|].
      exfalso.
      assert (Ht : In time (openTimes date (bookedSlotsOf (db w))))
        by (apply Hopen; split; [exact Hin|reflexivity]).
      assert (Hex : existsb (String.eqb time)
                            (openTimes date (bookedSlotsOf (db w))) = true).
      { apply existsb_exists. exists time.
        split; [exact Ht|apply String.eqb_refl]. }
      congruence.
Qed.

Definition dateArgs (date : string) : Args.t :=
  Args.mk None None (Some date) None None None None None.

Lemma webhook_offers_witness :
  webhook_get_available_slots (dateArgs "2026-01-29") strangerWorld =
  (Ok "Available slots for 2026-01-29: 9:00 AM, 10:00 AM, 2:00 PM, 3:00 PM, 4:00 PM. Which time works best for you?",
   mkWorld (db strangerWorld) [OpGetBookedSlots]).
Proof.
  refine (proj1 (webhook_offers_the_times_it_books
                   (dateArgs "2026-01-29") "2026-01-29" strangerWorld
                   eq_refl _)).
  discriminate.
Defined.

(** *** Calls that are not identified *)

Lemma bind_ok {A B} (m : M A) (k : A -> M B) w a w1 :
  m w = (Ok a, w1) -> bind m k w = k a w1.
Proof. intros E. unfold bind. rewrite E. reflexivity. Qed.

Lemma catching_ok {A} (m : M A) (onError : A) w a w1 :
  m w = (Ok a, w1) -> catching m onError w = (Ok a, w1).
Proof. intros E. unfold catching. rewrite E. reflexivity. Qed.

Lemma toolExecute_set_user_name_unidentified args context w :
  beyIdentified context = None ->
  toolExecute_set_user_name args context w =
  (Ok ("Please provide your phone number first.", context), w) /\
  Js.truthyNum (BeyContext.userId context) = false.
Proof.
  unfold beyIdentified, toolExecute_set_user_name, Js.truthyNum.
  destruct (BeyContext.userId context) as [userId|]; [|split; reflexivity].
  destruct (userId =? 0); [split; reflexivity|discriminate].
Qed.

(** X24.  A call that is not identified changes nothing through the tools
    of the routes, [identify_user] apart and, on the webhook,
    [cancel_appointment] apart: every other request to the tool-execute
    route, with a known tool name, an unknown one or none, and every other
    tool call of the webhook leaves the database and the contexts of the
    calls as they were, and reads at most the booked slots. *)
Theorem unidentified_calls_change_nothing_through_the_routes
        (context : BeyContext.t) :
  beyIdentified context = None ->
  (forall tool_name args call_id beyContexts w,
      contextOf call_id beyContexts = context ->
      tool_name <> Some "identify_user" ->
      exists response w',
        postToolExecute tool_name args call_id beyContexts w =
        (Ok (response, beyContexts), w') /\
        db w' = db w /\
        (log w' = log w \/ log w' = (log w ++ [OpGetBookedSlots])%list)) /\
  (forall toolName args w,
      toolName <> Some "identify_user" ->
      toolName <> Some "cancel_appointment" ->
      exists text w',
        webhookTool toolName args context w = (Ok (text, None), w') /\
        db w' = db w /\
        (log w' = log w \/ log w' = (log w ++ [OpGetBookedSlots])%list)).
Proof.
  intros Hident. split.
  - intros tool_name args call_id beyContexts w Hctx Hname.
    unfold postToolExecute. cbv zeta. rewrite Hctx.
    destruct (negb (Js.truthyStr tool_name)) eqn:Htruthy.
    { do 2 eexists. split; [reflexivity|]. split; [reflexivity|].
      left. reflexivity. }
    apply negb_false_iff in Htruthy.
    destruct (Js.showStr tool_name =? "identify_user")%string eqn:E1.
    { exfalso. apply Hname. rewrite (truthyStr_some _ Htruthy).
      apply String.eqb_eq in E1. rewrite E1. reflexivity. }
    destruct (Js.showStr tool_name =? "set_user_name")%string.
    { destruct (toolExecute_set_user_name_unidentified args context w Hident)
        as [Hrun Hno].
      do 2 eexists. split.
      - apply catching_ok. rewrite (bind_ok _ _ _ _ _ Hrun), Hno.
        reflexivity.
      - split; [reflexivity|]. left. reflexivity. }
    destruct (Js.showStr tool_name =? "fetch_slots")%string.
    { destruct (toolExecute_fetch_slots_run args w) as (text & Hrun).
      do 2 eexists. split.
      - apply catching_ok. rewrite (bind_ok _ _ _ _ _ Hrun). reflexivity.
      - split; [reflexivity|]. right. reflexivity. }
    destruct (Js.showStr tool_name =? "book_appointment")%string.
    { do 2 eexists. split.
      - apply catching_ok. unfold toolExecute_book_appointment.
        rewrite Hident. reflexivity.
      - split; [reflexivity|]. left. reflexivity. }
    destruct (Js.showStr tool_name =? "retrieve_appointments")%string.
    { do 2 eexists. split.
      - apply catching_ok. unfold toolExecute_retrieve_appointments.
        rewrite Hident. reflexivity.
      - split; [reflexivity|]. left. reflexivity. }
    destruct (Js.showStr tool_name =? "cancel_appointment")%string.
    { do 2 eexists. split.
      - apply catching_ok. unfold toolExecute_cancel_appointment.
        rewrite Hident. reflexivity.
      - split; [reflexivity|]. left. reflexivity. }
    do 2 eexists. split; [reflexivity|]. split; [reflexivity|].
    left. reflexivity.
  - intros toolName args w Hname Hcancel. unfold webhookTool. cbv zeta.
    destruct (Js.strictEq "identify_user" toolName) eqn:E1.
    { exfalso. apply Hname. unfold Js.strictEq in E1.
      destruct toolName as [x|]; [|discriminate].
      apply String.eqb_eq in E1. rewrite <- E1. reflexivity. }
    destruct (Js.strictEq "get_user_appointments" toolName).
    { do 2 eexists. split.
      - unfold webhook_get_user_appointments. rewrite Hident. reflexivity.
      - split; [reflexivity|]. left. reflexivity. }
    destruct (Js.strictEq "get_available_slots" toolName).
    { unfold webhook_get_available_slots.
      destruct (negb (Js.truthyStr (Args.date args))).
      - do 2 eexists. split; [reflexivity|]. split; [reflexivity|].
        left. reflexivity.
      - unfold bind, ret, storage.getBookedSlots, storageRead, storageCall.
        cbv beta iota zeta.
        destruct (openTimes _ _); do 2 eexists;
          (split; [reflexivity|]; split; [reflexivity|]; right;
           reflexivity). }
    destruct (Js.strictEq "book_appointment" toolName).
    { do 2 eexists. split.
      - unfold webhook_book_appointment. rewrite Hident. reflexivity.
      - split; [reflexivity|]. left. reflexivity. }
    destruct (Js.strictEq "cancel_appointment" toolName) eqn:E5.
    { exfalso. apply Hcancel. unfold Js.strictEq in E5.
      destruct toolName as [x|]; [|discriminate].
      apply String.eqb_eq in E5. rewrite <- E5. reflexivity. }
    do 2 eexists. split; [reflexivity|]. split; [reflexivity|].
    left. reflexivity.
Qed.

Lemma unidentified_calls_witness :
  exists response w',
    postToolExecute (Some "cancel_appointment") (cancelArgs 1) "call-7" []
                    strangerWorld = (Ok (response, []), w') /\
    db w' = db strangerWorld.
Proof.
  destruct (proj1 (unidentified_calls_change_nothing_through_the_routes
                     (contextOf "call-7" []) eq_refl)
                  (Some "cancel_appointment") (cancelArgs 1) "call-7" []
                  strangerWorld eq_refl)
    as (response & w' & Hrun & Hdb & _); [discriminate|].
  exists response, w'. split; [exact Hrun|exact Hdb].
Defined.

(** *** Identified on one request, served on the next *)






(** *** Conversations and their messages *)

(** Every message belongs to a conversation of the table. *)
Definition messagesLinked (s : ChatStore) : Prop :=
  forall m, In m (messages s) ->
            getConversation (Message.conversationId m) s <> None.

Lemma find_filter_other {A} (p q : A -> bool) (l : list A) :
  (forall x, p x = true -> q x = true) ->
  find p (List.filter q l) = find p l.
Proof.
  intros Hpq. induction l as [|x l IH]; simpl; [reflexivity|].
  destruct (q x) eqn:Q; simpl.
  - destruct (p x); [reflexivity|exact IH].
  - destruct (p x) eqn:P; [|exact IH].
    rewrite (Hpq x P) in Q. discriminate.
Qed.

Lemma filter_filter_other {A} (p q : A -> bool) (l : list A) :
  (forall x, p x = true -> q x = true) ->
  List.filter p (List.filter q l) = List.filter p l.
Proof.
  intros Hpq. induction l as [|x l IH]; simpl; [reflexivity|].
  destruct (q x) eqn:Q; simpl.
  - destruct (p x); [rewrite IH; reflexivity|exact IH].
  - destruct (p x) eqn:P; [|exact IH].
    rewrite (Hpq x P) in Q. discriminate.
Qed.

Lemma filter_nothing {A} (p : A -> bool) (l : list A) :
  (forall x, In x l -> p x = false) -> List.filter p l = [].
Proof.
  induction l as [|x l IH]; simpl; intros H; [reflexivity|].
  rewrite (H x (or_introl eq_refl)). apply IH. intros y Hy. apply H.
  right. exact Hy.
Qed.

(** X26.  [deleteConversation] removes one conversation and its messages,
    and nothing else: afterwards the conversation is not found and has no
    message, every other conversation is found as before with the
    messages it had, in their order, and every message that is left still
    belongs to a conversation when that was so before.  Deleting a
    conversation that does not exist is not an error. *)
Theorem deleteConversation_removes_one_conversation
        (id : Z) (s : ChatStore) :
  let s' := deleteConversation id s in
  getConversation id s' = None /\
  getMessagesByConversation id s' = [] /\
  (forall other,
      other <> id ->
      getConversation other s' = getConversation other s /\
      getMessagesByConversation other s' =
      getMessagesByConversation other s) /\
  (messagesLinked s -> messagesLinked s') /\
  (getConversation id s = None -> getMessagesByConversation id s = [] ->
   conversations s' = conversations s /\ messages s' = messages s).
Proof.
  intros s'. unfold s', deleteConversation, getConversation,
               getMessagesByConversation. simpl.
  split.
  { destruct (find _ _) as [c|] eqn:E; [|reflexivity].
    apply find_some in E. destruct E as [Hin Hc].
    apply filter_In in Hin. destruct Hin as [_ Hn].
    rewrite Hc in Hn. discriminate. }
  split.
  { apply filter_nothing. intros m Hin. apply filter_In in Hin.
    destruct Hin as [_ Hn]. apply negb_true_iff in Hn. exact Hn. }
  assert (Hother : forall other x, other <> id ->
                                   (x =? other) = true ->
                                   negb (x =? id) = true).
  { intros other x Hne E. apply Z.eqb_eq in E. subst x.
    apply negb_true_iff. apply Z.eqb_neq. exact Hne. }
  split.
  { intros other Hne. split.
    - apply find_filter_other. intros c. apply (Hother other _ Hne).
    - apply filter_filter_other. intros m. apply (Hother other _ Hne). }
  split.
  { intros Hlinked m Hin. simpl in Hin. apply filter_In in Hin.
    destruct Hin as [Hin Hn]. unfold getConversation. simpl.
    rewrite find_filter_other.
    - apply (Hlinked m Hin).
    - intros c Hc. apply Z.eqb_eq in Hc. rewrite Hc. exact Hn. }
  intros Hnone Hempty. split.
  - apply forallb_filter_id. apply forallb_forall. intros c Hin.
    apply negb_true_iff. exact (find_none _ _ Hnone c Hin).
  - apply forallb_filter_id. apply forallb_forall. intros m Hin.
    apply negb_true_iff.
    destruct (Message.conversationId m =? id) eqn:E; [|reflexivity].
    assert (Hm : In m (List.filter (fun m => Message.conversationId m =? id)
                                   (messages s)))
      by (apply filter_In; split; assumption).
    rewrite Hempty in Hm. contradiction.
Qed.

(** X27.  A message is filed under its conversation, last.  [createMessage]
    is rejected exactly when no conversation has the id; otherwise the
    message has the role and the content passed, the messages of the
    conversation are the ones it had followed by the new one, the messages
    of every other conversation and the conversations themselves are as
    before, and every message still belongs to a conversation when that
    was so before. *)
Theorem createMessage_files_the_message_last
        (conversationId : Z) (role content : string) (s : ChatStore) :
  match createMessage conversationId role content s with
  | None => getConversation conversationId s = None
  | Some (message, s') =>
      getConversation conversationId s <> None /\
      Message.conversationId message = conversationId /\
      Message.role message = role /\
      Message.content message = content /\
      getMessagesByConversation conversationId s' =
      (getMessagesByConversation conversationId s ++ [message])%list /\
      (forall other,
          other <> conversationId ->
          getMessagesByConversation other s' =
          getMessagesByConversation other s) /\
      conversations s' = conversations s /\
      (messagesLinked s -> messagesLinked s')
  end.
Proof.
  unfold createMessage.
  destruct (getConversation conversationId s) as [c|] eqn:Hc;
    [|reflexivity].
  cbv zeta. split; [discriminate|].
  split; [reflexivity|]. split; [reflexivity|]. split; [reflexivity|].
  unfold getMessagesByConversation. simpl. split.
  { rewrite filter_app. simpl. rewrite Z.eqb_refl. reflexivity. }
  split.
  { intros other Hne. rewrite filter_app. simpl.
    destruct (conversationId =? other) eqn:E;
      [apply Z.eqb_eq in E; congruence|apply app_nil_r]. }
  split; [reflexivity|].
  intros Hlinked m Hin. simpl in Hin. apply in_app_iff in Hin.
  unfold getConversation in *. simpl.
  destruct Hin as [Hin|[<-|[]]].
  - apply (Hlinked m Hin).
  - simpl. rewrite Hc. discriminate.
Qed.
